(** * Risk prediction engine of the healthcare readmission predictor

    Shallow embedding of [SurvivalAnalysisService] (src/main.ts) and of its
    enterprise twin [SurvivalAnalysisEngine] (the C# service layer), with
    the properties of the engine stated over it.

    Numbers.  The engine computes on IEEE-754 doubles through [Math.exp] and
    [Math.pow], which the language standard leaves implementation-approximated.
    The development reads the code at two levels.

    - The formulas of the engine (orderings, bounds, the identities between
      its functions) are stated over [Number], which keeps the special
      values of a JavaScript [number] ([NaN], the two infinities) and their
      arithmetic and takes the finite values as exact reals: rounding,
      overflow, underflow and the sign of zero are outside that model, and
      a statement over it is kept only where they do not change it.

    - What the engine does at the edges of the doubles (arguments out of
      the domain, a zero total, an overflowing predictor) is stated over
      [Binary64], the same functions on the binary64 doubles of the
      machine, with the two zeros, rounding, overflow and underflow. *)

From Stdlib Require Import Reals Lra Lia ZArith Bool Ascii String List.
From Stdlib Require Import Arith Sorting Permutation.
From Stdlib Require DecimalString.
From Corelib Require PrimFloat SpecFloat FloatOps FloatAxioms.
Import ListNotations.

(** A decimal literal of the source denotes the nearest double. *)
Set Warnings "-inexact-float".

Open Scope R_scope.

(** ** The [number] type and the operations the engine uses *)

Module Number.

Inductive number : Type :=
| NaN
| PosInf
| NegInf
| Fin (r : R).

Definition Rltb (a b : R) : bool := if Rlt_dec a b then true else false.
Definition Reqb (a b : R) : bool := if Req_dec_T a b then true else false.

Definition isInteger (r : R) : bool := Reqb (IZR (Int_part r)) r.
Definition isOddInteger (r : R) : bool := isInteger r && Z.odd (Int_part r).

Definition infSigned (negative : bool) : number :=
  if negative then NegInf else PosInf.

(** Unary minus. *)
Definition neg (x : number) : number :=
  match x with
  | NaN => NaN
  | PosInf => NegInf
  | NegInf => PosInf
  | Fin a => Fin (- a)
  end.

(** [x + y]. *)
Definition add (x y : number) : number :=
  match x, y with
  | NaN, _ | _, NaN => NaN
  | PosInf, NegInf | NegInf, PosInf => NaN
  | PosInf, _ | _, PosInf => PosInf
  | NegInf, _ | _, NegInf => NegInf
  | Fin a, Fin b => Fin (a + b)
  end.

(** [x - y]. *)
Definition sub (x y : number) : number := add x (neg y).

(** [x * y]: infinity times zero is [NaN]. *)
Definition mul (x y : number) : number :=
  match x, y with
  | NaN, _ | _, NaN => NaN
  | Fin a, Fin b => Fin (a * b)
  | Fin a, PosInf | PosInf, Fin a =>
      if Reqb a 0 then NaN else infSigned (Rltb a 0)
  | Fin a, NegInf | NegInf, Fin a =>
      if Reqb a 0 then NaN else infSigned (negb (Rltb a 0))
  | PosInf, PosInf | NegInf, NegInf => PosInf
  | PosInf, NegInf | NegInf, PosInf => NegInf
  end.

(** [x / y]: zero over zero and infinity over infinity are [NaN]; a nonzero
    finite value over zero is the infinity of the dividend's sign. *)
Definition div (x y : number) : number :=
  match x, y with
  | NaN, _ | _, NaN => NaN
  | Fin a, Fin b =>
      if Reqb b 0
      then (if Reqb a 0 then NaN else infSigned (Rltb a 0))
      else Fin (a / b)
  | Fin _, PosInf | Fin _, NegInf => Fin 0
  | PosInf, Fin b => infSigned (Rltb b 0)
  | NegInf, Fin b => infSigned (negb (Rltb b 0))
  | PosInf, PosInf | PosInf, NegInf | NegInf, PosInf | NegInf, NegInf => NaN
  end.

(** [x > y]: false as soon as one side is [NaN]. *)
Definition gtb (x y : number) : bool :=
  match x, y with
  | NaN, _ | _, NaN => false
  | PosInf, PosInf => false
  | PosInf, _ => true
  | _, PosInf => false
  | NegInf, _ => false
  | Fin _, NegInf => true
  | Fin a, Fin b => Rltb b a
  end.

(** [Math.max(x, y)] and [Math.min(x, y)]: [NaN] as soon as one argument is. *)
Definition max (x y : number) : number :=
  match x, y with
  | NaN, _ | _, NaN => NaN
  | _, _ => if gtb x y then x else y
  end.

Definition min (x y : number) : number :=
  match x, y with
  | NaN, _ | _, NaN => NaN
  | _, _ => if gtb x y then y else x
  end.

(** [Math.exp(x)]. *)
Definition exp (x : number) : number :=
  match x with
  | NaN => NaN
  | PosInf => PosInf
  | NegInf => Fin 0
  | Fin a => Fin (Rtrigo_def.exp a)
  end.

(** [Math.pow(base, exponent)], case by case as Number::exponentiate lists
    them. *)
Definition pow (base exponent : number) : number :=
  match exponent with
  | NaN => NaN
  | Fin e =>
      if Reqb e 0 then Fin 1 else
      match base with
      | NaN => NaN
      | PosInf => if Rltb 0 e then PosInf else Fin 0
      | NegInf =>
          if Rltb 0 e
          then (if isOddInteger e then NegInf else PosInf)
          else Fin 0
      | Fin b =>
          if Reqb b 0 then (if Rltb 0 e then Fin 0 else PosInf)
          else if Rltb b 0
               then (if isInteger e then Fin (powerRZ b (Int_part e)) else NaN)
               else Fin (Rpower b e)
      end
  | PosInf =>
      match base with
      | NaN => NaN
      | PosInf => PosInf
      | NegInf => PosInf
      | Fin b =>
          if Rltb 1 (Rabs b) then PosInf
          else if Reqb (Rabs b) 1 then NaN
               else Fin 0
      end
  | NegInf =>
      match base with
      | NaN => NaN
      | PosInf => Fin 0
      | NegInf => Fin 0
      | Fin b =>
          if Reqb b 0 then PosInf
          else if Rltb 1 (Rabs b) then Fin 0
               else if Reqb (Rabs b) 1 then NaN
                    else PosInf
      end
  end.

Definition isFinite (x : number) : bool :=
  match x with
  | Fin _ => true
  | _ => false
  end.

(** Order on numbers as a proposition: neither side is [NaN] and the left
    one is at most the right one. *)
Definition le (x y : number) : Prop :=
  match x, y with
  | NaN, _ | _, NaN => False
  | NegInf, _ => True
  | _, PosInf => True
  | Fin a, Fin b => a <= b
  | _, _ => False
  end.

End Number.

Import Number.

Declare Scope number_scope.
Delimit Scope number_scope with num.
Bind Scope number_scope with number.
Notation "x + y" := (add x y) : number_scope.
Notation "x - y" := (sub x y) : number_scope.
Notation "x * y" := (mul x y) : number_scope.
Notation "x / y" := (div x y) : number_scope.
Notation "- x" := (neg x) : number_scope.
Notation "x >? y" := (gtb x y) (at level 70, no associativity) : number_scope.

(** A numeric literal of the source. *)
Coercion Fin : R >-> number.

(** ** Data of the service (src/main.ts) *)

(** [RiskPredictionDto]; the patient identifier is an opaque label that
    the engine never reads. *)
Record RiskPredictionDto : Type := {
  patientId : string;
  age : number;
  numComorbidities : number;
  priorAdmissions : number;
  diabetes : bool;
  chf : bool;
  copd : bool;
  socioeconomicIndex : number
}.

(** The object literal returned by [predictReadmissionRisk]. *)
Record RiskPrediction : Type := {
  risk30Day : number;
  risk60Day : number;
  risk90Day : number;
  hazardRatio : number;
  riskCategory : string;
  confidenceLower : number;
  confidenceUpper : number
}.

(** The object literal returned by [calculateCompetingRisks]. *)
Record CompetingRisks : Type := {
  readmission : number;
  death : number;
  transfer : number;
  recovery : number
}.

(** How a call ends: with a value, or by raising one of the failures of the
    engine's error taxonomy. *)
Inductive EngineError : Type :=
| InvalidParameter
| MalformedInput.

Inductive completion (A : Type) : Type :=
| Normal (value : A)
| Throw (error : EngineError).
Arguments Normal {A} value.
Arguments Throw {A} error.

(** [array.push(item, ...)] on a list of strings: the items are appended in
    order. *)
Definition push (array items : list string) : list string :=
  List.app array items.

(** A parameter with a default value: [None] is an omitted argument. *)
Definition orDefault (arg : option number) (dflt : number) : number :=
  match arg with
  | Some v => v
  | None => dflt
  end.

(** ** SurvivalAnalysisService (src/main.ts, lines 163-271) *)

Module SurvivalAnalysisService.

Local Open Scope string_scope.
Local Open Scope number_scope.

(** [calculateWeibullSurvival(time, shape = 1.5, scale = 60)]. *)
Definition calculateWeibullSurvival
    (time : number) (shape scale : option number) : number :=
  let shape := orDefault shape 1.5 in
  let scale := orDefault scale 60 in
  exp (- pow (time / scale) shape).

(** [calculateHazardRate(time, shape = 1.5, scale = 60)]. *)
Definition calculateHazardRate
    (time : number) (shape scale : option number) : number :=
  let shape := orDefault shape 1.5 in
  let scale := orDefault scale 60 in
  (shape / scale) * pow (time / scale) (shape - 1).

(** The [coefficients] object of [calculateCoxRiskScore]. *)
Module coefficients.
Definition age : number := 0.035.
Definition numComorbidities : number := 0.52.
Definition priorAdmissions : number := 0.64.
Definition diabetes : number := 0.52.
Definition chf : number := 0.76.
Definition copd : number := 0.41.
Definition socioeconomicIndex : number := (- 0.015)%R.
End coefficients.

(** [flag ? 1 : 0]. *)
Definition indicator (flag : bool) : number := if flag then 1 else 0.

(** The local [linearPredictor] of [calculateCoxRiskScore]. *)
Definition linearPredictor (patientFeatures : RiskPredictionDto) : number :=
  coefficients.age * (patientFeatures.(age) - 65) / 10 +
  coefficients.numComorbidities * patientFeatures.(numComorbidities) +
  coefficients.priorAdmissions * patientFeatures.(priorAdmissions) +
  coefficients.diabetes * indicator patientFeatures.(diabetes) +
  coefficients.chf * indicator patientFeatures.(chf) +
  coefficients.copd * indicator patientFeatures.(copd) +
  coefficients.socioeconomicIndex * (patientFeatures.(socioeconomicIndex) - 50) / 50.

(** [calculateCoxRiskScore(patientFeatures)]. *)
Definition calculateCoxRiskScore (patientFeatures : RiskPredictionDto) : number :=
  exp (linearPredictor patientFeatures).

(** [risk30 > 0.6 ? 'high' : risk30 > 0.3 ? 'medium' : 'low'] (line 211). *)
Definition categorize (risk30 : number) : string :=
  if risk30 >? 0.6 then "high"%string
  else if risk30 >? 0.3 then "medium"%string
  else "low"%string.

(** [predictReadmissionRisk(patientFeatures)]. *)
Definition predictReadmissionRisk (patientFeatures : RiskPredictionDto)
  : RiskPrediction :=
  let hazardRatio := calculateCoxRiskScore patientFeatures in
  let baselineSurvival30 := calculateWeibullSurvival 30 None None in
  let baselineSurvival60 := calculateWeibullSurvival 60 None None in
  let baselineSurvival90 := calculateWeibullSurvival 90 None None in
  let adjustedSurvival30 := pow baselineSurvival30 hazardRatio in
  let adjustedSurvival60 := pow baselineSurvival60 hazardRatio in
  let adjustedSurvival90 := pow baselineSurvival90 hazardRatio in
  let risk30 := 1 - adjustedSurvival30 in
  let risk60 := 1 - adjustedSurvival60 in
  let risk90 := 1 - adjustedSurvival90 in
  let riskCategory := categorize risk30 in
  {| risk30Day := min (max risk30 0) 1;
     risk60Day := min (max risk60 0) 1;
     risk90Day := min (max risk90 0) 1;
     hazardRatio := hazardRatio;
     riskCategory := riskCategory;
     confidenceLower := max 0 (risk30 * 0.85);
     confidenceUpper := min 1 (risk30 * 1.15) |}.

(** The local [risk30] (resp. [risk60], [risk90]) of
    [predictReadmissionRisk], before clamping, as a function of the horizon
    and of the hazard ratio. *)
Definition rawRisk (horizon hazardRatio : number) : number :=
  1 - pow (calculateWeibullSurvival horizon None None) hazardRatio.

(** [generateCarePlan(riskAssessment)]: branches on [risk30Day]. *)
Definition generateCarePlan (riskAssessment : RiskPrediction) : list string :=
  let recommendations : list string := [] in
  if riskAssessment.(risk30Day) >? 0.6 then
    push recommendations
     [ "HIGH PRIORITY: Schedule follow-up within 3 days of discharge";
       "Arrange home health nursing visit within 24 hours";
       "Implement daily medication adherence monitoring";
       "Consider transitional care management program enrollment";
       "Schedule telehealth check-in at 48 hours post-discharge";
       "Ensure caregiver education and support systems in place" ]
  else if riskAssessment.(risk30Day) >? 0.3 then
    push recommendations
     [ "Schedule follow-up within 7 days of discharge";
       "Medication reconciliation and adherence counseling required";
       "Provide written discharge instructions with 24/7 contact numbers";
       "Arrange follow-up call within 48-72 hours";
       "Consider home health evaluation" ]
  else
    push recommendations
     [ "Standard follow-up within 14 days of discharge";
       "Provide discharge education materials";
       "Ensure understanding of medication regimen";
       "Provide emergency contact information" ].

(** [calculateCompetingRisks(time)]. *)
Definition calculateCompetingRisks (time : number) : CompetingRisks :=
  let baseReadmission := 0.4 * (1 - exp (- time / 45)) in
  let baseDeath := 0.1 * (1 - exp (- time / 60)) in
  let baseTransfer := 0.12 * (1 - exp (- time / 50)) in
  let baseRecovery := 0.38 * (1 - exp (- time / 40)) in
  let total := baseReadmission + baseDeath + baseTransfer + baseRecovery in
  {| readmission := baseReadmission / total;
     death := baseDeath / total;
     transfer := baseTransfer / total;
     recovery := baseRecovery / total |}.

(** The locals of [calculateCompetingRisks], named so that statements can
    speak of them: the four bases in the order readmission, death,
    transfer, recovery, and their total. *)
Definition base (weight timeConstant time : number) : number :=
  weight * (1 - exp (- time / timeConstant)).

Definition bases (time : number) : list number :=
  [ base 0.4 45 time; base 0.1 60 time; base 0.12 50 time; base 0.38 40 time ].

Definition total (time : number) : number :=
  base 0.4 45 time + base 0.1 60 time + base 0.12 50 time + base 0.38 40 time.

(** Neither [calculateWeibullSurvival] nor [calculateHazardRate] has a
    [throw], and [Math.exp], [Math.pow] and the arithmetic operators raise
    nothing on numbers: a call always completes normally. *)
Definition callWeibullSurvival
    (time : number) (shape scale : option number) : completion number :=
  Normal (calculateWeibullSurvival time shape scale).

Definition callHazardRate
    (time : number) (shape scale : option number) : completion number :=
  Normal (calculateHazardRate time shape scale).

End SurvivalAnalysisService.

(** ** RiskAssessmentService (src/main.ts, lines 336-394) *)

Module RiskAssessmentService.

Import SurvivalAnalysisService.

(** What [assessPatientRisk] hands back, as far as the engine decides it.
    The two database writes and the row read back from the first are
    effects outside the engine; the row stores the fields of the prediction,
    the category among them as the string it is, and [prediction] stands
    for it. *)
Record PatientRiskAssessment : Type := {
  prediction : RiskPrediction;
  competingRisks : CompetingRisks;
  carePlan : list string
}.

(** [assessPatientRisk(patientId, patientData)]. *)
Definition assessPatientRisk (patientId : string) (patientData : RiskPredictionDto)
  : PatientRiskAssessment :=
  let riskPrediction := predictReadmissionRisk patientData in
  let competingRisks := calculateCompetingRisks 30 in
  let carePlan := generateCarePlan riskPrediction in
  {| prediction := riskPrediction;
     competingRisks := competingRisks;
     carePlan := carePlan |}.

End RiskAssessmentService.

(** ** SurvivalAnalysisEngine, the C# service layer (lines 144-303) *)

Module SurvivalAnalysisEngine.

Local Open Scope string_scope.
Local Open Scope number_scope.

(** [RiskPredictionRequest]: the age and the two counts are [int]. *)
Record RiskPredictionRequest : Type := {
  PatientId : string;
  Age : Z;
  NumComorbidities : Z;
  PriorAdmissions : Z;
  Diabetes : bool;
  CHF : bool;
  COPD : bool;
  SocioeconomicIndex : number
}.

(** The class [CompetingRisks] of the service layer (its name is taken by
    the property of [RiskAssessment] below). *)
Record CompetingRisksValue : Type := {
  Readmission : number;
  Death : number;
  Transfer : number;
  Recovery : number
}.

(** [RiskAssessment], without the identifiers and the time stamp, which
    the engine copies or reads from the clock. *)
Record RiskAssessment : Type := {
  Risk30Day : number;
  Risk60Day : number;
  Risk90Day : number;
  HazardRatio : number;
  RiskCategory : string;
  ConfidenceLower : number;
  ConfidenceUpper : number;
  CompetingRisks : CompetingRisksValue;
  CarePlan : list string
}.

(** Subtraction on [int] wraps around at 32 bits. *)
Definition wrapInt (z : Z) : Z := ((z + 2 ^ 31) mod 2 ^ 32 - 2 ^ 31)%Z.

(** The conversion of an [int] to [double]. *)
Definition ofInt (z : Z) : number := Fin (IZR z).

(** [GenerateCarePlan(risk30, riskCategory)]: branches on the category
    string; [AddRange] appends to the empty list. *)
Definition GenerateCarePlan (risk30 : number) (riskCategory : string)
  : list string :=
  let recommendations : list string := [] in
  if String.eqb riskCategory "high" then
    push recommendations
     [ "HIGH PRIORITY: Schedule follow-up within 3 days of discharge";
       "Arrange home health nursing visit within 24 hours";
       "Implement daily medication adherence monitoring";
       "Consider transitional care management program enrollment";
       "Schedule telehealth check-in at 48 hours post-discharge";
       "Ensure caregiver education and support systems in place" ]
  else if String.eqb riskCategory "medium" then
    push recommendations
     [ "Schedule follow-up within 7 days of discharge";
       "Medication reconciliation and adherence counseling required";
       "Provide written discharge instructions with 24/7 contact numbers";
       "Arrange follow-up call within 48-72 hours";
       "Consider home health evaluation" ]
  else
    push recommendations
     [ "Standard follow-up within 14 days of discharge";
       "Provide discharge education materials";
       "Ensure understanding of medication regimen";
       "Provide emergency contact information" ].

(** [CalculateCompetingRisks(time)]. *)
Definition CalculateCompetingRisks (time : number) : CompetingRisksValue :=
  let baseReadmission := 0.4 * (1 - exp (- time / 45)) in
  let baseDeath := 0.1 * (1 - exp (- time / 60)) in
  let baseTransfer := 0.12 * (1 - exp (- time / 50)) in
  let baseRecovery := 0.38 * (1 - exp (- time / 40)) in
  let total := baseReadmission + baseDeath + baseTransfer + baseRecovery in
  {| Readmission := baseReadmission / total;
     Death := baseDeath / total;
     Transfer := baseTransfer / total;
     Recovery := baseRecovery / total |}.

(** The [coefficients] dictionary of [CalculateCoxRiskScore], by key.  The
    code looks up its seven keys only; the last branch stands for no entry. *)
Definition coefficients (key : string) : number :=
  if String.eqb key "age" then 0.035
  else if String.eqb key "numComorbidities" then 0.52
  else if String.eqb key "priorAdmissions" then 0.64
  else if String.eqb key "diabetes" then 0.52
  else if String.eqb key "chf" then 0.76
  else if String.eqb key "copd" then 0.41
  else if String.eqb key "socioeconomicIndex" then (- 0.015)%R
  else NaN.

(** [CalculateCoxRiskScore(request)]. *)
Definition CalculateCoxRiskScore (request : RiskPredictionRequest) : number :=
  let linearPredictor :=
    coefficients "age" * ofInt (wrapInt (request.(Age) - 65)) / 10 +
    coefficients "numComorbidities" * ofInt request.(NumComorbidities) +
    coefficients "priorAdmissions" * ofInt request.(PriorAdmissions) +
    coefficients "diabetes" * ofInt (if request.(Diabetes) then 1 else 0) +
    coefficients "chf" * ofInt (if request.(CHF) then 1 else 0) +
    coefficients "copd" * ofInt (if request.(COPD) then 1 else 0) +
    coefficients "socioeconomicIndex" * (request.(SocioeconomicIndex) - 50) / 50 in
  exp linearPredictor.

(** The functions that go through [Math.Pow].  The runtime's [Math.Pow]
    is a parameter here: the versions of the platform disagree on some of
    its special cases, and the statements below rely on the regular case
    only, stated where it is used. *)
Section WithMathPow.

Variable Pow : number -> number -> number.

(** [CalculateWeibullSurvival(time, shape = 1.5, scale = 60.0)]. *)
Definition CalculateWeibullSurvival
    (time : number) (shape scale : option number) : number :=
  let shape := orDefault shape 1.5 in
  let scale := orDefault scale 60 in
  exp (- Pow (time / scale) shape).

(** [CalculateHazardRate(time, shape = 1.5, scale = 60.0)]. *)
Definition CalculateHazardRate
    (time : number) (shape scale : option number) : number :=
  let shape := orDefault shape 1.5 in
  let scale := orDefault scale 60 in
  (shape / scale) * Pow (time / scale) (shape - 1).

(** [PredictReadmissionRisk(request)]; the log line is not modelled. *)
Definition PredictReadmissionRisk (request : RiskPredictionRequest)
  : RiskAssessment :=
  let hazardRatio := CalculateCoxRiskScore request in
  let baselineSurvival30 := CalculateWeibullSurvival 30 None None in
  let baselineSurvival60 := CalculateWeibullSurvival 60 None None in
  let baselineSurvival90 := CalculateWeibullSurvival 90 None None in
  let adjustedSurvival30 := Pow baselineSurvival30 hazardRatio in
  let adjustedSurvival60 := Pow baselineSurvival60 hazardRatio in
  let adjustedSurvival90 := Pow baselineSurvival90 hazardRatio in
  let risk30 := max 0 (min 1 (1 - adjustedSurvival30)) in
  let risk60 := max 0 (min 1 (1 - adjustedSurvival60)) in
  let risk90 := max 0 (min 1 (1 - adjustedSurvival90)) in
  let riskCategory :=
    if risk30 >? 0.6 then "high" else if risk30 >? 0.3 then "medium" else "low" in
  let competingRisks := CalculateCompetingRisks 30 in
  let carePlan := GenerateCarePlan risk30 riskCategory in
  {| Risk30Day := risk30;
     Risk60Day := risk60;
     Risk90Day := risk90;
     HazardRatio := hazardRatio;
     RiskCategory := riskCategory;
     ConfidenceLower := max 0 (risk30 * 0.85);
     ConfidenceUpper := min 1 (risk30 * 1.15);
     CompetingRisks := competingRisks;
     CarePlan := carePlan |}.

End WithMathPow.

End SurvivalAnalysisEngine.

(** ** The engine on binary64 doubles

    The same functions of [SurvivalAnalysisService] (src/main.ts, lines
    163-271) on the doubles of the machine: the operators are those of
    IEEE-754 binary64, with the two zeros, rounding, overflow and
    underflow.  [Math.exp] and [Math.pow] are the functions of the language
    standard: their special cases are fixed by the standard and written
    out; everywhere else the standard leaves their value
    implementation-approximated, and it is a parameter here. *)

Module Binary64.

Import PrimFloat SpecFloat FloatOps.
Local Open Scope float_scope.

(** [Number.MIN_VALUE], the smallest positive double (5e-324). *)
Definition MIN_VALUE : float := 0x1p-1074.

(** An integral double, and an odd one: a finite double is [m * 2^e] for
    integers [m > 0] and [e]. *)
Definition isIntegral (x : float) : bool :=
  match Prim2SF x with
  | S754_zero _ => true
  | S754_finite _ m e =>
      (0 <=? e)%Z || (Z.pos m mod 2 ^ (- e) =? 0)%Z
  | _ => false
  end.

Definition isOddIntegral (x : float) : bool :=
  match Prim2SF x with
  | S754_finite _ m e =>
      if (0 <? e)%Z then false
      else (Z.pos m mod 2 ^ (- e) =? 0)%Z && Z.odd (Z.pos m / 2 ^ (- e))
  | _ => false
  end.

(** [RiskPredictionDto], [number] fields as doubles. *)
Record RiskPredictionDto : Type := {
  patientId : string;
  age : float;
  numComorbidities : float;
  priorAdmissions : float;
  diabetes : bool;
  chf : bool;
  copd : bool;
  socioeconomicIndex : float
}.

(** The object literal returned by [predictReadmissionRisk]. *)
Record RiskPrediction : Type := {
  risk30Day : float;
  risk60Day : float;
  risk90Day : float;
  hazardRatio : float;
  riskCategory : string;
  confidenceLower : float;
  confidenceUpper : float
}.

(** The object literal returned by [calculateCompetingRisks]. *)
Record CompetingRisks : Type := {
  readmission : float;
  death : float;
  transfer : float;
  recovery : float
}.

(** [Math.max(x, y)] and [Math.min(x, y)]: [NaN] as soon as one argument
    is, and [+0] above [-0]. *)
Definition max (x y : float) : float :=
  if is_nan x || is_nan y then nan
  else if x <? y then y
  else if y <? x then x
  else if get_sign x then y else x.

Definition min (x y : float) : float :=
  if is_nan x || is_nan y then nan
  else if x <? y then x
  else if y <? x then y
  else if get_sign x then x else y.

(** A parameter with a default value: [None] is an omitted argument. *)
Definition orDefault (arg : option float) (dflt : float) : float :=
  match arg with
  | Some v => v
  | None => dflt
  end.

Section WithMath.

(** The values of [Math.exp] and [Math.pow] where the standard leaves them
    implementation-approximated. *)
Variable approxExp : float -> float.
Variable approxPow : float -> float -> float.

(** [Math.exp(x)]: [NaN] for [NaN], 1 for both zeros, [+Infinity] and [+0]
    for the two infinities. *)
Definition exp (x : float) : float :=
  if is_nan x then nan
  else if is_zero x then 1
  else if is_infinity x then (if x <? 0 then 0 else infinity)
  else approxExp x.

(** [Math.pow(base, exponent)], step by step as Number::exponentiate lists
    its cases. *)
Definition pow (base exponent : float) : float :=
  if is_nan exponent then nan
  else if is_zero exponent then 1
  else if is_nan base then nan
  else if is_infinity base then
    if 0 <? base
    then (if 0 <? exponent then infinity else 0)
    else if 0 <? exponent
         then (if isOddIntegral exponent then neg_infinity else infinity)
         else (if isOddIntegral exponent then neg_zero else 0)
  else if is_zero base then
    if get_sign base
    then if 0 <? exponent
         then (if isOddIntegral exponent then neg_zero else 0)
         else (if isOddIntegral exponent then neg_infinity else infinity)
    else (if 0 <? exponent then 0 else infinity)
  else if is_infinity exponent then
    if 0 <? exponent
    then (if 1 <? abs base then infinity
          else if abs base =? 1 then nan else 0)
    else (if 1 <? abs base then 0
          else if abs base =? 1 then nan else infinity)
  else if (base <? 0) && negb (isIntegral exponent) then nan
  else approxPow base exponent.

(** [calculateWeibullSurvival(time, shape = 1.5, scale = 60)]. *)
Definition calculateWeibullSurvival
    (time : float) (shape scale : option float) : float :=
  let shape := orDefault shape 1.5 in
  let scale := orDefault scale 60 in
  exp (- pow (time / scale) shape).

(** [calculateHazardRate(time, shape = 1.5, scale = 60)]. *)
Definition calculateHazardRate
    (time : float) (shape scale : option float) : float :=
  let shape := orDefault shape 1.5 in
  let scale := orDefault scale 60 in
  (shape / scale) * pow (time / scale) (shape - 1).

(** [flag ? 1 : 0]. *)
Definition indicator (flag : bool) : float := if flag then 1 else 0.

(** The local [linearPredictor] of [calculateCoxRiskScore], with the
    literals of its [coefficients] object. *)
Definition linearPredictor (patientFeatures : RiskPredictionDto) : float :=
  0.035 * (patientFeatures.(age) - 65) / 10 +
  0.52 * patientFeatures.(numComorbidities) +
  0.64 * patientFeatures.(priorAdmissions) +
  0.52 * indicator patientFeatures.(diabetes) +
  0.76 * indicator patientFeatures.(chf) +
  0.41 * indicator patientFeatures.(copd) +
  (- 0.015) * (patientFeatures.(socioeconomicIndex) - 50) / 50.

(** [calculateCoxRiskScore(patientFeatures)]. *)
Definition calculateCoxRiskScore (patientFeatures : RiskPredictionDto) : float :=
  exp (linearPredictor patientFeatures).

(** The local [risk30] of [predictReadmissionRisk], before any clamping. *)
Definition risk30 (hazardRatio : float) : float :=
  let baselineSurvival30 := calculateWeibullSurvival 30 None None in
  let adjustedSurvival30 := pow baselineSurvival30 hazardRatio in
  1 - adjustedSurvival30.

(** [predictReadmissionRisk(patientFeatures)]. *)
Definition predictReadmissionRisk (patientFeatures : RiskPredictionDto)
  : RiskPrediction :=
  let hazardRatio := calculateCoxRiskScore patientFeatures in
  let baselineSurvival60 := calculateWeibullSurvival 60 None None in
  let baselineSurvival90 := calculateWeibullSurvival 90 None None in
  let adjustedSurvival60 := pow baselineSurvival60 hazardRatio in
  let adjustedSurvival90 := pow baselineSurvival90 hazardRatio in
  let risk30 := risk30 hazardRatio in
  let risk60 := 1 - adjustedSurvival60 in
  let risk90 := 1 - adjustedSurvival90 in
  let riskCategory :=
    if 0.6 <? risk30 then "high"%string
    else if 0.3 <? risk30 then "medium"%string
    else "low"%string in
  {| risk30Day := min (max risk30 0) 1;
     risk60Day := min (max risk60 0) 1;
     risk90Day := min (max risk90 0) 1;
     hazardRatio := hazardRatio;
     riskCategory := riskCategory;
     confidenceLower := max 0 (risk30 * 0.85);
     confidenceUpper := min 1 (risk30 * 1.15) |}.

(** [calculateCompetingRisks(time)]. *)
Definition calculateCompetingRisks (time : float) : CompetingRisks :=
  let baseReadmission := 0.4 * (1 - exp (- time / 45)) in
  let baseDeath := 0.1 * (1 - exp (- time / 60)) in
  let baseTransfer := 0.12 * (1 - exp (- time / 50)) in
  let baseRecovery := 0.38 * (1 - exp (- time / 40)) in
  let total := baseReadmission + baseDeath + baseTransfer + baseRecovery in
  {| readmission := baseReadmission / total;
     death := baseDeath / total;
     transfer := baseTransfer / total;
     recovery := baseRecovery / total |}.

End WithMath.

(** A feature vector of finite covariates whose linear predictor overflows:
    [0.52 * 1.7e308 + 0.64 * 1.7e308] is beyond the largest double. *)
Definition hugePatient : RiskPredictionDto :=
  {| patientId := "huge";
     age := 65; numComorbidities := 1.7e308; priorAdmissions := 1.7e308;
     diabetes := false; chf := false; copd := false;
     socioeconomicIndex := 50 |}.

(** A patient with nine comorbidities and nothing else, otherwise as the
    reference patient of the specification. *)
Definition ninePatient : RiskPredictionDto :=
  {| patientId := "nine";
     age := 65; numComorbidities := 9; priorAdmissions := 0;
     diabetes := false; chf := false; copd := false;
     socioeconomicIndex := 50 |}.

End Binary64.

(** ** Definitions the statements are written with *)

Import SurvivalAnalysisService.
Import RiskAssessmentService.
Import SurvivalAnalysisEngine.

Local Open Scope string_scope.

(** The saturating exponential [w * (1 - exp (- t / tau))] on the reals. *)
Definition saturating (w tau t : R) : R := w * (1 - Rtrigo_def.exp (- t / tau)).

(** The Weibull survival [exp (- (t / l)^k)] on the reals, for a positive
    time [t], shape [k] and scale [l]. *)
Definition weibull (t k l : R) : R := Rtrigo_def.exp (- Rpower (t / l) k).

(** The baseline of the projector: default shape 1.5 and scale 60. *)
Definition S0 (t : R) : R := weibull t 1.5 60.

(** A feature vector whose four numeric covariates are finite numbers. *)
Definition finiteFeatures (f : RiskPredictionDto) : Prop :=
  isFinite f.(age) = true /\
  isFinite f.(numComorbidities) = true /\
  isFinite f.(priorAdmissions) = true /\
  isFinite f.(socioeconomicIndex) = true.

Definition indicatorR (flag : bool) : R := if flag then 1 else 0.

(** The linear predictor on the reals: age centred at 65 and scaled by 10,
    the two counts, the three flags, the socioeconomic index centred at 50
    and scaled by 50, each times its coefficient. *)
Definition linearPredictorR (a n p : R) (d c o : bool) (s : R) : R :=
  0.035 * (a - 65) / 10 + 0.52 * n + 0.64 * p +
  0.52 * indicatorR d + 0.76 * indicatorR c + 0.41 * indicatorR o +
  - 0.015 * (s - 50) / 50.

(** Feature vectors that differ in one covariate only. *)
Definition withAge (f : RiskPredictionDto) (v : number) : RiskPredictionDto :=
  {| patientId := f.(patientId); age := v;
     numComorbidities := f.(numComorbidities);
     priorAdmissions := f.(priorAdmissions);
     diabetes := f.(diabetes); chf := f.(chf); copd := f.(copd);
     socioeconomicIndex := f.(socioeconomicIndex) |}.

Definition withNumComorbidities (f : RiskPredictionDto) (v : number)
  : RiskPredictionDto :=
  {| patientId := f.(patientId); age := f.(age);
     numComorbidities := v;
     priorAdmissions := f.(priorAdmissions);
     diabetes := f.(diabetes); chf := f.(chf); copd := f.(copd);
     socioeconomicIndex := f.(socioeconomicIndex) |}.

Definition withPriorAdmissions (f : RiskPredictionDto) (v : number)
  : RiskPredictionDto :=
  {| patientId := f.(patientId); age := f.(age);
     numComorbidities := f.(numComorbidities);
     priorAdmissions := v;
     diabetes := f.(diabetes); chf := f.(chf); copd := f.(copd);
     socioeconomicIndex := f.(socioeconomicIndex) |}.

Definition withDiabetes (f : RiskPredictionDto) (v : bool) : RiskPredictionDto :=
  {| patientId := f.(patientId); age := f.(age);
     numComorbidities := f.(numComorbidities);
     priorAdmissions := f.(priorAdmissions);
     diabetes := v; chf := f.(chf); copd := f.(copd);
     socioeconomicIndex := f.(socioeconomicIndex) |}.

Definition withChf (f : RiskPredictionDto) (v : bool) : RiskPredictionDto :=
  {| patientId := f.(patientId); age := f.(age);
     numComorbidities := f.(numComorbidities);
     priorAdmissions := f.(priorAdmissions);
     diabetes := f.(diabetes); chf := v; copd := f.(copd);
     socioeconomicIndex := f.(socioeconomicIndex) |}.

Definition withCopd (f : RiskPredictionDto) (v : bool) : RiskPredictionDto :=
  {| patientId := f.(patientId); age := f.(age);
     numComorbidities := f.(numComorbidities);
     priorAdmissions := f.(priorAdmissions);
     diabetes := f.(diabetes); chf := f.(chf); copd := v;
     socioeconomicIndex := f.(socioeconomicIndex) |}.

Definition withSocioeconomicIndex (f : RiskPredictionDto) (v : number)
  : RiskPredictionDto :=
  {| patientId := f.(patientId); age := f.(age);
     numComorbidities := f.(numComorbidities);
     priorAdmissions := f.(priorAdmissions);
     diabetes := f.(diabetes); chf := f.(chf); copd := f.(copd);
     socioeconomicIndex := v |}.

(** The three fixed recommendation lists. *)
Definition highPlan : list string :=
  [ "HIGH PRIORITY: Schedule follow-up within 3 days of discharge";
    "Arrange home health nursing visit within 24 hours";
    "Implement daily medication adherence monitoring";
    "Consider transitional care management program enrollment";
    "Schedule telehealth check-in at 48 hours post-discharge";
    "Ensure caregiver education and support systems in place" ].

Definition mediumPlan : list string :=
  [ "Schedule follow-up within 7 days of discharge";
    "Medication reconciliation and adherence counseling required";
    "Provide written discharge instructions with 24/7 contact numbers";
    "Arrange follow-up call within 48-72 hours";
    "Consider home health evaluation" ].

Definition lowPlan : list string :=
  [ "Standard follow-up within 14 days of discharge";
    "Provide discharge education materials";
    "Ensure understanding of medication regimen";
    "Provide emergency contact information" ].

(** The selection the specification describes: from a category to its list. *)
Definition selectCarePlan (category : string) : option (list string) :=
  if String.eqb category "high" then Some highPlan
  else if String.eqb category "medium" then Some mediumPlan
  else if String.eqb category "low" then Some lowPlan
  else None.

(** The feature vector of the specification's first example. *)
Definition referencePatient : RiskPredictionDto :=
  {| patientId := "reference";
     age := 65; numComorbidities := 0; priorAdmissions := 0;
     diabetes := false; chf := false; copd := false;
     socioeconomicIndex := 50 |}.

(** [v] is [x] to four decimal places. *)
Definition toFourDecimals (x v : R) : Prop := Rabs (x - v) <= 0.00005.

(** The 30-day risk of the reference patient, on the reals. *)
Definition referenceRisk30 : R := 1 - Rtrigo_def.exp (- Rpower (30 / 60) 1.5).

(** A request of the C# service layer as a feature vector of the service. *)
Definition toDto (request : RiskPredictionRequest) : RiskPredictionDto :=
  {| patientId := request.(PatientId);
     age := ofInt request.(Age);
     numComorbidities := ofInt request.(NumComorbidities);
     priorAdmissions := ofInt request.(PriorAdmissions);
     diabetes := request.(Diabetes);
     chf := request.(CHF);
     copd := request.(COPD);
     socioeconomicIndex := request.(SocioeconomicIndex) |}.

(** An [int] age from which 65 can be subtracted without wrapping around. *)
Definition ageInRange (z : Z) : Prop := (- 2 ^ 31 + 65 <= z < 2 ^ 31)%Z.

(** ** Definitions for the further properties of the service *)

(** One feature vector is at least as severe as another: both finite, the
    age, the two counts and the flags at least as high, the socioeconomic
    index at most as high. *)
Definition atLeastAsSevere (f' f : RiskPredictionDto) : Prop :=
  finiteFeatures f /\ finiteFeatures f' /\
  le f.(age) f'.(age) /\
  le f.(numComorbidities) f'.(numComorbidities) /\
  le f.(priorAdmissions) f'.(priorAdmissions) /\
  (f.(diabetes) = true -> f'.(diabetes) = true) /\
  (f.(chf) = true -> f'.(chf) = true) /\
  (f.(copd) = true -> f'.(copd) = true) /\
  le f'.(socioeconomicIndex) f.(socioeconomicIndex).

(** A feature vector one of whose numeric covariates is [NaN]. *)
Definition hasNaN (f : RiskPredictionDto) : Prop :=
  f.(age) = NaN \/ f.(numComorbidities) = NaN \/
  f.(priorAdmissions) = NaN \/ f.(socioeconomicIndex) = NaN.

(** The Weibull hazard [(k / l) * (t / l)^(k - 1)] on the reals, for a
    positive time [t], shape [k] and scale [l]. *)
Definition weibullHazard (t k l : R) : R := k / l * Rpower (t / l) (k - 1).

(** ** AnalyticsController (src/main.ts, lines 446-482) *)

Module AnalyticsController.

(** [ToLength(x)], the length that [Array.from] reads from its array-like
    argument: 0 for [NaN] and for what is not positive, the number
    truncated otherwise, capped at 2^53 - 1. *)
Definition ToLength (x : number) : Z :=
  match x with
  | NaN | NegInf => 0%Z
  | PosInf => (2 ^ 53 - 1)%Z
  | Fin r => Z.max 0 (Z.min (Int_part r) (2 ^ 53 - 1))
  end.

(** How a call of the controller ends: with its value, or with the
    [RangeError] (invalid array length) of the [Array] constructor. *)
Inductive outcome (A : Type) : Type :=
| Returned (value : A)
| RangeError.
Arguments Returned {A} value.
Arguments RangeError {A}.

(** [Array.from({ length }, (_, i) => i + 1)]: the array is constructed
    with the length read, which the constructor refuses from 2^32 on, and
    then filled. *)
Definition arrayFromLength (length : number) : outcome (list number) :=
  let len := ToLength length in
  if (2 ^ 32 <=? len)%Z then RangeError
  else Returned (map (fun i : nat => add (Fin (INR i)) 1) (seq 0 (Z.to_nat len))).

(** The object literal [getSurvivalCurves] builds for each day. *)
Record SurvivalCurvePoint : Type := {
  day : number;
  highRisk : number;
  mediumRisk : number;
  lowRisk : number
}.

(** [getSurvivalCurves(days)]. *)
Definition getSurvivalCurves (days : number)
  : outcome (list SurvivalCurvePoint) :=
  match arrayFromLength days with
  | RangeError => RangeError
  | Returned timePoints =>
      Returned
        (map (fun day : number =>
                {| day := day;
                   highRisk := calculateWeibullSurvival day (Some (Fin 2)) (Some (Fin 40));
                   mediumRisk := calculateWeibullSurvival day (Some (Fin 1.5)) (Some (Fin 60));
                   lowRisk := calculateWeibullSurvival day (Some (Fin 1)) (Some (Fin 80)) |})
             timePoints)
  end.

End AnalyticsController.

Import AnalyticsController.

(** The point of the three curves at a positive real day. *)
Definition curvePoint (d : R) : SurvivalCurvePoint :=
  {| day := Fin d;
     highRisk := Fin (weibull d 2 40);
     mediumRisk := Fin (weibull d 1.5 60);
     lowRisk := Fin (weibull d 1 80) |}.

(** ** SurvivalAnalysisEngine.GenerateSurvivalCurves (C#, lines 286-302) *)

Module EngineCurves.

(** The class [SurvivalCurvePoint] of the service layer. *)
Record SurvivalCurvePoint : Type := {
  Day : Z;
  HighRisk : number;
  MediumRisk : number;
  LowRisk : number
}.

(** How the loop ends: with the list of curves, or with the
    [OutOfMemoryException] that [List<T>.Add] raises when the list cannot
    grow. *)
Inductive ending : Type :=
| Completed (curves : list SurvivalCurvePoint)
| OutOfMemoryException.

Section WithRuntime.

Variable Pow : number -> number -> number.

(** The number of elements a [List<T>] can hold: [Add] raises when the list
    holds that many.  It is at most [Array.MaxLength] (0x7FFFFFC7), and
    less when memory runs out first. *)
Variable maxLength : Z.

(** The object initializer in the body of the loop. *)
Definition pointOfDay (day : Z) : SurvivalCurvePoint :=
  {| Day := day;
     HighRisk := CalculateWeibullSurvival Pow (ofInt day) (Some (Fin 2)) (Some (Fin 40));
     MediumRisk := CalculateWeibullSurvival Pow (ofInt day) (Some (Fin 1.5)) (Some (Fin 60));
     LowRisk := CalculateWeibullSurvival Pow (ofInt day) (Some (Fin 1)) (Some (Fin 80)) |}.

(** [for (int day = ...; day <= days; day++) curves.Add(...)]: one unit of
    fuel per test of the condition; [Add] raises on a full list; [day++]
    wraps around at 32 bits; [None] when the fuel runs out before the loop
    ends. *)
Fixpoint forDays (fuel : nat) (day days : Z) (curves : list SurvivalCurvePoint)
  : option ending :=
  match fuel with
  | O => None
  | S fuel' =>
      if (day <=? days)%Z
      then if (Z.of_nat (length curves) <? maxLength)%Z
           then forDays fuel' (wrapInt (day + 1)) days
                  (curves ++ [pointOfDay day])%list
           else Some OutOfMemoryException
      else Some (Completed curves)
  end.

(** [GenerateSurvivalCurves(days)]. *)
Definition GenerateSurvivalCurves (fuel : nat) (days : Z) : option ending :=
  let curves : list SurvivalCurvePoint := [] in
  forDays fuel 1 days curves.

End WithRuntime.

End EngineCurves.

(** A point of the service layer as a point of the controller. *)
Definition toControllerPoint (p : EngineCurves.SurvivalCurvePoint)
  : AnalyticsController.SurvivalCurvePoint :=
  {| day := ofInt (EngineCurves.Day p);
     highRisk := EngineCurves.HighRisk p;
     mediumRisk := EngineCurves.MediumRisk p;
     lowRisk := EngineCurves.LowRisk p |}.

(** ** PatientService (src/main.ts, lines 274-333): the update statement *)

Module PatientService.

(** A character matched by [/[A-Z]/].  Strings are taken as sequences of
    bytes; a byte outside ASCII is never matched. *)
Definition isUpperCase (c : ascii) : bool :=
  ((65 <=? nat_of_ascii c) && (nat_of_ascii c <=? 90))%nat.

(** [letter.toLowerCase()] on a letter matched by [/[A-Z]/]. *)
Definition toLowerCase (letter : ascii) : ascii :=
  ascii_of_nat (nat_of_ascii letter + 32).

(** [toSnakeCase(str)]:
    [str.replace(/[A-Z]/g, letter => `_${letter.toLowerCase()}`)]. *)
Fixpoint toSnakeCase (str : string) : string :=
  match str with
  | EmptyString => EmptyString
  | String c rest =>
      if isUpperCase c
      then String "_" (String (toLowerCase c) (toSnakeCase rest))
      else String c (toSnakeCase rest)
  end.

(** The values that travel in an update and in the parameters of a query. *)
Inductive jsValue : Type :=
| VString (s : string)
| VNumber (n : number)
| VBoolean (b : bool)
| VNull.

(** [array.map((item, idx) => ...)], the index counted from [idx]. *)
Fixpoint mapWithIndex {A B : Type} (f : A -> nat -> B) (idx : nat) (array : list A)
  : list B :=
  match array with
  | [] => []
  | item :: rest => f item idx :: mapWithIndex f (S idx) rest
  end.

(** The decimal text of a natural number, as a template literal prints it. *)
Definition decimal (n : nat) : string :=
  DecimalString.NilEmpty.string_of_uint (Nat.to_uint n).

Definition newline : string := String "010" EmptyString.

(** The local [fields] of [updatePatient]; [updates] lists the own keys of
    the object with their values, in the order [Object.keys] gives them. *)
Definition fieldsOf (updates : list (string * jsValue)) : list string :=
  mapWithIndex (fun key idx => toSnakeCase key ++ " = $" ++ decimal (idx + 2))
    0 (map fst updates).

(** [updatePatient(patientId, updates)] up to the call of [db.query]: the
    text of the statement and the array of its parameters. *)
Definition updatePatient (patientId : string) (updates : list (string * jsValue))
  : string * list jsValue :=
  let fields := fieldsOf updates in
  let query :=
    newline ++
    "      UPDATE patients SET " ++ String.concat ", " fields ++
    ", updated_at = CURRENT_TIMESTAMP" ++ newline ++
    "      WHERE patient_id = $1 RETURNING *" ++ newline ++
    "    " in
  let values := VString patientId :: map snd updates in
  (query, values).

End PatientService.

Import PatientService.

(** The number of characters of a string that [/[A-Z]/] matches. *)
Fixpoint countUpperCase (s : string) : nat :=
  match s with
  | EmptyString => 0
  | String c rest => (if isUpperCase c then 1 else 0) + countUpperCase rest
  end.

(** The property names of [PatientDto] (lines 7-44) and the columns of the
    table [patients] that [initializeSchema] creates (lines 100-113). *)
Definition patientDtoKeys : list string :=
  [ "patientId"; "name"; "age"; "numComorbidities"; "priorAdmissions";
    "diabetes"; "chf"; "copd"; "socioeconomicIndex"; "admissionDate" ].

Definition patientsColumns : list string :=
  [ "patient_id"; "name"; "age"; "num_comorbidities"; "prior_admissions";
    "diabetes"; "chf"; "copd"; "socioeconomic_index"; "admission_date";
    "created_at"; "updated_at" ].

(** ** The response of the assessment and its decoding by the Flutter
    client (src/main.ts, lines 343-376; src/main.dart, lines 70-156) *)

(** JSON values; an object lists its members in order. *)
#[warnings="-register-all"]
Inductive json : Type :=
| JNull
| JBool (b : bool)
| JInt (z : Z)
| JNum (n : number)
| JStr (s : string)
| JArr (items : list json)
| JObj (members : list (string * json)).

(** [map[key]] on a decoded object: [null] when the key is absent. *)
Fixpoint member (members : list (string * json)) (key : string) : json :=
  match members with
  | [] => JNull
  | (k, v) :: rest => if String.eqb k key then v else member rest key
  end.

(** Writing a member of an object literal: an existing key keeps its
    place and takes the new value, a new key goes last. *)
Fixpoint setMember (members : list (string * json)) (key : string) (v : json)
  : list (string * json) :=
  match members with
  | [] => [(key, v)]
  | (k, old) :: rest =>
      if String.eqb k key then (k, v) :: rest
      else (k, old) :: setMember rest key v
  end.

(** The columns of the table [risk_assessments] that [initializeSchema]
    creates (lines 115-127): the keys of the row that the [INSERT ...
    RETURNING *] of [assessPatientRisk] reads back. *)
Definition riskAssessmentsColumns : list string :=
  [ "assessment_id"; "patient_id"; "risk_30_day"; "risk_60_day"; "risk_90_day";
    "hazard_ratio"; "risk_category"; "confidence_lower"; "confidence_upper";
    "assessment_date"; "model_version" ].

(** [{ ...assessment, competingRisks, carePlan }], the object that
    [assessPatientRisk] returns, over the row [assessment] read back from
    the database. *)
Definition assessmentResponse
    (assessment : list (string * json)) (competingRisks carePlan : json)
  : list (string * json) :=
  setMember (setMember assessment "competingRisks" competingRisks)
            "carePlan" carePlan.

Module FlutterClient.

(** The class [CompetingRisks] of the client. *)
Record CompetingRisks : Type := {
  readmission : number;
  death : number;
  transfer : number;
  recovery : number
}.

(** [x ?? dflt]. *)
Definition ifNull (x dflt : json) : json :=
  match x with
  | JNull => dflt
  | _ => x
  end.

(** [x.toDouble()] on a dynamic value: defined on numbers only. *)
Definition toDouble (x : json) : option number :=
  match x with
  | JInt z => Some (Fin (IZR z))
  | JNum n => Some n
  | _ => None
  end.

(** The implicit casts of a dynamic value to [int] and to [String]. *)
Definition asInt (x : json) : option Z :=
  match x with
  | JInt z => Some z
  | _ => None
  end.

Definition asString (x : json) : option string :=
  match x with
  | JStr s => Some s
  | _ => None
  end.

(** [List<String>.from(x)]: the elements must all be strings. *)
Fixpoint stringsOf (items : list json) : option (list string) :=
  match items with
  | [] => Some []
  | item :: rest =>
      match asString item, stringsOf rest with
      | Some s, Some l => Some (s :: l)
      | _, _ => None
      end
  end.

Definition listOfStrings (x : json) : option (list string) :=
  match x with
  | JArr items => stringsOf items
  | _ => None
  end.

Definition bind {A B : Type} (x : option A) (f : A -> option B) : option B :=
  match x with
  | Some a => f a
  | None => None
  end.

(** [CompetingRisks.fromJson(json)]; [None] is a thrown error. *)
Definition CompetingRisks_fromJson (x : json) : option CompetingRisks :=
  match x with
  | JObj members =>
      bind (toDouble (ifNull (member members "readmission") (JNum 0))) (fun readmission =>
      bind (toDouble (ifNull (member members "death") (JNum 0))) (fun death =>
      bind (toDouble (ifNull (member members "transfer") (JNum 0))) (fun transfer =>
      bind (toDouble (ifNull (member members "recovery") (JNum 0))) (fun recovery =>
      Some {| readmission := readmission; death := death;
              transfer := transfer; recovery := recovery |}))))
  | _ => None
  end.

Section WithDateTime.

(** [DateTime], [DateTime.parse] ([None] when it throws) and the result of
    [DateTime.now()]. *)
Variable DateTime : Type.
Variable parse : string -> option DateTime.
Variable now : DateTime.

(** The class [RiskAssessment] of the client. *)
Record RiskAssessment : Type := {
  assessmentId : Z;
  patientId : string;
  risk30Day : number;
  risk60Day : number;
  risk90Day : number;
  hazardRatio : number;
  riskCategory : string;
  confidenceLower : number;
  confidenceUpper : number;
  assessmentDate : DateTime;
  competingRisks : option CompetingRisks;
  carePlan : option (list string)
}.

(** [RiskAssessment.fromJson(json)]; [None] is a thrown error. *)
Definition RiskAssessment_fromJson (members : list (string * json))
  : option RiskAssessment :=
  bind (asInt (ifNull (member members "assessment_id") (JInt 0))) (fun assessmentId =>
  bind (asString (ifNull (member members "patient_id") (JStr ""))) (fun patientId =>
  bind (toDouble (ifNull (member members "risk_30_day") (JNum 0))) (fun risk30Day =>
  bind (toDouble (ifNull (member members "risk_60_day") (JNum 0))) (fun risk60Day =>
  bind (toDouble (ifNull (member members "risk_90_day") (JNum 0))) (fun risk90Day =>
  bind (toDouble (ifNull (member members "hazard_ratio") (JNum 1))) (fun hazardRatio =>
  bind (asString (ifNull (member members "risk_category") (JStr "low"))) (fun riskCategory =>
  bind (toDouble (ifNull (member members "confidence_lower") (JNum 0))) (fun confidenceLower =>
  bind (toDouble (ifNull (member members "confidence_upper") (JNum 1))) (fun confidenceUpper =>
  bind (match member members "assessment_date" with
        | JNull => Some now
        | x => bind (asString x) parse
        end) (fun assessmentDate =>
  bind (match member members "competing_risks" with
        | JNull => Some None
        | x => bind (CompetingRisks_fromJson x) (fun c => Some (Some c))
        end) (fun competingRisks =>
  bind (match member members "care_plan" with
        | JNull => Some None
        | x => bind (listOfStrings x) (fun l => Some (Some l))
        end) (fun carePlan =>
  Some {| assessmentId := assessmentId; patientId := patientId;
          risk30Day := risk30Day; risk60Day := risk60Day; risk90Day := risk90Day;
          hazardRatio := hazardRatio; riskCategory := riskCategory;
          confidenceLower := confidenceLower; confidenceUpper := confidenceUpper;
          assessmentDate := assessmentDate; competingRisks := competingRisks;
          carePlan := carePlan |})))))))))))).

(** [riskColor]. *)
Inductive Color : Type := red | orange | green.

Definition riskColor (a : RiskAssessment) : Color :=
  if String.eqb a.(riskCategory) "high" then red
  else if String.eqb a.(riskCategory) "medium" then orange
  else green.

End WithDateTime.

End FlutterClient.

(** ** ReadmissionPredictionService (C#, lines 437-550) *)

Module ReadmissionPredictionService.

Local Open Scope Z_scope.

(** The class [Patient], without its three dates. *)
Record Patient : Type := {
  PatientId : string;
  Name : string;
  Age : Z;
  NumComorbidities : Z;
  PriorAdmissions : Z;
  Diabetes : bool;
  CHF : bool;
  COPD : bool;
  SocioeconomicIndex : number
}.

(** [history.Any() && history.First().RiskCategory == "high"]. *)
Definition firstIsHigh (history : list RiskAssessment) : bool :=
  match history with
  | [] => false
  | first :: _ => String.eqb first.(RiskCategory) "high"
  end.

(** [OrderByDescending(keySelector)] is a stable sort, and the stable
    arrangement of a list by a key is unique; it is written here as a
    stable insertion sort. *)
Fixpoint insertDescending {A : Type} (key : A -> Z) (x : A) (sorted : list A)
  : list A :=
  match sorted with
  | [] => [x]
  | y :: rest =>
      if key x <? key y then y :: insertDescending key x rest
      else x :: y :: rest
  end.

Definition OrderByDescending {A : Type} (key : A -> Z) (source : list A) : list A :=
  fold_right (insertDescending key) [] source.

(** The dictionary returned by [GenerateDashboardMetricsAsync], without its
    time stamp. *)
Record DashboardMetrics : Type := {
  totalPatients : Z;
  highRiskPatients : Z;
  totalAssessments : Z;
  averageAge : number;
  survivalCurvePoints : Z
}.

Section WithApi.

(** What the API client answers: the patients of [GetAllPatientsAsync] are
    an argument below; [GetPatientRiskHistoryAsync] answers a history or
    throws ([None]). *)
Variable history : Patient -> option (list RiskAssessment).

(** A patient whose history was fetched, is not empty and starts with a
    "high" assessment: the test of both loops. *)
Definition isHighRisk (patient : Patient) : bool :=
  match history patient with
  | Some h => firstIsHigh h
  | None => false
  end.

(** [GetHighRiskPatientsAsync()], on the patients the API returned. *)
Definition GetHighRiskPatients (patients : list Patient) : list Patient :=
  let highRiskPatients :=
    fold_left
      (fun (highRiskPatients : list Patient) (patient : Patient) =>
         match history patient with
         | Some history =>
             if firstIsHigh history
             then (highRiskPatients ++ [patient])%list
             else highRiskPatients
         | None => highRiskPatients
         end)
      patients [] in
  OrderByDescending NumComorbidities highRiskPatients.

(** The body of the [foreach] of [GenerateDashboardMetricsAsync] on the
    pair of counters ([highRiskCount], [totalAssessments]), both [int]. *)
Definition countPatient (counters : Z * Z) (patient : Patient) : Z * Z :=
  let (highRiskCount, totalAssessments) := counters in
  match history patient with
  | Some [] => (highRiskCount, totalAssessments)
  | Some (first :: rest) =>
      let totalAssessments :=
        wrapInt (totalAssessments + Z.of_nat (length (first :: rest))) in
      if String.eqb first.(RiskCategory) "high"
      then (wrapInt (highRiskCount + 1), totalAssessments)
      else (highRiskCount, totalAssessments)
  | None => (highRiskCount, totalAssessments)
  end.

(** [GenerateDashboardMetricsAsync()], on the patients and the curve points
    the API returned. *)
Definition GenerateDashboardMetrics
    (patients : list Patient) (survivalCurves : list EngineCurves.SurvivalCurvePoint)
  : DashboardMetrics :=
  let (highRiskCount, totalAssessments) := fold_left countPatient patients (0, 0) in
  {| totalPatients := Z.of_nat (length patients);
     highRiskPatients := highRiskCount;
     totalAssessments := totalAssessments;
     averageAge :=
       match patients with
       | [] => Fin 0
       | _ => Fin (IZR (fold_right Z.add 0 (map Age patients)) /
                   IZR (Z.of_nat (length patients)))
       end;
     survivalCurvePoints := Z.of_nat (length survivalCurves) |}.

End WithApi.

End ReadmissionPredictionService.

(** ** The columns that store a prediction (src/main.ts, lines 115-127) *)

(** A column declared [NUMERIC(precision, scale)]. *)
Record NumericColumn : Type := {
  precision : nat;
  scale : nat
}.

(** [risk_30_day], [risk_60_day] and [risk_90_day] are [NUMERIC(5,4)];
    [hazard_ratio] is [NUMERIC(10,6)]. *)
Definition riskColumn : NumericColumn := {| precision := 5; scale := 4 |}.
Definition hazardRatioColumn : NumericColumn := {| precision := 10; scale := 6 |}.

(** The magnitude from which a value no longer fits the column: ten to the
    number of digits left of the decimal point. *)
Definition capacity (c : NumericColumn) : R := 10 ^ (c.(precision) - c.(scale)).

(** A patient with eight comorbidities, six prior admissions and the three
    conditions, otherwise as the reference patient. *)
Definition frequentPatient : RiskPredictionDto :=
  {| patientId := "frequent";
     age := 65; numComorbidities := 8; priorAdmissions := 6;
     diabetes := true; chf := true; copd := true;
     socioeconomicIndex := 50 |}.

(** Lower bounds on exponentials by repeated squaring, on fixed-point
    numbers with twelve decimals, each square rounded down. *)
Definition fixedPoint : Z := (10 ^ 12)%Z.

Fixpoint squareDown (k : nat) (a : Z) : Z :=
  match k with
  | O => a
  | S k' => squareDown k' (a * a / fixedPoint)
  end.

(** ** Concrete inputs for the instances *)

(** The row read back for the reference patient, as the driver may
    deliver it. *)
Definition sampleRow : list (string * json) :=
  [ ("assessment_id", JInt 1); ("patient_id", JStr "reference");
    ("risk_30_day", JNum 0.2978); ("risk_60_day", JNum 0.6321);
    ("risk_90_day", JNum 0.8407); ("hazard_ratio", JInt 1);
    ("risk_category", JStr "low"); ("confidence_lower", JNum 0.2531);
    ("confidence_upper", JNum 0.3425); ("assessment_date", JStr "2025-01-01");
    ("model_version", JStr "1.0.0") ].

(** A request of the C# layer with the covariates of the reference
    patient. *)
Definition referenceRequest : RiskPredictionRequest :=
  {| PatientId := "reference"; Age := 65; NumComorbidities := 0;
     PriorAdmissions := 0; Diabetes := false; CHF := false; COPD := false;
     SocioeconomicIndex := 50 |}.

(** Two patients of the C# layer and the histories the API answers for
    them: one assessment for the first, whose category is "high", and an
    error for the second. *)
Definition patientA : ReadmissionPredictionService.Patient :=
  {| ReadmissionPredictionService.PatientId := "A";
     ReadmissionPredictionService.Name := "A";
     ReadmissionPredictionService.Age := 70;
     ReadmissionPredictionService.NumComorbidities := 3;
     ReadmissionPredictionService.PriorAdmissions := 2;
     ReadmissionPredictionService.Diabetes := true;
     ReadmissionPredictionService.CHF := true;
     ReadmissionPredictionService.COPD := false;
     ReadmissionPredictionService.SocioeconomicIndex := 30 |}.

Definition patientB : ReadmissionPredictionService.Patient :=
  {| ReadmissionPredictionService.PatientId := "B";
     ReadmissionPredictionService.Name := "B";
     ReadmissionPredictionService.Age := 50;
     ReadmissionPredictionService.NumComorbidities := 0;
     ReadmissionPredictionService.PriorAdmissions := 0;
     ReadmissionPredictionService.Diabetes := false;
     ReadmissionPredictionService.CHF := false;
     ReadmissionPredictionService.COPD := false;
     ReadmissionPredictionService.SocioeconomicIndex := 50 |}.

Definition highAssessment : RiskAssessment :=
  {| Risk30Day := 0.72; Risk60Day := 0.91; Risk90Day := 0.97;
     HazardRatio := 3.6; RiskCategory := "high";
     ConfidenceLower := 0.612; ConfidenceUpper := 0.828;
     CompetingRisks := CalculateCompetingRisks 30;
     CarePlan := highPlan |}.

Definition sampleHistory (patient : ReadmissionPredictionService.Patient)
  : option (list RiskAssessment) :=
  if String.eqb (ReadmissionPredictionService.PatientId patient) "A"
  then Some [ highAssessment ]
  else None.

(** ** Facts about the number operations *)

Section NumberFacts.

Lemma Rltb_true (a b : R) : a < b -> Rltb a b = true.
Proof. intros H. unfold Rltb. destruct (Rlt_dec a b); [reflexivity | contradiction]. Qed.

Lemma Rltb_false (a b : R) : b <= a -> Rltb a b = false.
Proof. intros H. unfold Rltb. destruct (Rlt_dec a b); [lra | reflexivity]. Qed.

Lemma Rltb_iff (a b : R) : Rltb a b = true <-> a < b.
Proof.
  unfold Rltb. destruct (Rlt_dec a b); split; intros; try easy.
Qed.

Lemma Reqb_true (a b : R) : a = b -> Reqb a b = true.
Proof. intros H. unfold Reqb. destruct (Req_dec_T a b); [reflexivity | contradiction]. Qed.

Lemma Reqb_false (a b : R) : a <> b -> Reqb a b = false.
Proof. intros H. unfold Reqb. destruct (Req_dec_T a b); [contradiction | reflexivity]. Qed.

Lemma Fin_inj (a b : R) : Fin a = Fin b -> a = b.
Proof. intros H. injection H. trivial. Qed.

Lemma div_Fin (a b : R) : b <> 0 -> div (Fin a) (Fin b) = Fin (a / b).
Proof. intros H. simpl. now rewrite (Reqb_false b 0 H). Qed.

Lemma div_zero_zero (a b : R) : a = 0 -> b = 0 -> div (Fin a) (Fin b) = NaN.
Proof. intros Ha Hb. simpl. now rewrite (Reqb_true b 0 Hb), (Reqb_true a 0 Ha). Qed.

Lemma gtb_Fin (a b : R) : gtb (Fin a) (Fin b) = Rltb b a.
Proof. reflexivity. Qed.

Lemma gtb_Fin_true (a b : R) : b < a -> gtb (Fin a) (Fin b) = true.
Proof. intros H. simpl. now apply Rltb_true. Qed.

Lemma gtb_Fin_false (a b : R) : a <= b -> gtb (Fin a) (Fin b) = false.
Proof. intros H. simpl. now apply Rltb_false. Qed.

(** On a positive base [Math.pow] is the real power, whatever the finite
    exponent. *)
Lemma pow_Fin_pos (b e : R) : 0 < b -> pow (Fin b) (Fin e) = Fin (Rpower b e).
Proof.
  intros Hb. simpl. destruct (Req_dec_T e 0) as [He | He].
  - rewrite (Reqb_true e 0 He). subst e. now rewrite Rpower_O.
  - rewrite (Reqb_false e 0 He), (Reqb_false b 0) by lra.
    now rewrite (Rltb_false b 0) by lra.
Qed.

(** Clamping into [[0,1]] as [predictReadmissionRisk] writes it. *)
Lemma clamp_Fin (x : R) :
  min (max (Fin x) (Fin 0)) (Fin 1) = Fin (Rmin (Rmax x 0) 1).
Proof.
  unfold max, min. rewrite gtb_Fin.
  destruct (Rlt_dec 0 x) as [H | H].
  - rewrite (Rltb_true 0 x H), gtb_Fin. rewrite Rmax_left by lra.
    destruct (Rlt_dec 1 x) as [H1 | H1].
    + rewrite (Rltb_true 1 x H1). now rewrite Rmin_right by lra.
    + rewrite (Rltb_false 1 x) by lra. now rewrite Rmin_left by lra.
  - rewrite (Rltb_false 0 x) by lra. rewrite gtb_Fin, (Rltb_false 1 0) by lra.
    rewrite Rmax_right by lra. now rewrite Rmin_left by lra.
Qed.

Lemma clamp_Fin_id (x : R) :
  0 <= x <= 1 -> min (max (Fin x) (Fin 0)) (Fin 1) = Fin x.
Proof.
  intros H. rewrite clamp_Fin. rewrite Rmax_left by lra. now rewrite Rmin_left by lra.
Qed.

End NumberFacts.

(** ** Facts about doubles and about [Math.pow] on them *)

Section Binary64Facts.

Import PrimFloat SpecFloat FloatOps FloatAxioms.
Local Open Scope float_scope.

(** A double below another is a number, and differs from it. *)
Lemma ltb_not_eqb (x y : float) : (x <? y) = true -> (x =? y) = false.
Proof.
  rewrite ltb_spec, eqb_spec. unfold SFltb, SFeqb.
  now destruct (SFcompare (Prim2SF x) (Prim2SF y)) as [[] |].
Qed.

Lemma is_finite_inv (x : float) :
  is_finite x = true -> is_nan x = false /\ is_infinity x = false.
Proof.
  unfold is_finite. destruct (is_nan x), (is_infinity x); intros H;
    try discriminate H; split; reflexivity.
Qed.

(** A product with [NaN] is [NaN]. *)
Lemma mul_nan_r (x : float) : x * nan = nan.
Proof.
  apply Prim2SF_inj. rewrite mul_spec.
  change (Prim2SF nan) with S754_nan. now destruct (Prim2SF x).
Qed.

(** A positive double, finite or not, over [+0] is [+Infinity]. *)
Lemma div_positive_by_zero (x : float) : (0 <? x) = true -> x / 0 = infinity.
Proof.
  rewrite ltb_spec. intros Hx.
  apply Prim2SF_inj. rewrite div_spec.
  change (Prim2SF 0) with (S754_zero false) in *.
  change (Prim2SF infinity) with (S754_infinity false).
  destruct (Prim2SF x) as [s | s | | s m e]; try discriminate Hx;
    destruct s; try discriminate Hx; reflexivity.
Qed.

(** A double strictly between 0 and 1 is finite, is no zero and is its own
    absolute value. *)
Lemma between_zero_and_one (b : float) :
  (0 <? b) = true -> (b <? 1) = true ->
  is_nan b = false /\ is_infinity b = false /\ is_zero b = false /\
  abs b = b /\ (1 <? b) = false /\ (b =? 1) = false.
Proof.
  intros H0 H1.
  assert (Habs : abs b = b).
  { apply Prim2SF_inj. rewrite abs_spec. rewrite ltb_spec in H0.
    change (Prim2SF 0) with (S754_zero false) in H0.
    destruct (Prim2SF b) as [s | s | | s m e]; try discriminate H0;
      destruct s; try discriminate H0; reflexivity. }
  unfold is_nan, is_infinity, is_zero. rewrite Habs.
  rewrite !eqb_spec. rewrite !ltb_spec in *.
  change (Prim2SF 0) with (S754_zero false) in *.
  change (Prim2SF infinity) with (S754_infinity false).
  set (one' := Prim2SF 1) in *. vm_compute in one'. subst one'.
  destruct (Prim2SF b) as [s | s | | s m e]; try discriminate H0;
    destruct s; try discriminate H0; try discriminate H1.
  repeat split; try reflexivity.
  - unfold SFeqb, SFcompare. now rewrite Z.compare_refl, Pos.compare_cont_refl.
  - unfold SFltb, SFcompare in *.
    rewrite (Z.compare_antisym e (-52)).
    destruct (e ?= -52)%Z eqn:He; cbn [CompOpp] in *; try discriminate H1;
      try reflexivity.
    pose proof (Pos.compare_cont_antisym m 4503599627370496 Eq) as Hanti.
    cbn [CompOpp] in Hanti. rewrite <- Hanti.
    now destruct (Pos.compare_cont Eq m 4503599627370496).
  - unfold SFltb, SFeqb in *.
    now destruct (SFcompare (S754_finite false m e)
                    (S754_finite false 4503599627370496 (-52))) as [[] |].
Qed.

Variable approxExp : float -> float.
Variable approxPow : float -> float -> float.

(** [Math.pow] of a negative finite base under an exponent that is no
    integer (1.5 and 0.5 here) is [NaN]. *)
Lemma pow_negative_base (q : float) :
  is_finite q = true -> (q <? 0) = true ->
  Binary64.pow approxPow q 1.5 = nan /\ Binary64.pow approxPow q 0.5 = nan.
Proof.
  intros Hfin Hneg.
  destruct (is_finite_inv q Hfin) as [Hnan Hinf].
  assert (Hzero : is_zero q = false) by (apply ltb_not_eqb; exact Hneg).
  unfold Binary64.pow. rewrite Hnan, Hinf, Hzero, Hneg. split; reflexivity.
Qed.

(** [Math.pow] of a base strictly between 0 and 1 under [+Infinity] is
    [+0]. *)
Lemma pow_to_infinity (b : float) :
  (0 <? b) = true -> (b <? 1) = true -> Binary64.pow approxPow b infinity = 0.
Proof.
  intros H0 H1.
  destruct (between_zero_and_one b H0 H1) as (Hnan & Hinf & Hzero & Habs & Hgt & Hne).
  unfold Binary64.pow. rewrite Hnan, Hinf, Hzero, Habs, Hgt, Hne. reflexivity.
Qed.

End Binary64Facts.

(** ** Competing-risks decomposition *)

Lemma base_Fin (w tau t : R) :
  tau <> 0 -> base w tau t = Fin (saturating w tau t).
Proof.
  intros Htau. unfold base, saturating, sub. cbn [neg].
  rewrite div_Fin by assumption. cbn [exp neg add mul].
  f_equal.
Qed.

Lemma saturating_zero (w tau : R) : saturating w tau 0 = 0.
Proof.
  unfold saturating. replace (- 0 / tau) with 0 by (unfold Rdiv; ring).
  rewrite exp_0. ring.
Qed.

Lemma saturating_pos (w tau t : R) :
  0 < w -> 0 < tau -> 0 < t -> 0 < saturating w tau t.
Proof.
  intros Hw Htau Ht. unfold saturating.
  assert (Hneg : - t / tau < 0).
  { unfold Rdiv. apply Ropp_lt_cancel. rewrite Ropp_0, <- Ropp_mult_distr_l, Ropp_involutive.
    apply Rmult_lt_0_compat; [assumption | now apply Rinv_0_lt_compat]. }
  assert (Hexp : Rtrigo_def.exp (- t / tau) < 1).
  { rewrite <- exp_0. now apply exp_increasing. }
  apply Rmult_lt_0_compat; lra.
Qed.

(** The result of [calculateCompetingRisks] in terms of the named locals. *)
Lemma calculateCompetingRisks_locals (time : number) :
  calculateCompetingRisks time =
  {| readmission := div (base 0.4 45 time) (total time);
     death := div (base 0.1 60 time) (total time);
     transfer := div (base 0.12 50 time) (total time);
     recovery := div (base 0.38 40 time) (total time) |}.
Proof. reflexivity. Qed.

Lemma total_Fin (t : R) :
  total t =
  Fin (saturating 0.4 45 t + saturating 0.1 60 t +
       saturating 0.12 50 t + saturating 0.38 40 t).
Proof.
  unfold total. rewrite !base_Fin by lra. reflexivity.
Qed.

(** The C# service layer computes the same four components. *)
Lemma CalculateCompetingRisks_of_service (time : number) :
  CalculateCompetingRisks time =
  {| Readmission := readmission (calculateCompetingRisks time);
     Death := death (calculateCompetingRisks time);
     Transfer := transfer (calculateCompetingRisks time);
     Recovery := recovery (calculateCompetingRisks time) |}.
Proof. reflexivity. Qed.

(** C1, as the specification words it, fails: at [t = 0] the result is not
    the equal four-way split. *)
Lemma competing_risks_at_zero_not_equal_split :
  calculateCompetingRisks 0 <>
  {| readmission := 0.25; death := 0.25; transfer := 0.25; recovery := 0.25 |}.
Proof.
  rewrite calculateCompetingRisks_locals, total_Fin, !base_Fin by lra.
  rewrite !saturating_zero.
  rewrite !div_zero_zero by lra.
  discriminate.
Qed.

(** C1 (amended): at [t = 0] the four bases are 0, so is their total, and
    [calculateCompetingRisks], which has no case for a zero total, returns
    [NaN] (zero over zero) in each of its four components. *)
Theorem competing_risks_at_zero :
  bases 0 = [Fin 0; Fin 0; Fin 0; Fin 0] /\
  total 0 = Fin 0 /\
  calculateCompetingRisks 0 =
  {| readmission := NaN; death := NaN; transfer := NaN; recovery := NaN |} /\
  CalculateCompetingRisks 0 =
  {| Readmission := NaN; Death := NaN; Transfer := NaN; Recovery := NaN |}.
Proof.
  assert (Hts : calculateCompetingRisks 0 =
    {| readmission := NaN; death := NaN; transfer := NaN; recovery := NaN |}).
  { rewrite calculateCompetingRisks_locals, total_Fin, !base_Fin by lra.
    rewrite !saturating_zero. now rewrite !div_zero_zero by lra. }
  split; [| split; [| split]].
  - unfold bases. rewrite !base_Fin by lra. now rewrite !saturating_zero.
  - rewrite total_Fin, !saturating_zero. f_equal. lra.
  - exact Hts.
  - rewrite CalculateCompetingRisks_of_service, Hts. reflexivity.
Qed.

(** The decomposition at a positive time, on the reals. *)
Lemma calculateCompetingRisks_positive (t : R) :
  0 < t ->
  let b1 := saturating 0.4 45 t in
  let b2 := saturating 0.1 60 t in
  let b3 := saturating 0.12 50 t in
  let b4 := saturating 0.38 40 t in
  let s := b1 + b2 + b3 + b4 in
  (0 < b1 /\ 0 < b2 /\ 0 < b3 /\ 0 < b4) /\
  bases t = [Fin b1; Fin b2; Fin b3; Fin b4] /\
  calculateCompetingRisks t =
    {| readmission := Fin (b1 / s); death := Fin (b2 / s);
       transfer := Fin (b3 / s); recovery := Fin (b4 / s) |} /\
  CalculateCompetingRisks t =
    {| Readmission := Fin (b1 / s); Death := Fin (b2 / s);
       Transfer := Fin (b3 / s); Recovery := Fin (b4 / s) |}.
Proof.
  intros Ht b1 b2 b3 b4 s.
  assert (H1 : 0 < b1) by (apply saturating_pos; lra).
  assert (H2 : 0 < b2) by (apply saturating_pos; lra).
  assert (H3 : 0 < b3) by (apply saturating_pos; lra).
  assert (H4 : 0 < b4) by (apply saturating_pos; lra).
  assert (Hs : 0 < s) by (unfold s; lra).
  assert (Hr : calculateCompetingRisks t =
               {| readmission := Fin (b1 / s); death := Fin (b2 / s);
                  transfer := Fin (b3 / s); recovery := Fin (b4 / s) |}).
  { rewrite calculateCompetingRisks_locals, total_Fin, !base_Fin by lra.
    fold b1 b2 b3 b4 s. now rewrite !div_Fin by lra. }
  split; [repeat split; assumption | split; [| split]].
  - unfold bases. now rewrite !base_Fin by lra.
  - exact Hr.
  - rewrite CalculateCompetingRisks_of_service. now rewrite Hr.
Qed.

(** A positive share of a positive total lies between 0 and 1. *)
Lemma share_in_unit_interval (b s : R) : 0 < b -> b <= s -> 0 <= b / s <= 1.
Proof.
  intros Hb Hbs. assert (Hs : 0 < s) by lra. split.
  - left. now apply Rdiv_lt_0_compat.
  - apply Rmult_le_reg_r with s; [assumption |].
    unfold Rdiv. rewrite Rmult_assoc, Rinv_l by lra. lra.
Qed.

Section CompetingRisksOnDoubles.

Import PrimFloat.

(** When the four exponentials come out as 1, the four bases are [+0], so
    is their total, and each component is zero over zero. *)
Lemma calculateCompetingRisks_zero_total
    (approxExp : float -> float) (time : float) :
  (forall tau : float, In tau [45; 60; 50; 40]%float ->
     Binary64.exp approxExp (- time / tau)%float = 1%float) ->
  Binary64.calculateCompetingRisks approxExp time =
  {| Binary64.readmission := nan; Binary64.death := nan;
     Binary64.transfer := nan; Binary64.recovery := nan |}.
Proof.
  intros H. unfold Binary64.calculateCompetingRisks.
  rewrite (H 45%float), (H 60%float), (H 50%float), (H 40%float) by (cbn; tauto).
  reflexivity.
Qed.




End CompetingRisksOnDoubles.

(** The same at an infinite time: the bases are the four weights, which
    add up to 1. *)
Lemma competing_risks_at_infinity :
  calculateCompetingRisks PosInf =
  {| readmission := Fin (0.4 / 1); death := Fin (0.1 / 1);
     transfer := Fin (0.12 / 1); recovery := Fin (0.38 / 1) |}.
Proof.
  assert (Hb : forall w tau : R, 0 < tau -> base w tau PosInf = Fin w).
  { intros w tau Htau. unfold base, sub. cbn [neg div].
    rewrite (Rltb_false tau 0) by lra. cbn. f_equal. lra. }
  rewrite calculateCompetingRisks_locals. unfold total.
  rewrite !Hb by lra. cbn [add].
  replace (0.4 + 0.1 + 0.12 + 0.38) with 1 by lra.
  now rewrite !div_Fin by lra.
Qed.

(** ** Baseline survival and hazard rate: no parameter validation *)

Lemma isInteger_three_halves : isInteger 1.5 = false.
Proof.
  unfold isInteger. apply Reqb_false. intros H.
  assert (H2 : IZR (2 * Int_part 1.5) = IZR 3) by (rewrite mult_IZR; lra).
  apply eq_IZR in H2. lia.
Qed.

Lemma isInteger_one_half : isInteger 0.5 = false.
Proof.
  unfold isInteger. apply Reqb_false. intros H.
  assert (H2 : IZR (2 * Int_part 0.5) = IZR 1) by (rewrite mult_IZR; lra).
  apply eq_IZR in H2. lia.
Qed.

(** A negative base under the default shape: [Math.pow] yields [NaN]. *)
Lemma pow_negative_base_default_shape (b : R) :
  b < 0 -> pow (Fin b) (Fin 1.5) = NaN /\ pow (Fin b) (Fin 0.5) = NaN.
Proof.
  intros Hb. split; simpl.
  - rewrite (Reqb_false 1.5 0), (Reqb_false b 0), (Rltb_true b 0) by lra.
    now rewrite isInteger_three_halves.
  - rewrite (Reqb_false 0.5 0), (Reqb_false b 0), (Rltb_true b 0) by lra.
    now rewrite isInteger_one_half.
Qed.

(** A negative time under the default shape and scale: both formulas
    yield [NaN]. *)
Lemma negative_time_gives_NaN (t : R) :
  t < 0 ->
  calculateWeibullSurvival t None None = NaN /\
  calculateHazardRate t None None = NaN.
Proof.
  intros Ht.
  assert (Hdiv : div (Fin t) (Fin 60) = Fin (t / 60)) by (now rewrite div_Fin by lra).
  assert (Hneg : t / 60 < 0) by lra.
  destruct (pow_negative_base_default_shape _ Hneg) as [Hp1 Hp2].
  split.
  - unfold calculateWeibullSurvival, orDefault. cbv zeta.
    rewrite Hdiv, Hp1. reflexivity.
  - unfold calculateHazardRate, orDefault. cbv zeta. rewrite Hdiv.
    replace (sub (Fin 1.5) (Fin 1)) with (Fin 0.5)
      by (unfold sub; cbn [neg add]; f_equal; lra).
    rewrite Hp2. rewrite div_Fin by lra. reflexivity.
Qed.


(** Inside the domain both formulas are the Weibull ones on the reals. *)
Lemma calculateHazardRate_in_domain (t k l : R) :
  0 < t -> 0 < k -> 0 < l ->
  calculateHazardRate t (Some (Fin k)) (Some (Fin l)) =
  Fin (k / l * Rpower (t / l) (k - 1)).
Proof.
  intros Ht Hk Hl.
  assert (Hq : 0 < t / l) by (apply Rdiv_lt_0_compat; assumption).
  unfold calculateHazardRate, orDefault, sub. cbv zeta. cbn [neg add].
  rewrite !div_Fin by lra. rewrite pow_Fin_pos by assumption. reflexivity.
Qed.

Lemma calculateWeibullSurvival_in_domain (t k l : R) :
  0 < t -> 0 < k -> 0 < l ->
  calculateWeibullSurvival t (Some (Fin k)) (Some (Fin l)) = Fin (weibull t k l) /\
  0 < weibull t k l < 1.
Proof.
  intros Ht Hk Hl.
  assert (Hq : 0 < t / l) by (apply Rdiv_lt_0_compat; assumption).
  split.
  - unfold calculateWeibullSurvival, orDefault, weibull. cbv zeta.
    rewrite div_Fin by lra. rewrite pow_Fin_pos by assumption. reflexivity.
  - unfold weibull. split; [apply exp_pos |].
    rewrite <- exp_0. apply exp_increasing.
    assert (0 < Rpower (t / l) k) by apply exp_pos. lra.
Qed.

Lemma calculateWeibullSurvival_at_zero (k l : R) :
  0 < k -> 0 < l ->
  calculateWeibullSurvival 0 (Some (Fin k)) (Some (Fin l)) = Fin 1.
Proof.
  intros Hk Hl. unfold calculateWeibullSurvival, orDefault. cbv zeta.
  rewrite div_Fin by lra. cbn [pow].
  rewrite (Reqb_false k 0), (Reqb_true (0 / l) 0), (Rltb_true 0 k) by lra.
  cbn [neg exp]. f_equal. rewrite Ropp_0. apply exp_0.
Qed.

Section BaselineOnDoubles.

Import PrimFloat.


End BaselineOnDoubles.

Lemma baseline_default (t : R) :
  0 < t -> calculateWeibullSurvival t None None = Fin (S0 t) /\ 0 < S0 t < 1.
Proof.
  intros Ht. apply (calculateWeibullSurvival_in_domain t 1.5 60); lra.
Qed.

Lemma S0_decreasing (t u : R) : 0 < t -> t < u -> S0 u < S0 t.
Proof.
  intros Ht Htu. unfold S0, weibull. apply exp_increasing.
  apply Ropp_lt_contravar. apply Rlt_Rpower_l; lra.
Qed.

(** ** Hazard ratio *)

Lemma indicator_Fin (flag : bool) : indicator flag = Fin (indicatorR flag).
Proof. now destruct flag. Qed.

Lemma linearPredictor_Fin (pid : string) (a n p : R) (d c o : bool) (s : R) :
  linearPredictor
    {| patientId := pid; age := a; numComorbidities := n; priorAdmissions := p;
       diabetes := d; chf := c; copd := o; socioeconomicIndex := s |}
  = Fin (linearPredictorR a n p d c o s).
Proof.
  unfold linearPredictor, linearPredictorR.
  unfold coefficients.age, coefficients.numComorbidities,
    coefficients.priorAdmissions, coefficients.diabetes, coefficients.chf,
    coefficients.copd, coefficients.socioeconomicIndex.
  cbn [age numComorbidities priorAdmissions diabetes chf copd socioeconomicIndex].
  rewrite !indicator_Fin. unfold sub. cbn [neg add mul].
  rewrite !div_Fin by lra. cbn [add]. f_equal.
Qed.

(** A finite feature vector, seen through its real covariates. *)
Lemma finiteFeatures_inv (f : RiskPredictionDto) :
  finiteFeatures f ->
  exists a n p s : R,
    f = {| patientId := f.(patientId); age := a; numComorbidities := n;
           priorAdmissions := p; diabetes := f.(diabetes); chf := f.(chf);
           copd := f.(copd); socioeconomicIndex := s |}.
Proof.
  destruct f as [pid a n p d c o s]. unfold finiteFeatures. cbn.
  intros (Ha & Hn & Hp & Hs).
  destruct a as [| | | a]; try discriminate.
  destruct n as [| | | n]; try discriminate.
  destruct p as [| | | p]; try discriminate.
  destruct s as [| | | s]; try discriminate.
  now exists a, n, p, s.
Qed.

(** On finite covariates the hazard ratio is a positive real, the
    exponential of the linear predictor. *)
Lemma calculateCoxRiskScore_finite (f : RiskPredictionDto) :
  finiteFeatures f ->
  exists lp : R,
    linearPredictor f = Fin lp /\
    calculateCoxRiskScore f = Fin (Rtrigo_def.exp lp) /\
    0 < Rtrigo_def.exp lp.
Proof.
  intros Hf. destruct (finiteFeatures_inv f Hf) as (a & n & p & s & Heq).
  exists (linearPredictorR a n p f.(diabetes) f.(chf) f.(copd) s).
  assert (Hlp : linearPredictor f =
                Fin (linearPredictorR a n p f.(diabetes) f.(chf) f.(copd) s)).
  { rewrite Heq at 1. apply linearPredictor_Fin. }
  split; [exact Hlp | split; [| apply exp_pos]].
  unfold calculateCoxRiskScore. now rewrite Hlp.
Qed.

Lemma exp_monotone (x y : R) : x <= y -> Rtrigo_def.exp x <= Rtrigo_def.exp y.
Proof.
  intros [Hlt | Heq].
  - left. now apply exp_increasing.
  - right. now rewrite Heq.
Qed.

Lemma calculateCoxRiskScore_Fin
    (pid : string) (a n p : R) (d c o : bool) (s : R) :
  calculateCoxRiskScore
    {| patientId := pid; age := a; numComorbidities := n; priorAdmissions := p;
       diabetes := d; chf := c; copd := o; socioeconomicIndex := s |}
  = Fin (Rtrigo_def.exp (linearPredictorR a n p d c o s)).
Proof. unfold calculateCoxRiskScore. now rewrite linearPredictor_Fin. Qed.

(** The linear predictor is monotone: non-decreasing in the age, in the two
    counts and in each flag, non-increasing in the socioeconomic index. *)
Lemma linearPredictorR_monotone
    (a a' n n' p p' : R) (d d' c c' o o' : bool) (s s' : R) :
  a <= a' -> n <= n' -> p <= p' ->
  indicatorR d <= indicatorR d' -> indicatorR c <= indicatorR c' ->
  indicatorR o <= indicatorR o' -> s' <= s ->
  linearPredictorR a n p d c o s <= linearPredictorR a' n' p' d' c' o' s'.
Proof. intros. unfold linearPredictorR. lra. Qed.

Ltac monotone_case :=
  cbn [le]; apply exp_monotone, linearPredictorR_monotone;
  (lra || (unfold indicatorR; lra)).

(** C4: on finite covariates the hazard ratio is monotone in each covariate
    taken alone.  Raising the age, the comorbidity count or the
    prior-admission count, or turning the diabetes, CHF or COPD flag from
    false to true, never lowers it; raising the socioeconomic index never
    raises it. *)
Theorem hazard_ratio_monotone (f : RiskPredictionDto) :
  finiteFeatures f ->
  (forall a a' : R, f.(age) = Fin a -> a <= a' ->
     le (calculateCoxRiskScore f) (calculateCoxRiskScore (withAge f a'))) /\
  (forall n n' : R, f.(numComorbidities) = Fin n -> n <= n' ->
     le (calculateCoxRiskScore f)
        (calculateCoxRiskScore (withNumComorbidities f n'))) /\
  (forall p p' : R, f.(priorAdmissions) = Fin p -> p <= p' ->
     le (calculateCoxRiskScore f)
        (calculateCoxRiskScore (withPriorAdmissions f p'))) /\
  (f.(diabetes) = false ->
     le (calculateCoxRiskScore f) (calculateCoxRiskScore (withDiabetes f true))) /\
  (f.(chf) = false ->
     le (calculateCoxRiskScore f) (calculateCoxRiskScore (withChf f true))) /\
  (f.(copd) = false ->
     le (calculateCoxRiskScore f) (calculateCoxRiskScore (withCopd f true))) /\
  (forall s s' : R, f.(socioeconomicIndex) = Fin s -> s <= s' ->
     le (calculateCoxRiskScore (withSocioeconomicIndex f s'))
        (calculateCoxRiskScore f)).
Proof.
  intros Hf. destruct (finiteFeatures_inv f Hf) as (a & n & p & s & Heq).
  destruct f as [pid fa fn fp d c o fs]. cbn in Heq.
  injection Heq as -> -> -> ->.
  unfold withAge, withNumComorbidities, withPriorAdmissions, withDiabetes,
    withChf, withCopd, withSocioeconomicIndex.
  cbn [patientId age numComorbidities priorAdmissions diabetes chf copd
       socioeconomicIndex].
  repeat split.
  - intros x x' Hx Hle. apply Fin_inj in Hx. subst x.
    rewrite !calculateCoxRiskScore_Fin. monotone_case.
  - intros x x' Hx Hle. apply Fin_inj in Hx. subst x.
    rewrite !calculateCoxRiskScore_Fin. monotone_case.
  - intros x x' Hx Hle. apply Fin_inj in Hx. subst x.
    rewrite !calculateCoxRiskScore_Fin. monotone_case.
  - intros ->. rewrite !calculateCoxRiskScore_Fin. monotone_case.
  - intros ->. rewrite !calculateCoxRiskScore_Fin. monotone_case.
  - intros ->. rewrite !calculateCoxRiskScore_Fin. monotone_case.
  - intros x x' Hx Hle. apply Fin_inj in Hx. subst x.
    rewrite !calculateCoxRiskScore_Fin. monotone_case.
Qed.

(** ** Risk projection *)

Lemma predict_hazardRatio (f : RiskPredictionDto) :
  hazardRatio (predictReadmissionRisk f) = calculateCoxRiskScore f.
Proof. reflexivity. Qed.

Lemma predict_risk30Day (f : RiskPredictionDto) :
  risk30Day (predictReadmissionRisk f) =
  min (max (rawRisk 30 (calculateCoxRiskScore f)) 0) 1.
Proof. reflexivity. Qed.

Lemma predict_risk60Day (f : RiskPredictionDto) :
  risk60Day (predictReadmissionRisk f) =
  min (max (rawRisk 60 (calculateCoxRiskScore f)) 0) 1.
Proof. reflexivity. Qed.

Lemma predict_risk90Day (f : RiskPredictionDto) :
  risk90Day (predictReadmissionRisk f) =
  min (max (rawRisk 90 (calculateCoxRiskScore f)) 0) 1.
Proof. reflexivity. Qed.

Lemma predict_riskCategory (f : RiskPredictionDto) :
  riskCategory (predictReadmissionRisk f) =
  categorize (rawRisk 30 (calculateCoxRiskScore f)).
Proof. reflexivity. Qed.

(** Clamping into [[0,1]] does not move a number across a threshold that
    lies in [[0,1)]; this holds for the infinities and for [NaN] too. *)
Lemma gtb_clamp (x : number) (c : R) :
  0 <= c < 1 -> gtb (min (max x 0) 1) c = gtb x c.
Proof.
  intros Hc. destruct x as [| | | x].
  - reflexivity.
  - cbn. apply Rltb_true. lra.
  - change (max NegInf 0) with (Fin 0). unfold min. rewrite gtb_Fin.
    rewrite (Rltb_false 1 0) by lra. cbn. apply Rltb_false. lra.
  - rewrite clamp_Fin, !gtb_Fin.
    destruct (Rlt_dec c x) as [H | H].
    + rewrite (Rltb_true c x H). apply Rltb_true.
      apply Rmin_glb_lt; [| lra]. apply Rlt_le_trans with x; [assumption | apply Rmax_l].
    + rewrite (Rltb_false c x) by lra. apply Rltb_false.
      apply Rle_trans with (Rmax x 0); [apply Rmin_l |]. apply Rmax_lub; lra.
Qed.

Lemma categorize_clamp (x : number) :
  categorize (min (max x 0) 1) = categorize x.
Proof.
  unfold categorize. now rewrite !gtb_clamp by lra.
Qed.

(** The category is a function of the clamped 30-day risk. *)
Lemma riskCategory_of_risk30Day (f : RiskPredictionDto) :
  riskCategory (predictReadmissionRisk f) =
  categorize (risk30Day (predictReadmissionRisk f)).
Proof.
  now rewrite predict_risk30Day, categorize_clamp, predict_riskCategory.
Qed.

Lemma gtb_threshold_order (x : number) :
  gtb x 0.6 = true -> gtb x 0.3 = true.
Proof.
  destruct x as [| | | x]; try easy.
  rewrite !gtb_Fin, !Rltb_iff. lra.
Qed.

(** C5: the category is decided by the 30-day risk alone, through strict
    thresholds.  It is "high" exactly when the risk exceeds 0.6, "medium"
    exactly when it exceeds 0.3 without exceeding 0.6, and "low" in every
    other case; a risk of exactly 0.6 is "medium" and a risk of exactly 0.3
    is "low". *)
Theorem risk_category_thresholds (f : RiskPredictionDto) :
  let a := predictReadmissionRisk f in
  a.(riskCategory) = categorize a.(risk30Day) /\
  (a.(riskCategory) = "high" <-> gtb a.(risk30Day) 0.6 = true) /\
  (a.(riskCategory) = "medium" <->
     gtb a.(risk30Day) 0.3 = true /\ gtb a.(risk30Day) 0.6 = false) /\
  (a.(riskCategory) = "low" <->
     gtb a.(risk30Day) 0.6 = false /\ gtb a.(risk30Day) 0.3 = false) /\
  categorize 0.6 = "medium" /\
  categorize 0.3 = "low".
Proof.
  intros a. unfold a. split; [apply riskCategory_of_risk30Day |].
  rewrite riskCategory_of_risk30Day.
  generalize (risk30Day (predictReadmissionRisk f)). intros x.
  pose proof (gtb_threshold_order x) as Hord.
  unfold categorize.
  repeat split.
  - destruct (gtb x 0.6); [reflexivity |]. destruct (gtb x 0.3); discriminate.
  - intros ->. reflexivity.
  - destruct (gtb x 0.6); [discriminate |]. destruct (gtb x 0.3); [reflexivity | discriminate].
  - destruct (gtb x 0.6); [discriminate | reflexivity].
  - intros [-> ->]. reflexivity.
  - destruct (gtb x 0.6); [discriminate | reflexivity].
  - destruct (gtb x 0.6); [discriminate |]. destruct (gtb x 0.3); [discriminate | reflexivity].
  - intros [-> ->]. reflexivity.
  - rewrite (gtb_Fin_false 0.6 0.6), (gtb_Fin_true 0.6 0.3) by lra. reflexivity.
  - rewrite (gtb_Fin_false 0.3 0.6), (gtb_Fin_false 0.3 0.3) by lra. reflexivity.
Qed.

(** ** Care plans *)

Lemma generateCarePlan_by_threshold (a : RiskPrediction) :
  generateCarePlan a =
  if gtb a.(risk30Day) 0.6 then highPlan
  else if gtb a.(risk30Day) 0.3 then mediumPlan
  else lowPlan.
Proof.
  unfold generateCarePlan. cbv zeta.
  destruct (gtb a.(risk30Day) 0.6); [reflexivity |].
  destruct (gtb a.(risk30Day) 0.3); reflexivity.
Qed.

(** The service's plan is the engine's plan for the category of the
    30-day risk the service is given. *)
Lemma generateCarePlan_by_category (a : RiskPrediction) :
  generateCarePlan a = GenerateCarePlan a.(risk30Day) (categorize a.(risk30Day)).
Proof.
  rewrite generateCarePlan_by_threshold. unfold categorize.
  destruct (gtb a.(risk30Day) 0.6); [reflexivity |].
  destruct (gtb a.(risk30Day) 0.3); reflexivity.
Qed.

Lemma care_plan_fixed_mapping_aux (a : RiskPrediction) :
  selectCarePlan (categorize a.(risk30Day)) = Some (generateCarePlan a).
Proof.
  rewrite generateCarePlan_by_threshold. unfold categorize.
  destruct (gtb a.(risk30Day) 0.6); [reflexivity |].
  destruct (gtb a.(risk30Day) 0.3); reflexivity.
Qed.

(** C7: care-plan selection is a fixed total mapping from the three
    categories to three fixed ordered lists.  "high" gives the six-item list
    that begins with the 3-day follow-up, "medium" the five-item list, "low"
    the four-item list, whatever the other argument and on every call; the
    service's [generateCarePlan], which is given the prediction rather
    than the category, returns the list of the category of its 30-day
    risk. *)
Theorem care_plan_fixed_mapping :
  (forall risk30, GenerateCarePlan risk30 "high" = highPlan) /\
  (forall risk30, GenerateCarePlan risk30 "medium" = mediumPlan) /\
  (forall risk30, GenerateCarePlan risk30 "low" = lowPlan) /\
  (forall a, selectCarePlan (categorize a.(risk30Day)) = Some (generateCarePlan a)) /\
  length highPlan = 6%nat /\
  hd_error highPlan =
    Some "HIGH PRIORITY: Schedule follow-up within 3 days of discharge" /\
  length mediumPlan = 5%nat /\
  hd_error mediumPlan = Some "Schedule follow-up within 7 days of discharge" /\
  length lowPlan = 4%nat /\
  hd_error lowPlan = Some "Standard follow-up within 14 days of discharge".
Proof.
  repeat split; try reflexivity.
  apply care_plan_fixed_mapping_aux.
Qed.

(** ** Horizon risks on finite covariates *)

(** A base in (0,1) raised to a positive power stays in (0,1). *)
Lemma Rpower_unit_interval (b h : R) :
  0 < b < 1 -> 0 < h -> 0 < Rpower b h < 1.
Proof.
  intros [Hb0 Hb1] Hh. unfold Rpower. split; [apply exp_pos |].
  rewrite <- exp_0. apply exp_increasing.
  assert (Hln : ln b < 0) by (rewrite <- ln_1; now apply ln_increasing).
  replace 0 with (h * 0) by ring. now apply Rmult_lt_compat_l.
Qed.

(** The raw risk at a positive horizon under a positive finite hazard
    ratio: one minus the baseline survival raised to the hazard ratio, a
    real strictly between 0 and 1. *)
Lemma rawRisk_Fin (t h : R) :
  0 < t -> 0 < h ->
  rawRisk t h = Fin (1 - Rpower (S0 t) h) /\ 0 < 1 - Rpower (S0 t) h < 1.
Proof.
  intros Ht Hh. destruct (baseline_default t Ht) as [Hbase HS].
  pose proof (Rpower_unit_interval (S0 t) h HS Hh) as Hp.
  split; [| lra].
  unfold rawRisk. rewrite Hbase, pow_Fin_pos by lra. reflexivity.
Qed.

Lemma rawRisk_increasing (t u h : R) :
  0 < t -> t < u -> 0 < h ->
  1 - Rpower (S0 t) h < 1 - Rpower (S0 u) h.
Proof.
  intros Ht Htu Hh.
  assert (Hu : 0 < u) by lra.
  destruct (baseline_default u Hu) as [_ HSu].
  pose proof (S0_decreasing t u Ht Htu) as Hdec.
  assert (Rpower (S0 u) h < Rpower (S0 t) h) by (apply Rlt_Rpower_l; lra).
  lra.
Qed.

(** The three horizon risks of a prediction on finite covariates. *)
Lemma predict_finite (f : RiskPredictionDto) :
  finiteFeatures f ->
  exists h : R,
    0 < h /\
    hazardRatio (predictReadmissionRisk f) = Fin h /\
    rawRisk 30 h = Fin (1 - Rpower (S0 30) h) /\
    risk30Day (predictReadmissionRisk f) = Fin (1 - Rpower (S0 30) h) /\
    risk60Day (predictReadmissionRisk f) = Fin (1 - Rpower (S0 60) h) /\
    risk90Day (predictReadmissionRisk f) = Fin (1 - Rpower (S0 90) h).
Proof.
  intros Hf.
  destruct (calculateCoxRiskScore_finite f Hf) as (lp & _ & Hcox & Hpos).
  exists (Rtrigo_def.exp lp).
  destruct (rawRisk_Fin 30 _ ltac:(lra) Hpos) as [H30 B30].
  destruct (rawRisk_Fin 60 _ ltac:(lra) Hpos) as [H60 B60].
  destruct (rawRisk_Fin 90 _ ltac:(lra) Hpos) as [H90 B90].
  rewrite predict_hazardRatio, predict_risk30Day, predict_risk60Day,
    predict_risk90Day, Hcox, H30, H60, H90.
  rewrite !clamp_Fin_id by lra. repeat split; (assumption || reflexivity).
Qed.

(** C3: on finite covariates the three horizon risks are ordered,
    [risk90Day >= risk60Day >= risk30Day]. *)
Theorem horizon_risks_ordered (f : RiskPredictionDto) :
  finiteFeatures f ->
  let a := predictReadmissionRisk f in
  le a.(risk60Day) a.(risk90Day) /\ le a.(risk30Day) a.(risk60Day).
Proof.
  intros Hf a. unfold a.
  destruct (predict_finite f Hf) as (h & Hh & _ & _ & -> & -> & ->).
  cbn [le].
  pose proof (rawRisk_increasing 30 60 h ltac:(lra) ltac:(lra) Hh).
  pose proof (rawRisk_increasing 60 90 h ltac:(lra) ltac:(lra) Hh).
  lra.
Qed.

(** C8: on finite covariates the projection does not fail: it returns a
    prediction whose three horizon risks are numbers of the closed interval
    [[0,1]] (neither [NaN] nor an infinity) and whose category is one of
    the three. *)
Theorem horizon_risks_in_unit_interval (f : RiskPredictionDto) :
  finiteFeatures f ->
  let a := predictReadmissionRisk f in
  exists r30 r60 r90 : R,
    a.(risk30Day) = Fin r30 /\ 0 <= r30 <= 1 /\
    a.(risk60Day) = Fin r60 /\ 0 <= r60 <= 1 /\
    a.(risk90Day) = Fin r90 /\ 0 <= r90 <= 1 /\
    In a.(riskCategory) ["high"; "medium"; "low"].
Proof.
  intros Hf a. unfold a.
  destruct (predict_finite f Hf) as (h & Hh & Hhr & _ & H30 & H60 & H90).
  exists (1 - Rpower (S0 30) h), (1 - Rpower (S0 60) h),
    (1 - Rpower (S0 90) h).
  destruct (rawRisk_Fin 30 h ltac:(lra) Hh) as [_ B30].
  destruct (rawRisk_Fin 60 h ltac:(lra) Hh) as [_ B60].
  destruct (rawRisk_Fin 90 h ltac:(lra) Hh) as [_ B90].
  repeat split; try assumption; try lra.
  rewrite predict_riskCategory. unfold categorize.
  destruct (gtb _ 0.6); [now left |].
  destruct (gtb _ 0.3); [right; now left | right; right; now left].
Qed.

Lemma plan_of_prediction (f : RiskPredictionDto) :
  selectCarePlan (riskCategory (predictReadmissionRisk f)) =
  Some (generateCarePlan (predictReadmissionRisk f)).
Proof.
  rewrite riskCategory_of_risk30Day. apply care_plan_fixed_mapping_aux.
Qed.

Section RawRiskOnDoubles.

Import PrimFloat.

(** C10, as it is worded, fails in one part: the raw 30-day risk does not
    always lie in [[0,1)]; on doubles it reaches 1.

    For the feature vector [hugePatient], whose covariates are finite, the
    linear predictor overflows to [+Infinity], so does the hazard ratio,
    and for every runtime whose baseline survival at 30 days is a number
    strictly between 0 and 1 (it is 0.7022) the adjusted survival is [+0]
    and the raw risk is exactly 1.

    For [ninePatient], a patient with nine comorbidities, and a runtime
    whose [Math.exp] and [Math.pow] are correctly rounded at the four
    arguments involved, the hazard ratio is 107.77, the adjusted survival
    is 2.8e-17, and [1 - 2.8e-17] is the double 1. *)
Lemma raw_risk_reaches_one :
  ((is_finite (Binary64.age Binary64.hugePatient) &&
    is_finite (Binary64.numComorbidities Binary64.hugePatient) &&
    is_finite (Binary64.priorAdmissions Binary64.hugePatient) &&
    is_finite (Binary64.socioeconomicIndex Binary64.hugePatient) = true)%bool /\
   forall (approxExp : float -> float) (approxPow : float -> float -> float),
     let baselineSurvival30 :=
       Binary64.calculateWeibullSurvival approxExp approxPow 30%float None None in
     (0 <? baselineSurvival30)%float = true ->
     (baselineSurvival30 <? 1)%float = true ->
     let a := Binary64.predictReadmissionRisk approxExp approxPow Binary64.hugePatient in
     Binary64.hazardRatio a = infinity /\
     Binary64.risk30 approxExp approxPow (Binary64.hazardRatio a) = 1%float /\
     Binary64.risk30Day a = 1%float /\
     Binary64.riskCategory a = "high") /\
  (forall (approxExp : float -> float) (approxPow : float -> float -> float),
     approxPow 0.5%float 1.5%float = 0.3535533905932738%float ->
     approxExp (-0.3535533905932738)%float = 0.7021885013265596%float ->
     approxExp 4.68%float = 107.77007257140046%float ->
     approxPow 0.7021885013265596%float 107.77007257140046%float =
       2.833384741711349e-17%float ->
     let a := Binary64.predictReadmissionRisk approxExp approxPow Binary64.ninePatient in
     Binary64.hazardRatio a = 107.77007257140046%float /\
     Binary64.risk30 approxExp approxPow (Binary64.hazardRatio a) = 1%float /\
     Binary64.risk30Day a = 1%float /\
     Binary64.riskCategory a = "high").
Proof.
  split; [split; [reflexivity |] |].
  - intros approxExp approxPow baselineSurvival30 H0 H1 a.
    assert (Hh : Binary64.hazardRatio a = infinity) by reflexivity.
    assert (Hr : Binary64.risk30 approxExp approxPow infinity = 1%float).
    { unfold Binary64.risk30. cbv zeta. fold baselineSurvival30.
      now rewrite (pow_to_infinity approxPow baselineSurvival30 H0 H1). }
    split; [exact Hh | split; [now rewrite Hh |]].
    unfold a, Binary64.predictReadmissionRisk. cbv zeta.
    cbn [Binary64.risk30Day Binary64.riskCategory].
    change (Binary64.calculateCoxRiskScore approxExp Binary64.hugePatient)
      with infinity.
    rewrite Hr. split; reflexivity.
  - intros approxExp approxPow Hpow Hexp Hhazard Hadjusted a.
    assert (Hh : Binary64.calculateCoxRiskScore approxExp Binary64.ninePatient =
                 107.77007257140046%float) by exact Hhazard.
    assert (Hp : Binary64.pow approxPow (30 / 60)%float 1.5%float =
                 0.3535533905932738%float) by exact Hpow.
    assert (Hb : Binary64.calculateWeibullSurvival approxExp approxPow 30%float
                   None None = 0.7021885013265596%float).
    { unfold Binary64.calculateWeibullSurvival. cbv zeta.
      change (Binary64.orDefault None 1.5%float) with 1.5%float.
      change (Binary64.orDefault None 60%float) with 60%float.
      rewrite Hp. exact Hexp. }
    assert (Hr : Binary64.risk30 approxExp approxPow 107.77007257140046%float =
                 1%float).
    { unfold Binary64.risk30. cbv zeta. rewrite Hb.
      replace (Binary64.pow approxPow 0.7021885013265596%float
                 107.77007257140046%float)
        with 2.833384741711349e-17%float by (symmetry; exact Hadjusted).
      reflexivity. }
    assert (Ha : Binary64.hazardRatio a = 107.77007257140046%float) by exact Hh.
    split; [exact Ha | split; [now rewrite Ha |]].
    unfold a, Binary64.predictReadmissionRisk. cbv zeta.
    cbn [Binary64.risk30Day Binary64.riskCategory].
    rewrite Hh, Hr. split; reflexivity.
Qed.

(** The premise on the baseline holds for a runtime that gives [Math.pow]
    and [Math.exp] the doubles nearest to [0.5^1.5] and to the baseline
    survival at 30 days. *)
Lemma baseline_between_zero_and_one :
  let approxPow := fun _ _ : float => 0.3535533905932738%float in
  let approxExp := fun _ : float => 0.7021885013265596%float in
  let baselineSurvival30 :=
    Binary64.calculateWeibullSurvival approxExp approxPow 30%float None None in
  baselineSurvival30 = 0.7021885013265596%float /\
  (0 <? baselineSurvival30)%float = true /\
  (baselineSurvival30 <? 1)%float = true.
Proof. repeat split. Qed.

End RawRiskOnDoubles.

(** C10 (amended): on finite covariates the care plan attached to an
    assessment is the plan of the assessment's category.  The raw 30-day
    risk already lies in the closed interval [[0,1]], so clamping leaves it
    unchanged; the plan, which [generateCarePlan] builds by branching on
    the clamped 30-day risk, is the plan selected by the category, itself
    computed from the raw risk: six items for "high", five for "medium",
    four for "low". *)
Theorem care_plan_consistent_with_category
    (id : string) (f : RiskPredictionDto) :
  finiteFeatures f ->
  let r := assessPatientRisk id f in
  let a := r.(prediction) in
  let plan := r.(carePlan) in
  (exists x : R,
     rawRisk 30 a.(hazardRatio) = Fin x /\ 0 <= x <= 1 /\ a.(risk30Day) = Fin x) /\
  a.(riskCategory) = categorize (rawRisk 30 a.(hazardRatio)) /\
  plan = generateCarePlan a /\
  plan = GenerateCarePlan a.(risk30Day) a.(riskCategory) /\
  selectCarePlan a.(riskCategory) = Some plan /\
  (a.(riskCategory) = "high" -> plan = highPlan /\ length plan = 6%nat) /\
  (a.(riskCategory) = "medium" -> plan = mediumPlan /\ length plan = 5%nat) /\
  (a.(riskCategory) = "low" -> plan = lowPlan /\ length plan = 4%nat).
Proof.
  intros Hf r a plan.
  change a with (predictReadmissionRisk f).
  change plan with (generateCarePlan (predictReadmissionRisk f)).
  clear r a plan.
  pose proof (plan_of_prediction f) as Hsel.
  split; [| split; [| split; [| split; [| split; [exact Hsel |]]]]].
  - destruct (predict_finite f Hf) as (h & Hh & Hhr & Hraw & H30 & _).
    destruct (rawRisk_Fin 30 h ltac:(lra) Hh) as [_ B30].
    exists (1 - Rpower (S0 30) h). rewrite Hhr.
    repeat split; (assumption || lra).
  - reflexivity.
  - reflexivity.
  - rewrite generateCarePlan_by_category.
    now rewrite riskCategory_of_risk30Day.
  - split; [| split]; intros Hc; rewrite Hc in Hsel; cbn in Hsel;
      injection Hsel as <-; split; reflexivity.
Qed.

(** ** The reference patient of the specification *)

(** Squaring a two-sided bound on an exponential. *)
Lemma exp_double_bounds (z w a b a' b' : R) :
  w = 2 * z -> 0 <= a -> a <= Rtrigo_def.exp z <= b ->
  a' <= a * a -> b * b <= b' ->
  a' <= Rtrigo_def.exp w <= b'.
Proof.
  intros -> Ha [Hlo Hhi] Ha' Hb'.
  replace (2 * z) with (z + z) by ring. rewrite exp_plus.
  assert (Hb : 0 <= b) by lra.
  split.
  - apply Rle_trans with (a * a); [assumption |].
    apply Rmult_le_compat; lra.
  - apply Rle_trans with (b * b); [| assumption].
    pose proof (exp_pos z).
    apply Rmult_le_compat; lra.
Qed.

Lemma exp_neg_lower (z : R) : 1 - z <= Rtrigo_def.exp (- z).
Proof. pose proof (exp_ineq1_le (- z)). lra. Qed.

Lemma exp_neg_upper (z b : R) :
  0 < z -> 0 < b -> 1 <= b * (1 + z) -> Rtrigo_def.exp (- z) <= b.
Proof.
  intros Hz Hb H1. rewrite exp_Ropp.
  pose proof (exp_ineq1_le z) as Hexp.
  assert (Hpos : 0 < Rtrigo_def.exp z) by apply exp_pos.
  assert (Hprod : 1 <= b * Rtrigo_def.exp z).
  { apply Rle_trans with (b * (1 + z)); [assumption |].
    apply Rmult_le_compat_l; lra. }
  apply Rmult_le_reg_r with (Rtrigo_def.exp z); [assumption |].
  rewrite Rinv_l by lra. assumption.
Qed.

(** The exponent of the 30-day baseline: [(30/60)^1.5] is half the square
    root of one half. *)
Lemma baseline_exponent_30 : Rpower (30 / 60) 1.5 = / 2 * sqrt (/ 2).
Proof.
  replace (30 / 60) with (/ 2) by lra.
  replace 1.5 with (1 + / 2) by lra.
  rewrite Rpower_plus, Rpower_1, Rpower_sqrt by lra. reflexivity.
Qed.

Lemma sqrt_half_bounds : 0.707106781 < sqrt (/ 2) < 0.707106782.
Proof.
  split.
  - rewrite <- (sqrt_square 0.707106781) by lra.
    apply sqrt_lt_1_alt. lra.
  - rewrite <- (sqrt_square 0.707106782) by lra.
    apply sqrt_lt_1_alt. lra.
Qed.

Lemma baseline_exponent_30_bounds :
  0.3535533905 < Rpower (30 / 60) 1.5 < 0.353553391.
Proof.
  rewrite baseline_exponent_30. pose proof sqrt_half_bounds. lra.
Qed.

(** Two-sided bound on [exp (- x)] for [x] the exponent above, by twelve
    squarings from [1 - y <= exp (- y) <= 1 / (1 + y)] at [y = x / 4096]. *)
Lemma exp_neg_baseline_exponent_bounds (x : R) :
  0.3535533905 < x < 0.353553391 ->
  0.702177783861 <= Rtrigo_def.exp (- x) <= 0.702199219186.
Proof.
  intros Hx.
  assert (B0 : 0.999913683254 <= Rtrigo_def.exp (- (x / 4096)) <= 0.999913690705).
  { split.
    - pose proof (exp_neg_lower (x / 4096)). lra.
    - apply exp_neg_upper; lra. }
  assert (B1 : 0.999827373958 <= Rtrigo_def.exp (- (x / 2048)) <= 0.999827388860).
  { apply (exp_double_bounds (- (x / 4096)) _ 0.999913683254 0.999913690705);
      [lra | lra | exact B0 | lra | lra]. }
  assert (B2 : 0.999654777715 <= Rtrigo_def.exp (- (x / 1024)) <= 0.999654807515).
  { apply (exp_double_bounds (- (x / 2048)) _ 0.999827373958 0.999827388860);
      [lra | lra | exact B1 | lra | lra]. }
  assert (B3 : 0.999309674608 <= Rtrigo_def.exp (- (x / 512)) <= 0.999309734188).
  { apply (exp_double_bounds (- (x / 1024)) _ 0.999654777715 0.999654807515);
      [lra | lra | exact B2 | lra | lra]. }
  assert (B4 : 0.998619825765 <= Rtrigo_def.exp (- (x / 256)) <= 0.998619944843).
  { apply (exp_double_bounds (- (x / 512)) _ 0.999309674608 0.999309734188);
      [lra | lra | exact B3 | lra | lra]. }
  assert (B5 : 0.997241556410 <= Rtrigo_def.exp (- (x / 128)) <= 0.997241794239).
  { apply (exp_double_bounds (- (x / 256)) _ 0.998619825765 0.998619944843);
      [lra | lra | exact B4 | lra | lra]. }
  assert (B6 : 0.994490721831 <= Rtrigo_def.exp (- (x / 64)) <= 0.994491196178).
  { apply (exp_double_bounds (- (x / 128)) _ 0.997241556410 0.997241794239);
      [lra | lra | exact B5 | lra | lra]. }
  assert (B7 : 0.989011795807 <= Rtrigo_def.exp (- (x / 32)) <= 0.989012739276).
  { apply (exp_double_bounds (- (x / 64)) _ 0.994490721831 0.994491196178);
      [lra | lra | exact B6 | lra | lra]. }
  assert (B8 : 0.978144332245 <= Rtrigo_def.exp (- (x / 16)) <= 0.978146198451).
  { apply (exp_double_bounds (- (x / 32)) _ 0.989011795807 0.989012739276);
      [lra | lra | exact B7 | lra | lra]. }
  assert (B9 : 0.956766334703 <= Rtrigo_def.exp (- (x / 8)) <= 0.956769985545).
  { apply (exp_double_bounds (- (x / 16)) _ 0.978144332245 0.978146198451);
      [lra | lra | exact B8 | lra | lra]. }
  assert (B10 : 0.915401819221 <= Rtrigo_def.exp (- (x / 4)) <= 0.915408805240).
  { apply (exp_double_bounds (- (x / 8)) _ 0.956766334703 0.956769985545);
      [lra | lra | exact B9 | lra | lra]. }
  assert (B11 : 0.837960490633 <= Rtrigo_def.exp (- (x / 2)) <= 0.837973280711).
  { apply (exp_double_bounds (- (x / 4)) _ 0.915401819221 0.915408805240);
      [lra | lra | exact B10 | lra | lra]. }
  assert (B12 : 0.702177783861 <= Rtrigo_def.exp (- x) <= 0.702199219186).
  { apply (exp_double_bounds (- (x / 2)) _ 0.837960490633 0.837973280711);
      [lra | lra | exact B11 | lra | lra]. }
  exact B12.
Qed.

Lemma referencePatient_hazardRatio :
  linearPredictor referencePatient = Fin 0 /\
  calculateCoxRiskScore referencePatient = Fin 1.
Proof.
  unfold referencePatient.
  rewrite calculateCoxRiskScore_Fin, linearPredictor_Fin.
  assert (H0 : linearPredictorR 65 0 0 false false false 50 = 0).
  { unfold linearPredictorR, indicatorR. lra. }
  rewrite H0, exp_0. split; reflexivity.
Qed.

Lemma referencePatient_risk30Day :
  risk30Day (predictReadmissionRisk referencePatient) = Fin referenceRisk30.
Proof.
  destruct referencePatient_hazardRatio as [_ Hcox].
  rewrite predict_risk30Day, Hcox.
  destruct (rawRisk_Fin 30 1 ltac:(lra) ltac:(lra)) as [Hraw Hb].
  destruct (baseline_default 30 ltac:(lra)) as [_ HS].
  rewrite Hraw, clamp_Fin_id by lra.
  rewrite Rpower_1 by lra. reflexivity.
Qed.

Lemma referenceRisk30_bounds : 0.2978 < referenceRisk30 < 0.29783.
Proof.
  unfold referenceRisk30.
  pose proof (exp_neg_baseline_exponent_bounds _ baseline_exponent_30_bounds).
  lra.
Qed.

(** C9, as the specification words it, fails in its decimal value: the
    30-day risk of the reference patient exceeds 0.2978, more than 0.005
    above 0.2925, so 0.2925 is not its value to four decimal places (nor to
    two). *)
Lemma reference_risk_is_not_0_2925 :
  risk30Day (predictReadmissionRisk referencePatient) = Fin referenceRisk30 /\
  0.005 < referenceRisk30 - 0.2925 /\
  ~ (exists x : R,
       risk30Day (predictReadmissionRisk referencePatient) = Fin x /\
       toFourDecimals x 0.2925).
Proof.
  pose proof referenceRisk30_bounds as Hb.
  split; [apply referencePatient_risk30Day | split; [lra |]].
  intros (x & Hx & Happrox).
  rewrite referencePatient_risk30Day in Hx. apply Fin_inj in Hx. subst x.
  unfold toFourDecimals in Happrox.
  rewrite Rabs_right in Happrox by lra. lra.
Qed.

(** C9 (amended): for the reference patient the linear predictor is 0, the
    hazard ratio is [exp 0 = 1], the 30-day risk is
    [1 - exp (- (30/60)^1.5)], which is 0.2978 to four decimal places, and
    the category is "low". *)
Theorem reference_patient_assessment :
  let a := predictReadmissionRisk referencePatient in
  linearPredictor referencePatient = Fin 0 /\
  a.(hazardRatio) = Fin (Rtrigo_def.exp 0) /\
  a.(hazardRatio) = Fin 1 /\
  a.(risk30Day) = Fin (1 - Rtrigo_def.exp (- Rpower (30 / 60) 1.5)) /\
  toFourDecimals (1 - Rtrigo_def.exp (- Rpower (30 / 60) 1.5)) 0.2978 /\
  a.(riskCategory) = "low".
Proof.
  intros a. unfold a.
  destruct referencePatient_hazardRatio as [Hlp Hcox].
  pose proof referenceRisk30_bounds as Hb. unfold referenceRisk30 in Hb.
  repeat split.
  - exact Hlp.
  - rewrite predict_hazardRatio, Hcox. now rewrite exp_0.
  - now rewrite predict_hazardRatio.
  - apply referencePatient_risk30Day.
  - unfold toFourDecimals. apply Rabs_le. lra.
  - rewrite riskCategory_of_risk30Day, referencePatient_risk30Day.
    unfold categorize, referenceRisk30.
    now rewrite (gtb_Fin_false _ 0.6), (gtb_Fin_false _ 0.3) by lra.
Qed.

(** ** The C# service layer computes what the service computes *)

Lemma CalculateCompetingRisks_agrees (time : number) :
  let r := CalculateCompetingRisks time in
  {| readmission := r.(Readmission); death := r.(Death);
     transfer := r.(Transfer); recovery := r.(Recovery) |}
  = calculateCompetingRisks time.
Proof. reflexivity. Qed.

Lemma wrapInt_in_range (z : Z) : ageInRange z -> wrapInt (z - 65) = (z - 65)%Z.
Proof.
  unfold ageInRange, wrapInt.
  change (2 ^ 31)%Z with 2147483648%Z. change (2 ^ 32)%Z with 4294967296%Z.
  intros Hz. rewrite Z.mod_small by lia. lia.
Qed.

Lemma CalculateCoxRiskScore_agrees (request : RiskPredictionRequest) :
  ageInRange request.(Age) ->
  CalculateCoxRiskScore request = calculateCoxRiskScore (toDto request).
Proof.
  intros Hage. destruct request as [pid a n p d c o s]. cbn in Hage.
  unfold CalculateCoxRiskScore, calculateCoxRiskScore, linearPredictor, toDto.
  cbn [Age NumComorbidities PriorAdmissions Diabetes CHF COPD SocioeconomicIndex
       age numComorbidities priorAdmissions diabetes chf copd socioeconomicIndex].
  rewrite (wrapInt_in_range a Hage).
  change (coefficients "age") with SurvivalAnalysisService.coefficients.age.
  change (coefficients "numComorbidities")
    with SurvivalAnalysisService.coefficients.numComorbidities.
  change (coefficients "priorAdmissions")
    with SurvivalAnalysisService.coefficients.priorAdmissions.
  change (coefficients "diabetes") with SurvivalAnalysisService.coefficients.diabetes.
  change (coefficients "chf") with SurvivalAnalysisService.coefficients.chf.
  change (coefficients "copd") with SurvivalAnalysisService.coefficients.copd.
  change (coefficients "socioeconomicIndex")
    with SurvivalAnalysisService.coefficients.socioeconomicIndex.
  assert (Hsub : ofInt (a - 65) = sub (ofInt a) 65).
  { unfold ofInt, sub. cbn [neg add]. now rewrite minus_IZR. }
  assert (Hind : forall flag : bool,
             ofInt (if flag then 1 else 0) = indicator flag)
    by (intros []; reflexivity).
  now rewrite Hsub, !Hind.
Qed.

Section DotNetAgreement.

Variable Pow : number -> number -> number.

(** The regular case of [Math.Pow]: a positive finite base and a finite
    exponent give the real power. *)
Hypothesis Pow_regular :
  forall b e : R, 0 < b -> Pow (Fin b) (Fin e) = Fin (Rpower b e).

Lemma CalculateWeibullSurvival_default (t : R) :
  0 < t -> CalculateWeibullSurvival Pow t None None = Fin (S0 t).
Proof.
  intros Ht. unfold CalculateWeibullSurvival, orDefault. cbv zeta.
  rewrite div_Fin by lra. rewrite Pow_regular by (apply Rdiv_lt_0_compat; lra).
  reflexivity.
Qed.

Lemma clamp_dotnet_Fin_id (x : R) :
  0 <= x <= 1 -> max (Fin 0) (min (Fin 1) (Fin x)) = Fin x.
Proof.
  intros Hx. unfold min. rewrite gtb_Fin.
  destruct (Rlt_dec x 1) as [H | H].
  - rewrite (Rltb_true x 1 H). unfold max. rewrite gtb_Fin.
    now rewrite (Rltb_false x 0) by lra.
  - rewrite (Rltb_false x 1) by lra. unfold max. rewrite gtb_Fin.
    rewrite (Rltb_false 1 0) by lra. f_equal. lra.
Qed.

(** X21: on a request whose age does not wrap around and whose socioeconomic
    index is finite, [PredictReadmissionRisk] returns the horizon risks,
    the hazard ratio, the category, the confidence band, the competing
    risks and the care plan that the service returns on the same
    covariates. *)
Theorem PredictReadmissionRisk_agrees (request : RiskPredictionRequest) :
  ageInRange request.(Age) ->
  isFinite request.(SocioeconomicIndex) = true ->
  let r := PredictReadmissionRisk Pow request in
  let a := assessPatientRisk request.(PatientId) (toDto request) in
  r.(Risk30Day) = a.(prediction).(risk30Day) /\
  r.(Risk60Day) = a.(prediction).(risk60Day) /\
  r.(Risk90Day) = a.(prediction).(risk90Day) /\
  r.(HazardRatio) = a.(prediction).(hazardRatio) /\
  r.(RiskCategory) = a.(prediction).(riskCategory) /\
  r.(CarePlan) = a.(carePlan).
Proof.
  intros Hage Hses r a.
  assert (Hfin : finiteFeatures (toDto request)).
  { unfold finiteFeatures, toDto. cbn. repeat split; assumption. }
  destruct (predict_finite _ Hfin) as (h & Hh & Hhr & _ & H30 & H60 & H90).
  rewrite predict_hazardRatio, <- CalculateCoxRiskScore_agrees in Hhr by assumption.
  destruct (rawRisk_Fin 30 h ltac:(lra) Hh) as [_ B30].
  destruct (rawRisk_Fin 60 h ltac:(lra) Hh) as [_ B60].
  destruct (rawRisk_Fin 90 h ltac:(lra) Hh) as [_ B90].
  destruct (baseline_default 30 ltac:(lra)) as [_ S30].
  destruct (baseline_default 60 ltac:(lra)) as [_ S60].
  destruct (baseline_default 90 ltac:(lra)) as [_ S90].
  assert (R30 : r.(Risk30Day) = Fin (1 - Rpower (S0 30) h)).
  { unfold r, PredictReadmissionRisk. cbn [Risk30Day].
    rewrite CalculateWeibullSurvival_default, Hhr, Pow_regular by lra.
    apply (clamp_dotnet_Fin_id (1 - Rpower (S0 30) h)). lra. }
  assert (R60 : r.(Risk60Day) = Fin (1 - Rpower (S0 60) h)).
  { unfold r, PredictReadmissionRisk. cbn [Risk60Day].
    rewrite CalculateWeibullSurvival_default, Hhr, Pow_regular by lra.
    apply (clamp_dotnet_Fin_id (1 - Rpower (S0 60) h)). lra. }
  assert (R90 : r.(Risk90Day) = Fin (1 - Rpower (S0 90) h)).
  { unfold r, PredictReadmissionRisk. cbn [Risk90Day].
    rewrite CalculateWeibullSurvival_default, Hhr, Pow_regular by lra.
    apply (clamp_dotnet_Fin_id (1 - Rpower (S0 90) h)). lra. }
  assert (Hcat : r.(RiskCategory) = categorize r.(Risk30Day)) by reflexivity.
  assert (Hplan : r.(CarePlan) = GenerateCarePlan r.(Risk30Day) r.(RiskCategory))
    by reflexivity.
  unfold a, assessPatientRisk.
  cbn [prediction carePlan RiskAssessmentService.competingRisks].
  rewrite H30, H60, H90, R30, R60, R90.
  repeat split.
  - unfold r. cbn [HazardRatio PredictReadmissionRisk].
    now rewrite predict_hazardRatio, CalculateCoxRiskScore_agrees.
  - now rewrite Hcat, R30, riskCategory_of_risk30Day, H30.
  - rewrite Hplan, Hcat, R30, generateCarePlan_by_category. now rewrite H30.
Qed.

End DotNetAgreement.

(** ** The theorems at the reference patient *)

(** C3 at the reference patient. *)
Lemma horizon_risks_ordered_witness :
  finiteFeatures referencePatient /\
  le (risk60Day (predictReadmissionRisk referencePatient))
     (risk90Day (predictReadmissionRisk referencePatient)) /\
  le (risk30Day (predictReadmissionRisk referencePatient))
     (risk60Day (predictReadmissionRisk referencePatient)).
Proof.
  assert (Hf : finiteFeatures referencePatient) by (repeat split; reflexivity).
  split; [exact Hf | exact (horizon_risks_ordered referencePatient Hf)].
Defined.

(** C4 at the reference patient, ten years older. *)
Lemma hazard_ratio_monotone_witness :
  finiteFeatures referencePatient /\
  le (calculateCoxRiskScore referencePatient)
     (calculateCoxRiskScore (withAge referencePatient 75)).
Proof.
  assert (Hf : finiteFeatures referencePatient) by (repeat split; reflexivity).
  split; [exact Hf |].
  apply (proj1 (hazard_ratio_monotone referencePatient Hf) 65 75);
    [reflexivity | lra].
Defined.

(** C8 at the reference patient. *)
Lemma horizon_risks_in_unit_interval_witness :
  finiteFeatures referencePatient /\
  exists r30 r60 r90 : R,
    risk30Day (predictReadmissionRisk referencePatient) = Fin r30 /\ 0 <= r30 <= 1 /\
    risk60Day (predictReadmissionRisk referencePatient) = Fin r60 /\ 0 <= r60 <= 1 /\
    risk90Day (predictReadmissionRisk referencePatient) = Fin r90 /\ 0 <= r90 <= 1 /\
    In (riskCategory (predictReadmissionRisk referencePatient))
       ["high"; "medium"; "low"].
Proof.
  assert (Hf : finiteFeatures referencePatient) by (repeat split; reflexivity).
  split; [exact Hf | exact (horizon_risks_in_unit_interval referencePatient Hf)].
Defined.

(** ** Further properties of the risk projection *)

Lemma max_zero_Fin (y : R) : 0 <= y -> max (Fin 0) (Fin y) = Fin y.
Proof.
  intros Hy. unfold max. rewrite gtb_Fin. now rewrite (Rltb_false y 0) by lra.
Qed.

Lemma min_one_Fin (y : R) : min (Fin 1) (Fin y) = Fin (Rmin 1 y).
Proof.
  unfold min. rewrite gtb_Fin. destruct (Rlt_dec y 1) as [H | H].
  - rewrite (Rltb_true y 1 H). now rewrite Rmin_right by lra.
  - rewrite (Rltb_false y 1) by lra. now rewrite Rmin_left by lra.
Qed.

Lemma predict_confidence (f : RiskPredictionDto) :
  confidenceLower (predictReadmissionRisk f) =
    max 0 (mul (rawRisk 30 (calculateCoxRiskScore f)) 0.85) /\
  confidenceUpper (predictReadmissionRisk f) =
    min 1 (mul (rawRisk 30 (calculateCoxRiskScore f)) 1.15).
Proof. split; reflexivity. Qed.

(** X1: on finite covariates the confidence band brackets the 30-day risk:
    the lower bound is 0.85 times the risk, the upper bound is 1.15 times
    the risk capped at 1, and
    [0 <= confidenceLower <= risk30Day <= confidenceUpper <= 1]. *)
Theorem confidence_band_brackets_risk (f : RiskPredictionDto) :
  finiteFeatures f ->
  let a := predictReadmissionRisk f in
  exists x : R,
    a.(risk30Day) = Fin x /\
    a.(confidenceLower) = Fin (x * 0.85) /\
    a.(confidenceUpper) = Fin (Rmin 1 (x * 1.15)) /\
    0 <= x * 0.85 <= x /\ x <= Rmin 1 (x * 1.15) <= 1.
Proof.
  intros Hf a. unfold a.
  destruct (predict_finite f Hf) as (h & Hh & Hhr & Hraw & H30 & _).
  destruct (rawRisk_Fin 30 h ltac:(lra) Hh) as [_ B30].
  destruct (predict_confidence f) as [Hlo Hhi].
  rewrite predict_hazardRatio in Hhr. rewrite Hhr, Hraw in Hlo, Hhi.
  exists (1 - Rpower (S0 30) h).
  split; [exact H30 |]. cbn [mul] in Hlo, Hhi.
  rewrite max_zero_Fin in Hlo by lra. rewrite min_one_Fin in Hhi.
  split; [exact Hlo | split; [exact Hhi |]].
  split; [lra |]. split.
  - apply Rmin_glb; lra.
  - apply Rmin_l.
Qed.

(** A base in (0,1) raised to a larger power gets no larger. *)
Lemma Rpower_antitone_exponent (b h h' : R) :
  0 < b < 1 -> h <= h' -> Rpower b h' <= Rpower b h.
Proof.
  intros [Hb0 Hb1] Hh. unfold Rpower. apply exp_monotone.
  assert (Hln : ln b < 0) by (rewrite <- ln_1; now apply ln_increasing).
  nra.
Qed.

Lemma categorize_monotone (x y : R) :
  x <= y ->
  (categorize (Fin x) = "high" -> categorize (Fin y) = "high") /\
  (categorize (Fin y) = "low" -> categorize (Fin x) = "low").
Proof.
  intros Hxy. unfold categorize. rewrite !gtb_Fin.
  destruct (Rlt_dec 0.6 x) as [Hx6 | Hx6].
  - rewrite (Rltb_true 0.6 x Hx6), (Rltb_true 0.6 y) by lra.
    split; [reflexivity | discriminate].
  - rewrite (Rltb_false 0.6 x) by lra.
    destruct (Rlt_dec 0.3 x) as [Hx3 | Hx3].
    + rewrite (Rltb_true 0.3 x Hx3). split; [discriminate |].
      rewrite (Rltb_true 0.3 y) by lra.
      destruct (Rltb 0.6 y); discriminate.
    + rewrite (Rltb_false 0.3 x) by lra. split; [discriminate | reflexivity].
Qed.

(** X2: a feature vector at least as severe as another (age, counts and
    flags at least as high, socioeconomic index at most as high, all
    finite) gets a hazard ratio and three horizon risks at least as high,
    and a category at least as high: "high" stays "high", and "low" is
    reached only where the milder vector had it. *)
Theorem risk_monotone_in_covariates (f f' : RiskPredictionDto) :
  atLeastAsSevere f' f ->
  let a := predictReadmissionRisk f in
  let a' := predictReadmissionRisk f' in
  le a.(hazardRatio) a'.(hazardRatio) /\
  le a.(risk30Day) a'.(risk30Day) /\
  le a.(risk60Day) a'.(risk60Day) /\
  le a.(risk90Day) a'.(risk90Day) /\
  (a.(riskCategory) = "high" -> a'.(riskCategory) = "high") /\
  (a'.(riskCategory) = "low" -> a.(riskCategory) = "low").
Proof.
  intros (Hf & Hf' & Ha & Hn & Hp & Hd & Hc & Ho & Hs) a a'.
  destruct (finiteFeatures_inv f Hf) as (x1 & x2 & x3 & x4 & Heq).
  destruct (finiteFeatures_inv f' Hf') as (y1 & y2 & y3 & y4 & Heq').
  destruct f as [pid fa fn fp d c o fs]. destruct f' as [pid' fa' fn' fp' d' c' o' fs'].
  cbn in Heq, Heq', Ha, Hn, Hp, Hd, Hc, Ho, Hs.
  injection Heq as -> -> -> ->. injection Heq' as -> -> -> ->.
  cbn [le] in Ha, Hn, Hp, Hs.
  set (h := Rtrigo_def.exp (linearPredictorR x1 x2 x3 d c o x4)).
  set (h' := Rtrigo_def.exp (linearPredictorR y1 y2 y3 d' c' o' y4)).
  assert (Hh : 0 < h) by apply exp_pos.
  assert (Hh' : 0 < h') by apply exp_pos.
  assert (Hle : h <= h').
  { apply exp_monotone, linearPredictorR_monotone; try assumption.
    - destruct d, d'; unfold indicatorR; try lra; discriminate (Hd eq_refl).
    - destruct c, c'; unfold indicatorR; try lra; discriminate (Hc eq_refl).
    - destruct o, o'; unfold indicatorR; try lra; discriminate (Ho eq_refl). }
  assert (Hrisk : forall t : R, 0 < t ->
            min (max (rawRisk t h) 0) 1 = Fin (1 - Rpower (S0 t) h) /\
            min (max (rawRisk t h') 0) 1 = Fin (1 - Rpower (S0 t) h') /\
            1 - Rpower (S0 t) h <= 1 - Rpower (S0 t) h').
  { intros t Ht.
    destruct (rawRisk_Fin t h Ht Hh) as [-> B].
    destruct (rawRisk_Fin t h' Ht Hh') as [-> B'].
    destruct (baseline_default t Ht) as [_ HS].
    pose proof (Rpower_antitone_exponent (S0 t) h h' HS Hle).
    rewrite !clamp_Fin_id by lra. repeat split; lra. }
  unfold a, a'.
  rewrite !riskCategory_of_risk30Day.
  rewrite !predict_hazardRatio, !predict_risk30Day, !predict_risk60Day,
    !predict_risk90Day, !calculateCoxRiskScore_Fin.
  fold h h'.
  destruct (Hrisk 30 ltac:(lra)) as (-> & -> & L30).
  destruct (Hrisk 60 ltac:(lra)) as (-> & -> & L60).
  destruct (Hrisk 90 ltac:(lra)) as (-> & -> & L90).
  cbn [le]. repeat split; try assumption;
    apply (categorize_monotone _ _ L30).
Qed.

Lemma add_NaN_r (x : number) : add x NaN = NaN.
Proof. now destruct x. Qed.

Lemma mul_NaN_r (x : number) : mul x NaN = NaN.
Proof. now destruct x. Qed.

Lemma linearPredictor_NaN (f : RiskPredictionDto) :
  hasNaN f -> linearPredictor f = NaN.
Proof.
  unfold linearPredictor. intros [H | [H | [H | H]]]; rewrite H.
  - unfold sub. cbn [add]. rewrite mul_NaN_r. now cbn [div add].
  - rewrite mul_NaN_r, add_NaN_r. now cbn [add].
  - rewrite mul_NaN_r, add_NaN_r. now cbn [add].
  - unfold sub. cbn [add]. rewrite mul_NaN_r. cbn [div]. apply add_NaN_r.
Qed.

(** X3: a [NaN] among the numeric covariates is not rejected: the hazard
    ratio, the three horizon risks and the confidence band all come out
    [NaN], the category comes out "low" and the care plan is the four-item
    low-risk plan. *)
Theorem nan_covariate_is_classified_low (id : string) (f : RiskPredictionDto) :
  hasNaN f ->
  predictReadmissionRisk f =
    {| risk30Day := NaN; risk60Day := NaN; risk90Day := NaN;
       hazardRatio := NaN; riskCategory := "low";
       confidenceLower := NaN; confidenceUpper := NaN |} /\
  carePlan (assessPatientRisk id f) = lowPlan.
Proof.
  intros Hnan.
  assert (Hcox : calculateCoxRiskScore f = NaN).
  { unfold calculateCoxRiskScore. now rewrite linearPredictor_NaN. }
  assert (Hp : predictReadmissionRisk f =
    {| risk30Day := NaN; risk60Day := NaN; risk90Day := NaN;
       hazardRatio := NaN; riskCategory := "low";
       confidenceLower := NaN; confidenceUpper := NaN |}).
  { unfold predictReadmissionRisk. rewrite Hcox. reflexivity. }
  split; [exact Hp |].
  unfold assessPatientRisk. cbn [carePlan]. rewrite Hp. reflexivity.
Qed.

(** ** Further properties of the hazard ratio *)

Lemma exp_upper_small (z b : R) :
  0 <= z < 1 -> 1 <= b * (1 - z) -> Rtrigo_def.exp z <= b.
Proof.
  intros Hz Hb.
  pose proof (exp_neg_lower z) as Hlow.
  pose proof (exp_pos z) as Hpos. pose proof (exp_pos (- z)) as Hpos'.
  assert (Hone : Rtrigo_def.exp z * Rtrigo_def.exp (- z) = 1)
    by (rewrite <- exp_plus, Rplus_opp_r; apply exp_0).
  assert (Hb0 : 0 < b) by nra.
  nra.
Qed.

Ltac factor_case c :=
  rewrite !calculateCoxRiskScore_Fin; cbn [mul]; f_equal;
  rewrite <- exp_plus; f_equal; unfold linearPredictorR, indicatorR; lra.

(** X4: the hazard ratio is multiplicative in the covariates (proportional
    hazards).  On finite covariates, whatever the other covariates are, ten
    more years of age multiply it by [exp 0.035], one more comorbidity by
    [exp 0.52], one more prior admission by [exp 0.64], diabetes by
    [exp 0.52], CHF by [exp 0.76], COPD by [exp 0.41], and fifty more points
    of socioeconomic index by [exp (- 0.015)]; the factor of ten years of
    age lies between 1 and 1.04. *)
Theorem hazard_ratio_factors (f : RiskPredictionDto) :
  finiteFeatures f ->
  (forall a : R, f.(age) = Fin a ->
     calculateCoxRiskScore (withAge f (Fin (a + 10))) =
     mul (Fin (Rtrigo_def.exp 0.035)) (calculateCoxRiskScore f)) /\
  (forall n : R, f.(numComorbidities) = Fin n ->
     calculateCoxRiskScore (withNumComorbidities f (Fin (n + 1))) =
     mul (Fin (Rtrigo_def.exp 0.52)) (calculateCoxRiskScore f)) /\
  (forall p : R, f.(priorAdmissions) = Fin p ->
     calculateCoxRiskScore (withPriorAdmissions f (Fin (p + 1))) =
     mul (Fin (Rtrigo_def.exp 0.64)) (calculateCoxRiskScore f)) /\
  (f.(diabetes) = false ->
     calculateCoxRiskScore (withDiabetes f true) =
     mul (Fin (Rtrigo_def.exp 0.52)) (calculateCoxRiskScore f)) /\
  (f.(chf) = false ->
     calculateCoxRiskScore (withChf f true) =
     mul (Fin (Rtrigo_def.exp 0.76)) (calculateCoxRiskScore f)) /\
  (f.(copd) = false ->
     calculateCoxRiskScore (withCopd f true) =
     mul (Fin (Rtrigo_def.exp 0.41)) (calculateCoxRiskScore f)) /\
  (forall s : R, f.(socioeconomicIndex) = Fin s ->
     calculateCoxRiskScore (withSocioeconomicIndex f (Fin (s + 50))) =
     mul (Fin (Rtrigo_def.exp (- 0.015))) (calculateCoxRiskScore f)) /\
  1 < Rtrigo_def.exp 0.035 < 1.04.
Proof.
  intros Hf. destruct (finiteFeatures_inv f Hf) as (a & n & p & s & Heq).
  destruct f as [pid fa fn fp d c o fs]. cbn in Heq.
  injection Heq as -> -> -> ->.
  unfold withAge, withNumComorbidities, withPriorAdmissions, withDiabetes,
    withChf, withCopd, withSocioeconomicIndex.
  cbn [patientId age numComorbidities priorAdmissions diabetes chf copd
       socioeconomicIndex].
  split; [| split; [| split; [| split; [| split; [| split; [| split]]]]]].
  - intros x Hx. apply Fin_inj in Hx. subst x. factor_case 0.035.
  - intros x Hx. apply Fin_inj in Hx. subst x. factor_case 0.52.
  - intros x Hx. apply Fin_inj in Hx. subst x. factor_case 0.64.
  - intros ->. factor_case 0.52.
  - intros ->. factor_case 0.76.
  - intros ->. factor_case 0.41.
  - intros x Hx. apply Fin_inj in Hx. subst x. factor_case 0.015.
  - split.
    + pose proof (exp_ineq1 0.035 ltac:(lra)). lra.
    + apply Rle_lt_trans with 1.037; [| lra]. apply exp_upper_small; lra.
Qed.

(** ** Further properties of the baseline survival and hazard *)

Lemma Rpower_one_base (k : R) : Rpower 1 k = 1.
Proof. unfold Rpower. now rewrite ln_1, Rmult_0_r, exp_0. Qed.

Lemma weibull_decreasing (t u k l : R) :
  0 < t -> t < u -> 0 < k -> 0 < l -> weibull u k l < weibull t k l.
Proof.
  intros Ht Htu Hk Hl. unfold weibull. apply exp_increasing.
  apply Ropp_lt_contravar. apply Rlt_Rpower_l; [assumption |].
  split; [apply Rdiv_lt_0_compat; lra |].
  unfold Rdiv. apply Rmult_lt_compat_r; [now apply Rinv_0_lt_compat | assumption].
Qed.

(** X5: for every positive shape and scale the survival function is 1 at
    time 0, never increases with time, stays within [[0,1]], and at a time
    equal to the scale it is [exp (- 1)] whatever the shape. *)
Theorem weibull_survival_shape (k l : R) :
  0 < k -> 0 < l ->
  calculateWeibullSurvival 0 (Some (Fin k)) (Some (Fin l)) = Fin 1 /\
  calculateWeibullSurvival l (Some (Fin k)) (Some (Fin l)) =
    Fin (Rtrigo_def.exp (- 1)) /\
  (forall t u : R, 0 <= t -> t <= u ->
     exists st su : R,
       calculateWeibullSurvival t (Some (Fin k)) (Some (Fin l)) = Fin st /\
       calculateWeibullSurvival u (Some (Fin k)) (Some (Fin l)) = Fin su /\
       0 <= su <= st /\ st <= 1).
Proof.
  intros Hk Hl.
  assert (Hvalue : forall t : R, 0 <= t ->
            exists st : R,
              calculateWeibullSurvival t (Some (Fin k)) (Some (Fin l)) = Fin st /\
              0 < st <= 1 /\ (0 < t -> st = weibull t k l)).
  { intros t [Ht | <-].
    - destruct (calculateWeibullSurvival_in_domain t k l Ht Hk Hl) as [Hst Bt].
      exists (weibull t k l). repeat split; (assumption || lra).
    - exists 1. rewrite (calculateWeibullSurvival_at_zero k l Hk Hl).
      repeat split; lra. }
  split; [| split].
  - now apply calculateWeibullSurvival_at_zero.
  - destruct (calculateWeibullSurvival_in_domain l k l Hl Hk Hl) as [-> _].
    unfold weibull. replace (l / l) with 1 by (field; lra).
    now rewrite Rpower_one_base.
  - intros t u Ht Htu.
    destruct (Hvalue t Ht) as (st & Hst & Bt & Et).
    destruct (Hvalue u ltac:(lra)) as (su & Hsu & Bu & Eu).
    exists st, su. split; [exact Hst | split; [exact Hsu |]].
    destruct Htu as [Htu | <-].
    + destruct Ht as [Ht | <-].
      * pose proof (weibull_decreasing t u k l Ht Htu Hk Hl).
        rewrite (Et Ht), (Eu ltac:(lra)) in *. lra.
      * rewrite (calculateWeibullSurvival_at_zero k l Hk Hl) in Hst.
        apply Fin_inj in Hst. lra.
    + rewrite Hst in Hsu. apply Fin_inj in Hsu. lra.
Qed.


(** ** The survival curves of the analytics controller *)

Lemma ToLength_of_nat (n : nat) :
  (Z.of_nat n <= 2 ^ 53 - 1)%Z -> ToLength (Fin (INR n)) = Z.of_nat n.
Proof.
  intros Hn. unfold ToLength. rewrite Int_part_INR. lia.
Qed.

Lemma ToLength_below_one (r : R) : r < 1 -> ToLength (Fin r) = 0%Z.
Proof.
  intros Hr. unfold ToLength.
  destruct (base_Int_part r) as [Hlo _].
  assert (Hz : (Int_part r <= 0)%Z).
  { apply Z.lt_succ_r. apply lt_IZR. change (IZR (Z.succ 0)) with 1. lra. }
  lia.
Qed.

(** The integer part does not fall below an integer that the number
    reaches. *)
Lemma Int_part_lower (z : Z) (r : R) : IZR z <= r -> (z <= Int_part r)%Z.
Proof.
  intros Hz. destruct (base_Int_part r) as [_ Hhi].
  assert (Hlt : IZR (z - 1) < IZR (Int_part r)) by (rewrite minus_IZR; lra).
  apply lt_IZR in Hlt. lia.
Qed.

Lemma getSurvivalCurves_point (d : R) :
  0 < d ->
  {| day := Fin d;
     highRisk := calculateWeibullSurvival d (Some (Fin 2)) (Some (Fin 40));
     mediumRisk := calculateWeibullSurvival d (Some (Fin 1.5)) (Some (Fin 60));
     lowRisk := calculateWeibullSurvival d (Some (Fin 1)) (Some (Fin 80)) |}
  = curvePoint d.
Proof.
  intros Hd. unfold curvePoint.
  destruct (calculateWeibullSurvival_in_domain d 2 40) as [-> _]; try lra.
  destruct (calculateWeibullSurvival_in_domain d 1.5 60) as [-> _]; try lra.
  destruct (calculateWeibullSurvival_in_domain d 1 80) as [-> _]; try lra.
  reflexivity.
Qed.

(** The two ways [getSurvivalCurves] ends, by the length read. *)
Lemma getSurvivalCurves_as_points (days : number) :
  getSurvivalCurves days =
  if (2 ^ 32 <=? ToLength days)%Z then RangeError
  else Returned (map (fun i : nat => curvePoint (INR i + 1))
                     (seq 0 (Z.to_nat (ToLength days)))).
Proof.
  unfold getSurvivalCurves, arrayFromLength. cbv zeta.
  destruct (2 ^ 32 <=? ToLength days)%Z; [reflexivity |].
  rewrite map_map. f_equal.
  apply map_ext. intros i. cbn [add].
  apply getSurvivalCurves_point. pose proof (pos_INR i). lra.
Qed.

Lemma getSurvivalCurves_Returned
    (days : number) (curves : list SurvivalCurvePoint) :
  getSurvivalCurves days = Returned curves ->
  curves = map (fun i : nat => curvePoint (INR i + 1))
               (seq 0 (Z.to_nat (ToLength days))).
Proof.
  rewrite getSurvivalCurves_as_points.
  destruct (2 ^ 32 <=? ToLength days)%Z; [discriminate |].
  now intros [= <-].
Qed.

Lemma getSurvivalCurves_of_nat (n : nat) :
  (Z.of_nat n < 2 ^ 32)%Z ->
  getSurvivalCurves (Fin (INR n)) =
  Returned (map (fun i : nat => curvePoint (INR i + 1)) (seq 0 n)).
Proof.
  intros Hn. rewrite getSurvivalCurves_as_points.
  rewrite ToLength_of_nat by (change (2 ^ 53 - 1)%Z with 9007199254740991%Z;
                              change (2 ^ 32)%Z with 4294967296%Z in Hn; lia).
  assert (Hlt : (2 ^ 32 <=? Z.of_nat n)%Z = false) by (apply Z.leb_gt; exact Hn).
  now rewrite Hlt, Nat2Z.id.
Qed.

(** X10: [getSurvivalCurves] returns one point per whole day, as long as
    the array can be constructed.  For a whole number [n] of days below
    2^32 it returns exactly [n] points, the one at index [i] being that of
    day [i + 1] with the three Weibull survivals (shape 2 and scale 40,
    shape 1.5 and scale 60, shape 1 and scale 80); a fractional number of
    days is truncated; from 2^32 days on, [+Infinity] included, the call
    ends with a [RangeError]; [NaN], minus infinity and anything below 1
    give the empty list. *)
Theorem survival_curves_points :
  (forall n : nat, (Z.of_nat n < 2 ^ 32)%Z ->
     exists curves : list SurvivalCurvePoint,
       getSurvivalCurves (Fin (INR n)) = Returned curves /\
       length curves = n /\
       forall i : nat, (i < n)%nat ->
         nth_error curves i = Some (curvePoint (INR i + 1))) /\
  (forall r : R, 0 <= r -> (Int_part r < 2 ^ 32)%Z ->
     exists curves : list SurvivalCurvePoint,
       getSurvivalCurves (Fin r) = Returned curves /\
       length curves = Z.to_nat (Int_part r)) /\
  (forall r : R, 4294967296 <= r -> getSurvivalCurves (Fin r) = RangeError) /\
  getSurvivalCurves PosInf = RangeError /\
  (forall r : R, r < 1 -> getSurvivalCurves (Fin r) = Returned []) /\
  getSurvivalCurves NaN = Returned [] /\
  getSurvivalCurves NegInf = Returned [].
Proof.
  split; [| split; [| split; [| split; [| split; [| split]]]]].
  - intros n Hn. eexists. split; [now apply getSurvivalCurves_of_nat |]. split.
    + now rewrite length_map, length_seq.
    + intros i Hi. rewrite nth_error_map, nth_error_seq.
      apply Nat.ltb_lt in Hi. now rewrite Hi.
  - intros r Hr Hcap. rewrite getSurvivalCurves_as_points.
    assert (Hlen : ToLength (Fin r) = Z.max 0 (Int_part r)).
    { unfold ToLength. change (2 ^ 53 - 1)%Z with 9007199254740991%Z.
      change (2 ^ 32)%Z with 4294967296%Z in Hcap. lia. }
    rewrite Hlen.
    assert (Hlt : (2 ^ 32 <=? Z.max 0 (Int_part r))%Z = false).
    { apply Z.leb_gt. change (2 ^ 32)%Z with 4294967296%Z in *. lia. }
    rewrite Hlt. eexists. split; [reflexivity |].
    rewrite length_map, length_seq. lia.
  - intros r Hr. rewrite getSurvivalCurves_as_points.
    pose proof (Int_part_lower 4294967296 r Hr) as Hip.
    assert (Hge : (2 ^ 32 <=? ToLength (Fin r))%Z = true).
    { apply Z.leb_le. unfold ToLength.
      change (2 ^ 53 - 1)%Z with 9007199254740991%Z.
      change (2 ^ 32)%Z with 4294967296%Z. lia. }
    now rewrite Hge.
  - reflexivity.
  - intros r Hr. rewrite getSurvivalCurves_as_points.
    now rewrite (ToLength_below_one r Hr).
  - reflexivity.
  - reflexivity.
Qed.

Lemma Rpower_two (x : R) : 0 < x -> Rpower x 2 = x * x.
Proof.
  intros Hx. replace 2 with (1 + 1) by ring.
  now rewrite Rpower_plus, Rpower_1.
Qed.

Lemma Rpower_three_halves (x : R) : 0 < x -> Rpower x 1.5 = x * sqrt x.
Proof.
  intros Hx. replace 1.5 with (1 + / 2) by lra.
  now rewrite Rpower_plus, Rpower_1, Rpower_sqrt.
Qed.

(** The exponents of the three curves through [r], the square root of
    [d / 60]. *)
Lemma curve_exponents (d : R) :
  0 < d ->
  exists r : R,
    0 < r /\ r * r = d / 60 /\
    Rpower (d / 40) 2 = 2.25 * (r * r * r * r) /\
    Rpower (d / 60) 1.5 = r * r * r /\
    Rpower (d / 80) 1 = 0.75 * (r * r).
Proof.
  intros Hd.
  assert (H60 : 0 < d / 60) by lra.
  exists (sqrt (d / 60)).
  pose proof (sqrt_lt_R0 (d / 60) H60) as Hr.
  pose proof (sqrt_sqrt (d / 60) ltac:(lra)) as Hsq.
  split; [assumption | split; [assumption |]].
  rewrite Rpower_two, Rpower_three_halves, Rpower_1 by lra.
  set (r := sqrt (d / 60)) in *. clearbody r.
  assert (Hd60 : d = 60 * (r * r)) by lra.
  clear Hsq H60 Hd. subst d.
  replace 2.25 with (9 / 4) by lra. replace 0.75 with (3 / 4) by lra.
  repeat split; field.
Qed.

Lemma curves_order_real (d : R) :
  0 < d ->
  (34 <= d -> weibull d 2 40 < weibull d 1.5 60 < weibull d 1 80) /\
  (d <= 11 -> weibull d 1 80 < weibull d 1.5 60 < weibull d 2 40).
Proof.
  intros Hd. destruct (curve_exponents d Hd) as (r & Hr & Hsq & Eh & Em & El).
  unfold weibull. rewrite Eh, Em, El.
  assert (Hr2 : 0 < r * r) by (apply Rmult_lt_0_compat; assumption).
  assert (Hr3 : 0 < r * r * r) by (apply Rmult_lt_0_compat; assumption).
  split; intros Hcase.
  - assert (Hrlo : 0.75 < r) by nra.
    split; apply exp_increasing, Ropp_lt_contravar.
    + assert (r * r * r * 1 < r * r * r * (2.25 * r))
        by (apply Rmult_lt_compat_l; lra).
      lra.
    + assert (r * r * 0.75 < r * r * r) by (apply Rmult_lt_compat_l; lra).
      lra.
  - assert (Hrhi : r < 0.44) by nra.
    split; apply exp_increasing, Ropp_lt_contravar.
    + assert (r * r * r < r * r * 0.75) by (apply Rmult_lt_compat_l; lra).
      lra.
    + assert (r * r * r * (2.25 * r) < r * r * r * 1)
        by (apply Rmult_lt_compat_l; lra).
      lra.
Qed.

Lemma getSurvivalCurves_In
    (days : number) (curves : list SurvivalCurvePoint) (p : SurvivalCurvePoint) :
  getSurvivalCurves days = Returned curves -> In p curves ->
  exists d : R, 1 <= d /\ p = curvePoint d.
Proof.
  intros Hrun. rewrite (getSurvivalCurves_Returned days curves Hrun), in_map_iff.
  intros (i & <- & _). exists (INR i + 1). split; [| reflexivity].
  pose proof (pos_INR i). lra.
Qed.

(** X11: the three curves are not ordered by their names at every day.
    For each point returned, from day 34 on the high-risk survival is at
    most the medium-risk one, itself at most the low-risk one, strictly so
    up to day 1000 (further on the curves underflow to 0 one after the
    other on doubles); up to day 11 the order is the reverse, the
    high-risk curve showing the highest survival. *)
Theorem survival_curves_order
    (days : number) (curves : list SurvivalCurvePoint) (p : SurvivalCurvePoint) :
  getSurvivalCurves days = Returned curves -> In p curves ->
  exists d h m l : R,
    p = {| day := Fin d; highRisk := Fin h; mediumRisk := Fin m; lowRisk := Fin l |} /\
    1 <= d /\
    (34 <= d -> h <= m <= l) /\
    (34 <= d <= 1000 -> h < m < l) /\
    (d <= 11 -> l < m < h).
Proof.
  intros Hrun Hin.
  destruct (getSurvivalCurves_In days curves p Hrun Hin) as (d & Hd & ->).
  exists d, (weibull d 2 40), (weibull d 1.5 60), (weibull d 1 80).
  split; [reflexivity | split; [assumption |]].
  destruct (curves_order_real d ltac:(lra)) as [Hlate Hearly].
  split; [| split].
  - intros Hcase. specialize (Hlate Hcase). lra.
  - intros [Hcase _]. exact (Hlate Hcase).
  - exact Hearly.
Qed.

(** X12: each of the three curves is a survival curve: from one point to
    the next the day grows by one, the three values stay within [[0,1]] and
    none of them rises; up to day 1000 each of them falls and lies
    strictly between 0 and 1 (further on the curves underflow to 0 on
    doubles). *)
Theorem survival_curves_decrease
    (days : number) (curves : list SurvivalCurvePoint) (i : nat)
    (p q : SurvivalCurvePoint) :
  getSurvivalCurves days = Returned curves ->
  nth_error curves i = Some p ->
  nth_error curves (S i) = Some q ->
  exists d h m l h' m' l' : R,
    p = {| day := Fin d; highRisk := Fin h; mediumRisk := Fin m; lowRisk := Fin l |} /\
    q = {| day := Fin (d + 1); highRisk := Fin h'; mediumRisk := Fin m';
           lowRisk := Fin l' |} /\
    d = INR i + 1 /\
    (0 <= h' <= h /\ h <= 1 /\ 0 <= m' <= m /\ m <= 1 /\ 0 <= l' <= l /\ l <= 1) /\
    (d + 1 <= 1000 ->
     0 < h' < h /\ h < 1 /\ 0 < m' < m /\ m < 1 /\ 0 < l' < l /\ l < 1).
Proof.
  intros Hrun. rewrite (getSurvivalCurves_Returned days curves Hrun).
  rewrite !nth_error_map, !nth_error_seq.
  destruct (i <? Z.to_nat (ToLength days))%nat; [| discriminate].
  destruct (S i <? Z.to_nat (ToLength days))%nat; [| discriminate].
  cbn [option_map Nat.add]. rewrite S_INR. intros [= <-] [= <-].
  set (d := INR i + 1).
  assert (Hd : 0 < d) by (unfold d; pose proof (pos_INR i); lra).
  exists d, (weibull d 2 40), (weibull d 1.5 60), (weibull d 1 80),
    (weibull (d + 1) 2 40), (weibull (d + 1) 1.5 60), (weibull (d + 1) 1 80).
  destruct (calculateWeibullSurvival_in_domain d 2 40) as [_ B1]; try lra.
  destruct (calculateWeibullSurvival_in_domain d 1.5 60) as [_ B2]; try lra.
  destruct (calculateWeibullSurvival_in_domain d 1 80) as [_ B3]; try lra.
  destruct (calculateWeibullSurvival_in_domain (d + 1) 2 40) as [_ C1]; try lra.
  destruct (calculateWeibullSurvival_in_domain (d + 1) 1.5 60) as [_ C2]; try lra.
  destruct (calculateWeibullSurvival_in_domain (d + 1) 1 80) as [_ C3]; try lra.
  pose proof (weibull_decreasing d (d + 1) 2 40 Hd ltac:(lra) ltac:(lra) ltac:(lra)).
  pose proof (weibull_decreasing d (d + 1) 1.5 60 Hd ltac:(lra) ltac:(lra) ltac:(lra)).
  pose proof (weibull_decreasing d (d + 1) 1 80 Hd ltac:(lra) ltac:(lra) ltac:(lra)).
  split; [reflexivity | split; [reflexivity | split; [reflexivity |]]].
  split; [| intros _]; repeat split; lra.
Qed.

(** ** The survival curves of the C# service layer *)

Lemma wrapInt_small (z : Z) :
  (- 2 ^ 31 <= z < 2 ^ 31)%Z -> wrapInt z = z.
Proof.
  unfold wrapInt.
  change (2 ^ 31)%Z with 2147483648%Z. change (2 ^ 32)%Z with 4294967296%Z.
  intros Hz. rewrite Z.mod_small by lia. lia.
Qed.

Section EngineCurvesFacts.

Import EngineCurves.

Variable Pow : number -> number -> number.
Variable maxLength : Z.

(** [n] turns of the loop from [day] on, none of which ends it: the days
    are within [days], the counter does not wrap around and the list has
    room. *)
Lemma forDays_steps (n : nat) :
  forall (fuel : nat) (day days : Z) (curves : list EngineCurves.SurvivalCurvePoint),
    (- 2 ^ 31 <= day)%Z -> (day + Z.of_nat n < 2 ^ 31)%Z ->
    (Z.of_nat n <= Z.max 0 (days + 1 - day))%Z ->
    (Z.of_nat (length curves) + Z.of_nat n <= maxLength)%Z ->
    forDays Pow maxLength (n + fuel) day days curves =
    forDays Pow maxLength fuel (day + Z.of_nat n) days
      (curves ++ map (fun i : nat => pointOfDay Pow (day + Z.of_nat i)) (seq 0 n))%list.
Proof.
  induction n as [| n IH]; intros fuel day days curves Hlo Hhi Hdays Hroom.
  - cbn [Nat.add seq map]. now rewrite app_nil_r, Z.add_0_r.
  - cbn [Nat.add forDays].
    assert (Hle : (day <=? days)%Z = true) by (apply Z.leb_le; lia).
    assert (Hfree : (Z.of_nat (length curves) <? maxLength)%Z = true)
      by (apply Z.ltb_lt; lia).
    rewrite Hle, Hfree.
    assert (Hrange : (- 2 ^ 31 <= day + 1 < 2 ^ 31)%Z)
      by (change (2 ^ 31)%Z with 2147483648%Z in *; lia).
    rewrite (wrapInt_small (day + 1) Hrange).
    rewrite (IH fuel (day + 1)%Z days)
      by (try rewrite length_app; cbn [length]; lia).
    replace (day + 1 + Z.of_nat n)%Z with (day + Z.of_nat (S n))%Z by lia.
    f_equal. rewrite <- app_assoc. apply (f_equal (app curves)).
    cbn [seq map app].
    change (Z.of_nat 0) with 0%Z. rewrite Z.add_0_r.
    apply (f_equal (cons (pointOfDay Pow day))).
    rewrite <- seq_shift, map_map. apply map_ext.
    intros i. f_equal. lia.
Qed.

(** The capacity of a list is below [int.MaxValue]. *)
Hypothesis maxLength_int : (0 <= maxLength < 2 ^ 31 - 1)%Z.

(** The regular case of [Math.Pow]. *)
Hypothesis Pow_regular :
  forall b e : R, 0 < b -> Pow (Fin b) (Fin e) = Fin (Rpower b e).

Lemma CalculateWeibullSurvival_in_domain (t k l : R) :
  0 < t -> 0 < k -> 0 < l ->
  CalculateWeibullSurvival Pow t (Some (Fin k)) (Some (Fin l)) = Fin (weibull t k l).
Proof.
  intros Ht Hk Hl. unfold CalculateWeibullSurvival, orDefault, weibull. cbv zeta.
  rewrite div_Fin by lra. rewrite Pow_regular by (apply Rdiv_lt_0_compat; lra).
  reflexivity.
Qed.

Lemma pointOfDay_controller (i : nat) :
  toControllerPoint (pointOfDay Pow (1 + Z.of_nat i)) = curvePoint (INR i + 1).
Proof.
  unfold toControllerPoint, pointOfDay, curvePoint, ofInt.
  cbn [Day HighRisk MediumRisk LowRisk].
  assert (Hd : IZR (1 + Z.of_nat i) = INR i + 1)
    by (rewrite plus_IZR, <- INR_IZR_INZ; ring).
  rewrite Hd. pose proof (pos_INR i).
  now rewrite !CalculateWeibullSurvival_in_domain by lra.
Qed.

(** X13: given that [Math.Pow] is the real power on a positive finite base
    and that a [List<T>] holds at most [maxLength] elements, a number below
    [int.MaxValue], the loop of [GenerateSurvivalCurves] always ends.  For
    [days] up to [maxLength] it ends normally (any fuel above [days]
    suffices) with one point per day from 1 to [days], none when [days] is
    not positive; seen through the controller's type these are the points
    the controller returns for the same number of days.  For a larger
    [days], [int.MaxValue] included, it ends with the exception of
    [List<T>.Add] once the list is full: the wrap-around of the [int]
    counter is never reached. *)
Theorem generate_survival_curves_terminates :
  (forall (days : Z) (fuel : nat),
     (- 2 ^ 31 <= days <= maxLength)%Z ->
     (Z.to_nat days < fuel)%nat ->
     exists curves : list EngineCurves.SurvivalCurvePoint,
       GenerateSurvivalCurves Pow maxLength fuel days = Some (Completed curves) /\
       length curves = Z.to_nat days /\
       map Day curves =
         map (fun i : nat => (1 + Z.of_nat i)%Z) (seq 0 (Z.to_nat days)) /\
       getSurvivalCurves (ofInt days) = Returned (map toControllerPoint curves)) /\
  (forall (days : Z) (fuel : nat),
     (maxLength < days < 2 ^ 31)%Z ->
     (Z.to_nat maxLength < fuel)%nat ->
     GenerateSurvivalCurves Pow maxLength fuel days = Some OutOfMemoryException).
Proof.
  pose proof maxLength_int as Hcap.
  change (2 ^ 31)%Z with 2147483648%Z in *.
  split.
  - intros days fuel Hdays Hfuel.
    set (n := Z.to_nat days).
    exists (map (fun i : nat => pointOfDay Pow (1 + Z.of_nat i)) (seq 0 n)).
    split; [| split; [| split]].
    + unfold GenerateSurvivalCurves. cbv zeta.
      replace fuel with (n + S (fuel - n - 1))%nat by (unfold n in *; lia).
      rewrite (forDays_steps n)
        by (cbn [length]; unfold n; pose proof maxLength_int;
            change (2 ^ 31)%Z with 2147483648%Z in *; lia).
      cbn [forDays app].
      assert (Hgt : (1 + Z.of_nat n <=? days)%Z = false)
        by (apply Z.leb_gt; unfold n; lia).
      now rewrite Hgt.
    + now rewrite length_map, length_seq.
    + rewrite map_map. apply map_ext. reflexivity.
    + rewrite map_map, getSurvivalCurves_as_points.
      assert (Hlen : ToLength (ofInt days) = Z.of_nat n).
      { unfold ToLength, ofInt, n.
        assert (Hip : Int_part (IZR days) = days).
        { symmetry. apply Int_part_spec. lra. }
        rewrite Hip. change (2 ^ 53 - 1)%Z with 9007199254740991%Z. lia. }
      rewrite Hlen, Nat2Z.id.
      assert (Hlt : (2 ^ 32 <=? Z.of_nat n)%Z = false).
      { apply Z.leb_gt. change (2 ^ 32)%Z with 4294967296%Z. unfold n. lia. }
      rewrite Hlt. f_equal. apply map_ext. intros i.
      symmetry. apply pointOfDay_controller.
  - intros days fuel Hdays Hfuel.
    set (n := Z.to_nat maxLength).
    unfold GenerateSurvivalCurves. cbv zeta.
    replace fuel with (n + S (fuel - n - 1))%nat by (unfold n in *; lia).
    rewrite (forDays_steps n)
      by (cbn [length]; unfold n; pose proof maxLength_int;
          change (2 ^ 31)%Z with 2147483648%Z in *; lia).
    cbn [forDays app].
    assert (Hle : (1 + Z.of_nat n <=? days)%Z = true)
      by (apply Z.leb_le; unfold n; lia).
    assert (Hfull : (Z.of_nat (length (map (fun i : nat => pointOfDay Pow (1 + Z.of_nat i))
                                           (seq 0 n))) <? maxLength)%Z = false).
    { apply Z.ltb_ge. rewrite length_map, length_seq. unfold n. lia. }
    now rewrite Hle, Hfull.
Qed.

End EngineCurvesFacts.

(** ** The update statement of the patient service *)

Lemma toLowerCase_not_upper (c : ascii) :
  isUpperCase c = true -> isUpperCase (toLowerCase c) = false.
Proof.
  destruct c as [[] [] [] [] [] [] [] []]; vm_compute; congruence.
Qed.

Lemma toSnakeCase_length (s : string) :
  String.length (toSnakeCase s) = (String.length s + countUpperCase s)%nat.
Proof.
  induction s as [| c rest IH]; [reflexivity |].
  cbn [toSnakeCase countUpperCase]. destruct (isUpperCase c); cbn [String.length];
    rewrite IH; lia.
Qed.

Lemma toSnakeCase_no_upper (s : string) : countUpperCase (toSnakeCase s) = 0%nat.
Proof.
  induction s as [| c rest IH]; [reflexivity |].
  cbn [toSnakeCase]. destruct (isUpperCase c) eqn:Hc; cbn [countUpperCase].
  - rewrite (toLowerCase_not_upper c Hc), IH. reflexivity.
  - now rewrite Hc, IH.
Qed.

Lemma toSnakeCase_fixes (s : string) :
  countUpperCase s = 0%nat -> toSnakeCase s = s.
Proof.
  induction s as [| c rest IH]; [reflexivity |].
  cbn [toSnakeCase countUpperCase]. destruct (isUpperCase c); [discriminate |].
  cbn [Nat.add]. intros H. now rewrite IH.
Qed.

(** X14: [toSnakeCase] leaves no upper-case letter behind and lengthens the
    string by one character per upper-case letter; it leaves a string
    without upper-case letters unchanged, so applying it twice is applying
    it once; and it is not injective: the keys [aB] and [a_b] name the same
    column. *)
Theorem toSnakeCase_properties :
  (forall s : string,
     countUpperCase (toSnakeCase s) = 0%nat /\
     String.length (toSnakeCase s) = (String.length s + countUpperCase s)%nat /\
     toSnakeCase (toSnakeCase s) = toSnakeCase s) /\
  (forall s : string, countUpperCase s = 0%nat -> toSnakeCase s = s) /\
  toSnakeCase "aB" = toSnakeCase "a_b".
Proof.
  split; [| split].
  - intros s. split; [apply toSnakeCase_no_upper | split].
    + apply toSnakeCase_length.
    + apply toSnakeCase_fixes, toSnakeCase_no_upper.
  - apply toSnakeCase_fixes.
  - reflexivity.
Qed.

Lemma mapWithIndex_nth {A B : Type} (f : A -> nat -> B) (l : list A) :
  forall (start i : nat) (a : A),
    nth_error l i = Some a ->
    nth_error (mapWithIndex f start l) i = Some (f a (start + i)%nat).
Proof.
  induction l as [| x l IH]; intros start i a Hi.
  - destruct i; discriminate.
  - destruct i as [| i]; cbn [nth_error mapWithIndex] in *.
    + injection Hi as ->. now rewrite Nat.add_0_r.
    + rewrite (IH (S start) i a Hi). f_equal. f_equal. lia.
Qed.

Lemma mapWithIndex_length {A B : Type} (f : A -> nat -> B) (l : list A) :
  forall start : nat, length (mapWithIndex f start l) = length l.
Proof.
  induction l as [| x l IH]; intros start; [reflexivity |].
  cbn [mapWithIndex length]. now rewrite IH.
Qed.

(** X15: in the statement [updatePatient] builds, placeholders and
    parameters line up: [$1] is the patient identifier, and the key at
    index [i] of the update becomes the assignment of its snake-case name
    to placeholder [$(i+2)], whose parameter, at index [i + 1] of the
    array, is the value of that key; there are as many assignments as keys
    and one parameter more.  The ten property names of the patient DTO
    become the first ten columns of the table.  An update without keys is
    not rejected: it gives a statement with an empty assignment before the
    comma. *)
Theorem update_statement_alignment :
  (forall (patientId : string) (updates : list (string * jsValue)),
     length (fieldsOf updates) = length updates /\
     length (snd (updatePatient patientId updates)) = S (length updates) /\
     nth_error (snd (updatePatient patientId updates)) 0 = Some (VString patientId) /\
     forall (i : nat) (key : string) (v : jsValue),
       nth_error updates i = Some (key, v) ->
       nth_error (fieldsOf updates) i =
         Some (toSnakeCase key ++ " = $" ++ decimal (i + 2)) /\
       nth_error (snd (updatePatient patientId updates)) (i + 1) = Some v) /\
  map toSnakeCase patientDtoKeys = firstn 10 patientsColumns /\
  (forall patientId : string,
     updatePatient patientId [] =
     (newline ++ "      UPDATE patients SET , updated_at = CURRENT_TIMESTAMP" ++
      newline ++ "      WHERE patient_id = $1 RETURNING *" ++ newline ++ "    ",
      [VString patientId])).
Proof.
  split; [| split; [reflexivity | intros; reflexivity]].
  intros patientId updates. unfold updatePatient. cbn [snd].
  split; [| split; [| split]].
  - unfold fieldsOf. now rewrite mapWithIndex_length, length_map.
  - cbn [length]. now rewrite length_map.
  - reflexivity.
  - intros i key v Hi. split.
    + unfold fieldsOf.
      rewrite (mapWithIndex_nth _ (map fst updates) 0 i key).
      * reflexivity.
      * rewrite nth_error_map, Hi. reflexivity.
    + rewrite Nat.add_1_r. cbn [nth_error]. rewrite nth_error_map, Hi. reflexivity.
Qed.

(** ** The assessment as the Flutter client decodes it *)

Lemma member_setMember_other (members : list (string * json)) (key key' : string)
    (v : json) :
  key' <> key -> member (setMember members key v) key' = member members key'.
Proof.
  intros Hne. induction members as [| [k old] rest IH]; cbn [setMember member].
  - destruct (String.eqb_spec key key') as [-> | _]; [contradiction | reflexivity].
  - destruct (String.eqb_spec k key) as [-> | Hk]; cbn [member].
    + destruct (String.eqb_spec key key') as [-> | _]; [contradiction | reflexivity].
    + now rewrite IH.
Qed.

Lemma member_setMember_same (members : list (string * json)) (key : string)
    (v : json) :
  member (setMember members key v) key = v.
Proof.
  induction members as [| [k old] rest IH]; cbn [setMember member].
  - now rewrite String.eqb_refl.
  - destruct (String.eqb_spec k key) as [-> | Hk]; cbn [member].
    + now rewrite String.eqb_refl.
    + destruct (String.eqb_spec k key) as [-> | _]; [contradiction | exact IH].
Qed.

Lemma member_absent (members : list (string * json)) (key : string) :
  ~ In key (map fst members) -> member members key = JNull.
Proof.
  induction members as [| [k v] rest IH]; cbn [map fst In member]; [reflexivity |].
  intros Hnot. destruct (String.eqb_spec k key) as [-> | _].
  - exfalso. apply Hnot. now left.
  - apply IH. intros Hin. apply Hnot. now right.
Qed.

Section FlutterClientFacts.

Import FlutterClient.

Variable DateTime : Type.
Variable parse : string -> option DateTime.
Variable now : DateTime.

(** X16: the service returns the competing risks and the care plan under
    the keys [competingRisks] and [carePlan], and the Flutter client reads
    [competing_risks] and [care_plan].  Whatever the row read back from the
    table and whatever the two values attached, the response does carry
    them, and an assessment decoded from it has neither competing risks nor
    a care plan. *)
Theorem client_drops_care_plan
    (assessment : list (string * json)) (competingRisksValue carePlanValue : json)
    (decoded : RiskAssessment DateTime) :
  map fst assessment = riskAssessmentsColumns ->
  let response := assessmentResponse assessment competingRisksValue carePlanValue in
  member response "carePlan" = carePlanValue /\
  member response "competingRisks" = competingRisksValue /\
  (RiskAssessment_fromJson DateTime parse now response = Some decoded ->
   carePlan DateTime decoded = None /\ competingRisks DateTime decoded = None).
Proof.
  intros Hkeys response.
  assert (Habsent : forall key : string,
            key <> "competingRisks" -> key <> "carePlan" ->
            ~ In key riskAssessmentsColumns -> member response key = JNull).
  { intros key H1 H2 Hnot. unfold response, assessmentResponse.
    rewrite !member_setMember_other by assumption.
    apply member_absent. now rewrite Hkeys. }
  assert (Hplan : member response "care_plan" = JNull).
  { apply Habsent; try discriminate. cbn. intuition discriminate. }
  assert (Hcomp : member response "competing_risks" = JNull).
  { apply Habsent; try discriminate. cbn. intuition discriminate. }
  split; [apply member_setMember_same | split].
  - unfold response, assessmentResponse.
    rewrite member_setMember_other by discriminate.
    apply member_setMember_same.
  - unfold RiskAssessment_fromJson. rewrite Hplan, Hcomp.
    unfold bind.
    repeat match goal with
           | |- context [match ?x with Some _ => _ | None => _ end] =>
               destruct x; try discriminate
           end.
    intros [= <-]. split; reflexivity.
Qed.

End FlutterClientFacts.

(** ** The business service of the C# layer *)

Section ReadmissionPredictionServiceFacts.

Import ReadmissionPredictionService.

Variable history : Patient -> option (list RiskAssessment).

Lemma collect_high_risk (patients : list Patient) :
  forall acc : list Patient,
    fold_left
      (fun (highRiskPatients : list Patient) (patient : Patient) =>
         match history patient with
         | Some history =>
             if firstIsHigh history
             then (highRiskPatients ++ [patient])%list
             else highRiskPatients
         | None => highRiskPatients
         end)
      patients acc
    = (acc ++ filter (isHighRisk history) patients)%list.
Proof.
  induction patients as [| p rest IH]; intros acc; cbn [fold_left filter].
  - now rewrite app_nil_r.
  - rewrite IH. unfold isHighRisk at 2.
    destruct (history p) as [h |]; [| reflexivity].
    destruct (firstIsHigh h); [| reflexivity].
    now rewrite <- app_assoc.
Qed.

Lemma insertDescending_perm {A : Type} (key : A -> Z) (x : A) (l : list A) :
  Permutation (insertDescending key x l) (x :: l).
Proof.
  induction l as [| y rest IH]; cbn [insertDescending]; [reflexivity |].
  destruct (key x <? key y)%Z; [| reflexivity].
  rewrite IH. apply perm_swap.
Qed.

Lemma OrderByDescending_perm {A : Type} (key : A -> Z) (l : list A) :
  Permutation (OrderByDescending key l) l.
Proof.
  induction l as [| x rest IH]; cbn; [reflexivity |].
  rewrite insertDescending_perm. now apply perm_skip.
Qed.

Lemma insertDescending_sorted {A : Type} (key : A -> Z) (x : A) (l : list A) :
  StronglySorted (fun a b : A => (key b <= key a)%Z) l ->
  StronglySorted (fun a b : A => (key b <= key a)%Z) (insertDescending key x l).
Proof.
  induction l as [| y rest IH]; intros Hs; cbn [insertDescending].
  - constructor; constructor.
  - inversion Hs as [| ? ? Hrest Hall]; subst.
    destruct (Z.ltb_spec (key x) (key y)) as [Hlt | Hge].
    + constructor; [now apply IH |].
      apply (Permutation_Forall (Permutation_sym (insertDescending_perm key x rest))).
      constructor; [lia | assumption].
    + constructor; [assumption |].
      constructor; [assumption |].
      eapply Forall_impl; [| exact Hall]. cbn. intros a Ha. lia.
Qed.

Lemma OrderByDescending_sorted {A : Type} (key : A -> Z) (l : list A) :
  StronglySorted (fun a b : A => (key b <= key a)%Z) (OrderByDescending key l).
Proof.
  induction l as [| x rest IH]; cbn; [constructor |].
  now apply insertDescending_sorted.
Qed.

Lemma insertDescending_stable {A : Type} (key : A -> Z) (k : Z) (x : A) (l : list A) :
  filter (fun a : A => (key a =? k)%Z) (insertDescending key x l) =
  filter (fun a : A => (key a =? k)%Z) (x :: l).
Proof.
  induction l as [| y rest IH]; cbn [insertDescending]; [reflexivity |].
  destruct (Z.ltb_spec (key x) (key y)) as [Hlt | Hge]; [| reflexivity].
  cbn [filter] in *. rewrite IH.
  destruct (Z.eqb_spec (key x) k) as [Hx | Hx]; [| reflexivity].
  destruct (Z.eqb_spec (key y) k) as [Hy | Hy]; [lia | reflexivity].
Qed.

Lemma OrderByDescending_stable {A : Type} (key : A -> Z) (k : Z) (l : list A) :
  filter (fun a : A => (key a =? k)%Z) (OrderByDescending key l) =
  filter (fun a : A => (key a =? k)%Z) l.
Proof.
  induction l as [| x rest IH]; [reflexivity |].
  cbn [OrderByDescending fold_right]. rewrite insertDescending_stable.
  cbn [filter]. fold (OrderByDescending key rest). now rewrite IH.
Qed.

Lemma high_risk_patients_sorted_aux (patients : list Patient) :
  Permutation (GetHighRiskPatients history patients) (filter (isHighRisk history) patients) /\
  StronglySorted
    (fun a b : Patient => (NumComorbidities b <= NumComorbidities a)%Z)
    (GetHighRiskPatients history patients).
Proof.
  unfold GetHighRiskPatients. cbv zeta. rewrite collect_high_risk. cbn [app].
  split; [apply OrderByDescending_perm | apply OrderByDescending_sorted].
Qed.

(** X17: [GetHighRiskPatientsAsync] returns exactly the patients whose
    history was fetched, is not empty and starts with a "high" assessment
    (a patient whose history could not be fetched is left out), arranged by
    decreasing number of comorbidities, patients with the same number
    keeping the order the API gave them. *)
Theorem high_risk_patients_sorted (patients : list Patient) :
  let result := GetHighRiskPatients history patients in
  Permutation result (filter (isHighRisk history) patients) /\
  StronglySorted
    (fun a b : Patient => (NumComorbidities b <= NumComorbidities a)%Z) result /\
  (forall k : Z,
     filter (fun a : Patient => (NumComorbidities a =? k)%Z) result =
     filter (fun a : Patient => (NumComorbidities a =? k)%Z)
       (filter (isHighRisk history) patients)) /\
  (forall p : Patient,
     In p result <-> In p patients /\ (isHighRisk history) p = true).
Proof.
  intros result. unfold result, GetHighRiskPatients. cbv zeta.
  rewrite collect_high_risk. cbn [app].
  split; [apply OrderByDescending_perm | split; [apply OrderByDescending_sorted |]].
  split; [intros k; apply OrderByDescending_stable |].
  intros p. rewrite <- filter_In. split; intros Hin.
  - eapply Permutation_in; [apply OrderByDescending_perm | exact Hin].
  - eapply Permutation_in; [apply Permutation_sym, OrderByDescending_perm | exact Hin].
Qed.

Lemma countPatient_high (high total : Z) (p : Patient) :
  fst (countPatient history (high, total) p) =
  if (isHighRisk history) p then wrapInt (high + 1) else high.
Proof.
  unfold countPatient, isHighRisk.
  destruct (history p) as [[| first more] |]; cbn [firstIsHigh fst]; try reflexivity.
  now destruct (String.eqb (RiskCategory first) "high").
Qed.

Lemma count_patients (patients : list Patient) :
  forall high total : Z,
    (0 <= high)%Z ->
    (high + Z.of_nat (length patients) < 2 ^ 31)%Z ->
    fst (fold_left (countPatient history) patients (high, total)) =
    (high + Z.of_nat (length (filter (isHighRisk history) patients)))%Z.
Proof.
  induction patients as [| p rest IH]; intros high total Hhigh Hbound.
  - cbn. lia.
  - cbn [fold_left filter]. cbn [length] in Hbound.
    pose proof (countPatient_high high total p) as Hstep.
    destruct (countPatient history (high, total) p) as [high' total'].
    cbn [fst] in Hstep. subst high'.
    destruct (isHighRisk history p).
    + rewrite wrapInt_small
        by (change (2 ^ 31)%Z with 2147483648%Z in *; lia).
      rewrite IH by lia. cbn [length]. lia.
    + rewrite IH by lia. reflexivity.
Qed.

(** X18: the dashboard and the list agree: when the API returns fewer than
    2^31 patients, the [highRiskPatients] of the dashboard is the length of
    the list [GetHighRiskPatientsAsync] returns on the same answers, and it
    is at most [totalPatients], the number of patients returned. *)
Theorem dashboard_counts_high_risk_patients
    (patients : list Patient)
    (survivalCurves : list EngineCurves.SurvivalCurvePoint) :
  (Z.of_nat (length patients) < 2 ^ 31)%Z ->
  let metrics := GenerateDashboardMetrics history patients survivalCurves in
  metrics.(highRiskPatients) =
    Z.of_nat (length (GetHighRiskPatients history patients)) /\
  metrics.(totalPatients) = Z.of_nat (length patients) /\
  (0 <= metrics.(highRiskPatients) <= metrics.(totalPatients))%Z.
Proof.
  intros Hsize metrics.
  assert (Hhigh : metrics.(highRiskPatients) =
                  Z.of_nat (length (filter (isHighRisk history) patients))).
  { unfold metrics, GenerateDashboardMetrics.
    pose proof (count_patients patients 0 0 ltac:(lia) ltac:(lia)) as Hc.
    destruct (fold_left (countPatient history) patients (0%Z, 0%Z)) as [h t].
    cbn [highRiskPatients fst] in *. lia. }
  assert (Hlen : length (GetHighRiskPatients history patients) =
                 length (filter (isHighRisk history) patients)).
  { apply Permutation_length.
    apply (proj1 (high_risk_patients_sorted_aux patients)). }
  assert (Htotal : metrics.(totalPatients) = Z.of_nat (length patients)).
  { unfold metrics, GenerateDashboardMetrics.
    destruct (fold_left (countPatient history) patients (0%Z, 0%Z)). reflexivity. }
  split; [now rewrite Hhigh, Hlen | split; [exact Htotal |]].
  rewrite Hhigh, Htotal. pose proof (filter_length_le (isHighRisk history) patients). lia.
Qed.

End ReadmissionPredictionServiceFacts.

(** ** The hazard ratio and the column that stores it *)

Lemma squareDown_sound (k : nat) :
  forall (a : Z) (x : R),
    (0 <= a)%Z -> IZR a / IZR fixedPoint <= Rtrigo_def.exp x ->
    IZR (squareDown k a) / IZR fixedPoint <= Rtrigo_def.exp (2 ^ k * x).
Proof.
  assert (HD : 0 < IZR fixedPoint) by (apply IZR_lt; reflexivity).
  induction k as [| k IH]; intros a x Ha Hx.
  - cbn [squareDown Rpow_def.pow]. now rewrite Rmult_1_l.
  - cbn [squareDown Rpow_def.pow].
    replace (2 * 2 ^ k * x) with (2 ^ k * (x + x)) by ring.
    apply IH.
    + apply Z.div_pos; [| reflexivity]. now apply Z.mul_nonneg_nonneg.
    + rewrite exp_plus.
      assert (Hfloor : IZR (a * a / fixedPoint) * IZR fixedPoint <= IZR a * IZR a).
      { rewrite <- !mult_IZR. apply IZR_le. rewrite Z.mul_comm.
        apply Z.mul_div_le. reflexivity. }
      assert (Ha0 : 0 <= IZR a / IZR fixedPoint).
      { apply Rmult_le_pos; [now apply IZR_le | left; now apply Rinv_0_lt_compat]. }
      apply Rle_trans with (IZR a / IZR fixedPoint * (IZR a / IZR fixedPoint)).
      * apply Rmult_le_reg_r with (IZR fixedPoint); [assumption |].
        unfold Rdiv. rewrite Rmult_assoc, Rinv_l by lra. rewrite Rmult_1_r.
        apply Rmult_le_reg_r with (IZR fixedPoint); [assumption |].
        replace (IZR a * / IZR fixedPoint * (IZR a * / IZR fixedPoint) *
                 IZR fixedPoint * IZR fixedPoint) with (IZR a * IZR a)
          by (field; lra).
        exact Hfloor.
      * apply Rmult_le_compat; assumption.
Qed.

Lemma exp_above_ten_thousand : 10000 <= Rtrigo_def.exp 9.22.
Proof.
  pose proof (squareDown_sound 13 1001125488281 (9.22 / 8192) ltac:(lia)) as H.
  replace (2 ^ 13 * (9.22 / 8192)) with 9.22 in H by (simpl; lra).
  replace (squareDown 13 1001125488281) with 10044850357147664%Z in H
    by (vm_compute; reflexivity).
  unfold fixedPoint in H. change (10 ^ 12)%Z with 1000000000000%Z in H.
  assert (Hstart : 1001125488281 / 1000000000000 <= Rtrigo_def.exp (9.22 / 8192)).
  { pose proof (exp_ineq1_le (9.22 / 8192)). lra. }
  specialize (H Hstart). lra.
Qed.

Lemma horizon_risks_in_unit_interval_aux (f : RiskPredictionDto) :
  finiteFeatures f ->
  exists r30 r60 r90 : R,
    risk30Day (predictReadmissionRisk f) = Fin r30 /\ 0 <= r30 <= 1 /\
    risk60Day (predictReadmissionRisk f) = Fin r60 /\ 0 <= r60 <= 1 /\
    risk90Day (predictReadmissionRisk f) = Fin r90 /\ 0 <= r90 <= 1.
Proof.
  intros Hf.
  destruct (predict_finite f Hf) as (h & Hh & Hhr & _ & H30 & H60 & H90).
  exists (1 - Rpower (S0 30) h), (1 - Rpower (S0 60) h), (1 - Rpower (S0 90) h).
  destruct (rawRisk_Fin 30 h ltac:(lra) Hh) as [_ B30].
  destruct (rawRisk_Fin 60 h ltac:(lra) Hh) as [_ B60].
  destruct (rawRisk_Fin 90 h ltac:(lra) Hh) as [_ B90].
  repeat split; try assumption; lra.
Qed.

(** X20: the three horizon risks always fit the [NUMERIC(5,4)] columns
    that store them, the hazard ratio does not always fit its
    [NUMERIC(10,6)] column.  On finite covariates the risks are at most 1,
    below the capacity 10 of their columns; but as soon as the linear
    predictor reaches 9.22 the hazard ratio is at least 10^4, the capacity
    of its column, and the predictor is 9.69 for a patient with eight
    comorbidities, six prior admissions, diabetes, CHF and COPD. *)
Theorem hazard_ratio_outgrows_its_column :
  capacity riskColumn = 10 /\
  capacity hazardRatioColumn = 10000 /\
  (forall f : RiskPredictionDto, finiteFeatures f ->
     exists r30 r60 r90 : R,
       risk30Day (predictReadmissionRisk f) = Fin r30 /\
       risk60Day (predictReadmissionRisk f) = Fin r60 /\
       risk90Day (predictReadmissionRisk f) = Fin r90 /\
       0 <= r30 < capacity riskColumn /\
       0 <= r60 < capacity riskColumn /\
       0 <= r90 < capacity riskColumn) /\
  (forall (f : RiskPredictionDto) (lp : R),
     linearPredictor f = Fin lp -> 9.22 <= lp ->
     exists h : R,
       hazardRatio (predictReadmissionRisk f) = Fin h /\
       capacity hazardRatioColumn <= h) /\
  linearPredictor frequentPatient = Fin 9.69.
Proof.
  assert (Hrisk : capacity riskColumn = 10) by (unfold capacity; cbn; lra).
  assert (Hhr : capacity hazardRatioColumn = 10000) by (unfold capacity; cbn; lra).
  split; [exact Hrisk | split; [exact Hhr | split; [| split]]].
  - intros f Hf. rewrite Hrisk.
    destruct (horizon_risks_in_unit_interval_aux f Hf)
      as (r30 & r60 & r90 & H30 & B30 & H60 & B60 & H90 & B90).
    exists r30, r60, r90. repeat split; (assumption || lra).
  - intros f lp Hlp Hbig. exists (Rtrigo_def.exp lp). split.
    + rewrite predict_hazardRatio. unfold calculateCoxRiskScore. now rewrite Hlp.
    + rewrite Hhr. apply Rle_trans with (Rtrigo_def.exp 9.22).
      * apply exp_above_ten_thousand.
      * now apply exp_monotone.
  - unfold frequentPatient. rewrite linearPredictor_Fin. f_equal.
    unfold linearPredictorR, indicatorR. lra.
Qed.

(** ** Instances of the further properties *)

(** The frequent patient is a high-risk one: the hazard ratio is above 3
    and the baseline survival at 30 days below 0.7022, whose cube is below
    0.36. *)
Lemma frequentPatient_is_high :
  riskCategory (predictReadmissionRisk frequentPatient) = "high".
Proof.
  rewrite predict_riskCategory. unfold frequentPatient.
  rewrite calculateCoxRiskScore_Fin.
  replace (linearPredictorR 65 8 6 true true true 50) with 9.69
    by (unfold linearPredictorR, indicatorR; lra).
  set (h := Rtrigo_def.exp 9.69).
  assert (Hh : 3 <= h).
  { pose proof exp_above_ten_thousand.
    pose proof (exp_monotone 9.22 9.69 ltac:(lra)). unfold h. lra. }
  assert (H30 : 0 < 30) by lra.
  assert (Hpos : 0 < h) by lra.
  destruct (rawRisk_Fin 30 h H30 Hpos) as [-> _].
  destruct (baseline_default 30 H30) as [_ HS].
  assert (Hbase : S0 30 <= 0.702199219186).
  { unfold S0, weibull.
    apply (exp_neg_baseline_exponent_bounds _ baseline_exponent_30_bounds). }
  assert (Hcube : Rpower (S0 30) 3 = S0 30 * S0 30 * S0 30).
  { replace 3 with (1 + 1 + 1) by ring.
    now rewrite !Rpower_plus, Rpower_1 by lra. }
  pose proof (Rpower_antitone_exponent (S0 30) 3 h HS Hh) as Hle.
  rewrite Hcube in Hle.
  assert (Hsq : S0 30 * S0 30 <= 0.5) by nra.
  assert (Hcb : S0 30 * S0 30 * S0 30 <= 0.36) by nra.
  unfold categorize. rewrite gtb_Fin_true by lra. reflexivity.
Qed.

(** C10 at the frequent patient, a high-risk one: the plan attached is the
    six-item plan. *)
Lemma care_plan_consistent_with_category_witness :
  finiteFeatures frequentPatient /\
  riskCategory (prediction (assessPatientRisk "frequent" frequentPatient)) = "high" /\
  carePlan (assessPatientRisk "frequent" frequentPatient) = highPlan /\
  length (carePlan (assessPatientRisk "frequent" frequentPatient)) = 6%nat.
Proof.
  assert (Hf : finiteFeatures frequentPatient) by (repeat split; reflexivity).
  split; [exact Hf | split; [exact frequentPatient_is_high |]].
  exact (proj1 (proj2 (proj2 (proj2 (proj2 (proj2
           (care_plan_consistent_with_category "frequent" frequentPatient Hf))))))
         frequentPatient_is_high).
Defined.

Lemma confidence_band_brackets_risk_witness :
  finiteFeatures referencePatient /\
  exists x : R,
    risk30Day (predictReadmissionRisk referencePatient) = Fin x /\
    confidenceLower (predictReadmissionRisk referencePatient) = Fin (x * 0.85) /\
    confidenceUpper (predictReadmissionRisk referencePatient) =
      Fin (Rmin 1 (x * 1.15)) /\
    0 <= x * 0.85 <= x /\ x <= Rmin 1 (x * 1.15) <= 1.
Proof.
  assert (Hf : finiteFeatures referencePatient) by (repeat split; reflexivity).
  split; [exact Hf | exact (confidence_band_brackets_risk referencePatient Hf)].
Defined.

Lemma risk_monotone_in_covariates_witness :
  atLeastAsSevere frequentPatient referencePatient /\
  le (risk30Day (predictReadmissionRisk referencePatient))
     (risk30Day (predictReadmissionRisk frequentPatient)).
Proof.
  assert (Hs : atLeastAsSevere frequentPatient referencePatient).
  { unfold atLeastAsSevere, finiteFeatures. cbn.
    repeat split; try reflexivity; try lra; discriminate. }
  split; [exact Hs |].
  exact (proj1 (proj2 (risk_monotone_in_covariates referencePatient frequentPatient Hs))).
Defined.

Lemma nan_covariate_is_classified_low_witness :
  hasNaN (withAge referencePatient NaN) /\
  carePlan (assessPatientRisk "reference" (withAge referencePatient NaN)) = lowPlan.
Proof.
  assert (Hn : hasNaN (withAge referencePatient NaN)) by (left; reflexivity).
  split; [exact Hn |].
  exact (proj2 (nan_covariate_is_classified_low "reference" _ Hn)).
Defined.

Lemma hazard_ratio_factors_witness :
  finiteFeatures referencePatient /\
  calculateCoxRiskScore (withNumComorbidities referencePatient (Fin (0 + 1))) =
  mul (Fin (Rtrigo_def.exp 0.52)) (calculateCoxRiskScore referencePatient).
Proof.
  assert (Hf : finiteFeatures referencePatient) by (repeat split; reflexivity).
  split; [exact Hf |].
  exact (proj1 (proj2 (hazard_ratio_factors referencePatient Hf)) 0 eq_refl).
Defined.

Lemma weibull_survival_shape_witness :
  0 < 1.5 /\ 0 < 60 /\
  calculateWeibullSurvival 60 (Some (Fin 1.5)) (Some (Fin 60)) =
  Fin (Rtrigo_def.exp (- 1)).
Proof.
  assert (Hk : 0 < 1.5) by lra. assert (Hl : 0 < 60) by lra.
  split; [exact Hk | split; [exact Hl |]].
  exact (proj1 (proj2 (weibull_survival_shape 1.5 60 Hk Hl))).
Defined.


Lemma day_40_in_curves :
  exists curves : list SurvivalCurvePoint,
    getSurvivalCurves (Fin (INR 40)) = Returned curves /\
    In (curvePoint (INR 39 + 1)) curves.
Proof.
  eexists. split.
  - apply getSurvivalCurves_of_nat. vm_compute. reflexivity.
  - apply nth_error_In with (n := 39%nat).
    rewrite nth_error_map, nth_error_seq. reflexivity.
Qed.

Lemma survival_curves_order_witness :
  exists curves : list SurvivalCurvePoint,
    getSurvivalCurves (Fin (INR 40)) = Returned curves /\
    In (curvePoint (INR 39 + 1)) curves /\
    exists d h m l : R,
      curvePoint (INR 39 + 1) =
        {| day := Fin d; highRisk := Fin h; mediumRisk := Fin m; lowRisk := Fin l |} /\
      1 <= d /\ (34 <= d -> h <= m <= l) /\ (34 <= d <= 1000 -> h < m < l) /\
      (d <= 11 -> l < m < h).
Proof.
  destruct day_40_in_curves as (curves & Hrun & Hin).
  exists curves. split; [exact Hrun | split; [exact Hin |]].
  exact (survival_curves_order _ curves _ Hrun Hin).
Defined.

Lemma first_two_days :
  exists curves : list SurvivalCurvePoint,
    getSurvivalCurves (Fin (INR 2)) = Returned curves /\
    nth_error curves 0 = Some (curvePoint (INR 0 + 1)) /\
    nth_error curves 1 = Some (curvePoint (INR 1 + 1)).
Proof.
  eexists. split.
  - apply getSurvivalCurves_of_nat. vm_compute. reflexivity.
  - split; reflexivity.
Qed.

Lemma survival_curves_decrease_witness :
  exists curves : list SurvivalCurvePoint,
    getSurvivalCurves (Fin (INR 2)) = Returned curves /\
    nth_error curves 0 = Some (curvePoint (INR 0 + 1)) /\
    nth_error curves 1 = Some (curvePoint (INR 1 + 1)) /\
    exists d h m l h' m' l' : R,
      curvePoint (INR 0 + 1) =
        {| day := Fin d; highRisk := Fin h; mediumRisk := Fin m; lowRisk := Fin l |} /\
      curvePoint (INR 1 + 1) =
        {| day := Fin (d + 1); highRisk := Fin h'; mediumRisk := Fin m';
           lowRisk := Fin l' |} /\
      d = INR 0 + 1 /\
      (0 <= h' <= h /\ h <= 1 /\ 0 <= m' <= m /\ m <= 1 /\ 0 <= l' <= l /\ l <= 1) /\
      (d + 1 <= 1000 ->
       0 < h' < h /\ h < 1 /\ 0 < m' < m /\ m < 1 /\ 0 < l' < l /\ l < 1).
Proof.
  destruct first_two_days as (curves & Hrun & H0 & H1).
  exists curves. split; [exact Hrun | split; [exact H0 | split; [exact H1 |]]].
  exact (survival_curves_decrease _ curves _ _ _ Hrun H0 H1).
Defined.

(** X13 with the power of the service as [Math.Pow] and [Array.MaxLength]
    as the capacity of a list. *)
Lemma generate_survival_curves_terminates_witness :
  (0 <= 2147483591 < 2 ^ 31 - 1)%Z /\
  (forall b e : R, 0 < b -> pow (Fin b) (Fin e) = Fin (Rpower b e)) /\
  (exists curves : list EngineCurves.SurvivalCurvePoint,
     EngineCurves.GenerateSurvivalCurves pow 2147483591 4 3 =
       Some (EngineCurves.Completed curves) /\
     length curves = 3%nat) /\
  (forall fuel : nat, (Z.to_nat 2147483591 < fuel)%nat ->
     EngineCurves.GenerateSurvivalCurves pow 2147483591 fuel (2 ^ 31 - 1) =
       Some EngineCurves.OutOfMemoryException).
Proof.
  assert (Hcap : (0 <= 2147483591 < 2 ^ 31 - 1)%Z)
    by (vm_compute; split; [discriminate | reflexivity]).
  split; [exact Hcap | split; [exact pow_Fin_pos | split]].
  - destruct (proj1 (generate_survival_curves_terminates pow 2147483591 Hcap pow_Fin_pos)
                3%Z 4%nat)
      as (curves & Hrun & Hlen & _).
    + vm_compute. split; discriminate.
    + vm_compute. lia.
    + exists curves. split; [exact Hrun | exact Hlen].
  - intros fuel Hfuel.
    apply (proj2 (generate_survival_curves_terminates pow 2147483591 Hcap pow_Fin_pos)).
    + vm_compute. split; reflexivity.
    + exact Hfuel.
Defined.

Lemma client_drops_care_plan_witness :
  map fst sampleRow = riskAssessmentsColumns /\
  exists decoded : FlutterClient.RiskAssessment unit,
    FlutterClient.RiskAssessment_fromJson unit (fun _ => Some tt) tt
      (assessmentResponse sampleRow JNull (JArr (map JStr lowPlan))) = Some decoded /\
    FlutterClient.carePlan unit decoded = None /\
    FlutterClient.competingRisks unit decoded = None.
Proof.
  assert (Hkeys : map fst sampleRow = riskAssessmentsColumns) by reflexivity.
  split; [exact Hkeys |].
  eexists. split; [reflexivity |].
  apply (client_drops_care_plan unit (fun _ => Some tt) tt sampleRow JNull
           (JArr (map JStr lowPlan)) _ Hkeys).
  reflexivity.
Defined.

(** X18 on two patients, the first of which is a high-risk one: the list
    holds that patient and the dashboard counts 1. *)
Lemma dashboard_counts_high_risk_patients_witness :
  (Z.of_nat (length [patientA; patientB]) < 2 ^ 31)%Z /\
  ReadmissionPredictionService.GetHighRiskPatients sampleHistory
    [patientA; patientB] = [patientA] /\
  ReadmissionPredictionService.highRiskPatients
    (ReadmissionPredictionService.GenerateDashboardMetrics sampleHistory
       [patientA; patientB] []) = 1%Z /\
  ReadmissionPredictionService.highRiskPatients
    (ReadmissionPredictionService.GenerateDashboardMetrics sampleHistory
       [patientA; patientB] []) =
  Z.of_nat (length (ReadmissionPredictionService.GetHighRiskPatients sampleHistory
                      [patientA; patientB])).
Proof.
  assert (Hsize : (Z.of_nat (length [patientA; patientB]) < 2 ^ 31)%Z)
    by (vm_compute; reflexivity).
  split; [exact Hsize | split; [reflexivity | split; [reflexivity |]]].
  exact (proj1 (dashboard_counts_high_risk_patients sampleHistory
                  [patientA; patientB] [] Hsize)).
Defined.

Lemma PredictReadmissionRisk_agrees_witness :
  (forall b e : R, 0 < b -> pow (Fin b) (Fin e) = Fin (Rpower b e)) /\
  ageInRange (Age referenceRequest) /\
  isFinite (SocioeconomicIndex referenceRequest) = true /\
  CarePlan (PredictReadmissionRisk pow referenceRequest) =
  carePlan (assessPatientRisk "reference" (toDto referenceRequest)).
Proof.
  assert (Hage : ageInRange (Age referenceRequest)) by (vm_compute; split; [discriminate | reflexivity]).
  assert (Hses : isFinite (SocioeconomicIndex referenceRequest) = true) by reflexivity.
  split; [exact pow_Fin_pos | split; [exact Hage | split; [exact Hses |]]].
  apply (PredictReadmissionRisk_agrees pow pow_Fin_pos referenceRequest Hage Hses).
Defined.
